(** * Schema normalization of realm-js, embedded in Rocq

    The development follows the schema normalizer of the repository
    (the module that exports [normalizeRealmSchema], [normalizeObjectSchema]
    and [normalizePropertySchema]).  The definitions of the first part are
    transcriptions of the TypeScript functions of the same names; the
    vocabulary of the specification and the properties come after.

    Conventions of the embedding:
    - a JavaScript string is a [string]; the characters stand for the code
      units of the string, and every character the normalizer inspects
      (the collection suffixes and the question mark) is a single unit;
    - a value of type [T | undefined] is an [option T], [None] being
      [undefined], and truthiness ([!!x], [x && y], [x || y]) is written
      out with [truthy] functions;
    - a thrown exception is the [Throw] result of an error monad;
    - an object used as a mapping from property names is the association
      list of its own enumerable keys, in enumeration order and with one
      entry per key.  A mapping given as input is taken in the order the
      list gives; the records the normalizer builds are written with
      [assign] (an assignment) and [define] (the definition of an own
      property), which follow JavaScript on the name "__proto__" and on
      the place of array indices.  The prototype of a record is not part
      of the list. *)

From Stdlib Require Import ZArith List Bool String Ascii Lia.
Import ListNotations.

Open Scope string_scope.
Open Scope Z_scope.

(** ** JavaScript strings *)

Module JS.

Definition length (s : string) : Z := Z.of_nat (String.length s).

(** Index arguments of [substring] are clamped to the string. *)
Definition clamp (s : string) (i : Z) : Z := Z.max 0 (Z.min i (length s)).

(** [s.substring(start, end)]: both ends clamped, swapped when out of
    order. *)
Definition substring (s : string) (start end_ : Z) : string :=
  let a := clamp s start in
  let b := clamp s end_ in
  let lo := Z.min a b in
  let hi := Z.max a b in
  String.substring (Z.to_nat lo) (Z.to_nat (hi - lo)) s.

(** [s.substring(start)] *)
Definition substringFrom (s : string) (start : Z) : string :=
  substring s start (length s).

(** [s.endsWith(search)] *)
Definition endsWith (s search : string) : bool :=
  let start := length s - length search in
  if start <? 0 then false
  else String.eqb (substring s start (length s)) search.

(** Truthiness of a string, of a boolean and of a possibly undefined
    value. *)
Definition truthy (s : string) : bool := negb (String.eqb s "").

Definition truthyOpt (o : option string) : bool :=
  match o with
  | Some s => truthy s
  | None => false
  end.

Definition truthyBool (o : option bool) : bool :=
  match o with
  | Some b => b
  | None => false
  end.

(** [s.indexOf(search, position)]: the position is clamped to the
    string; the result is -1 when there is no occurrence at or after it. *)
Definition indexOf (s search : string) (position : Z) : Z :=
  match String.index (Z.to_nat (clamp s position)) search s with
  | Some n => Z.of_nat n
  | None => -1
  end.

(** [xs.join(sep)] *)
Fixpoint join (sep : string) (xs : list string) : string :=
  match xs with
  | [] => ""
  | [x] => x
  | x :: rest => x ++ sep ++ join sep rest
  end.

End JS.

(** ** Errors and the error monad *)

(** The error classes are imported by the normalizer from the package's
    internal module; an error value records the class and the arguments
    its constructor receives: the message, and the object and property
    names of the info the error is raised for. *)
Inductive error : Type :=
| SchemaParseError (message : string)
| ObjectSchemaParseError (message objectName : string)
| PropertySchemaParseError (message objectName propertyName : string)
| Error (message : string).

Inductive result (A : Type) : Type :=
| Ok (a : A)
| Throw (e : error).

Arguments Ok {A} a.
Arguments Throw {A} e.

Definition bind {A B : Type} (r : result A) (k : A -> result B) : result B :=
  match r with
  | Ok a => k a
  | Throw e => Throw e
  end.

Declare Scope result_scope.
Delimit Scope result_scope with result.
Notation "x <- r ;; k" := (bind r (fun x => k))
  (at level 61, r at next level, right associativity) : result_scope.
Notation "' p <- r ;; k" := (bind r (fun x => let p := x in k))
  (at level 61, p pattern, r at next level, right associativity) : result_scope.
Notation "r ;; k" := (bind r (fun _ => k))
  (at level 61, right associativity) : result_scope.
Open Scope result_scope.

Definition isThrow {A : Type} (r : result A) : Prop := exists e, r = Throw e.

(** Modelled from the spec: the [assert] helper is imported from the
    package's internal module and is not part of the normalizer's file.
    Following the failure semantics of the spec (a violated rule raises
    its error at the point of detection), [assert cond err] raises [err]
    when the condition is falsy and does nothing otherwise. *)
Definition assert (condition : bool) (err : error) : result unit :=
  if condition then Ok tt else Throw err.

(** ** Type classifier *)

Definition PRIMITIVE_TYPES : list string :=
  ["bool"; "int"; "float"; "double"; "decimal128"; "objectId"; "string";
   "data"; "date"; "mixed"; "uuid"].

Definition COLLECTION_TYPES : list string := ["list"; "dictionary"; "set"].

Definition COLLECTION_SHORTHAND_TO_NAME : list (string * string) :=
  [("[]", "list"); ("{}", "dictionary"); ("<>", "set")].

(** [set.has(x)] *)
Definition has (set : list string) (x : option string) : bool :=
  match x with
  | Some s => existsb (String.eqb s) set
  | None => false
  end.

(** [record[key]] *)
Fixpoint get {A : Type} (record : list (string * A)) (key : string) : option A :=
  match record with
  | [] => None
  | (k, v) :: rest => if String.eqb k key then Some v else get rest key
  end.

Definition isPrimitive (type : option string) : bool := has PRIMITIVE_TYPES type.

Definition isCollection (type : option string) : bool := has COLLECTION_TYPES type.

Definition isUserDefined (type : option string) : bool :=
  JS.truthyOpt type
  && negb (isPrimitive type || isCollection type
           || match type with Some t => String.eqb t "object" | None => false end
           || match type with Some t => String.eqb t "linkingObjects" | None => false end).

(** ** Implicit optionality *)

Definition optionalIsImplicitlyTrue (type : string) (objectType : option string) : bool :=
  String.eqb type "mixed"
  || match objectType with Some o => String.eqb o "mixed" | None => false end
  || String.eqb type "object"
  || (String.eqb type "dictionary" && isUserDefined objectType).

Definition optionalIsImplicitlyFalse (type : string) (objectType : option string) : bool :=
  (String.eqb type "list" || String.eqb type "set" || String.eqb type "linkingObjects")
  && isUserDefined objectType.

(** ** Shorthand suffixes *)

(** [end] has at most two code units, so the lookup in the table finds
    own keys only. *)
Definition hasCollectionSuffix (input : string) : bool :=
  let end_ := JS.substringFrom input (JS.length input - 2) in
  JS.truthyOpt (get COLLECTION_SHORTHAND_TO_NAME end_).

(** ** Data model *)

(** A property definition in explicit object form.  [Value] is the type
    of default values, which the normalizer copies and never inspects. *)
Module PropertySchema.
Record t {Value : Type} : Type := mk {
  type : string;
  objectType : option string;
  property : option string;
  optional : option bool;
  indexed : option bool;
  mapTo : option string;
  default : option Value
}.
Arguments t : clear implicits.
Arguments mk {Value}.
End PropertySchema.

(** A property definition is a shorthand string or an explicit object. *)
Inductive PropertyDefinition (Value : Type) : Type :=
| Shorthand (s : string)
| Explicit (p : PropertySchema.t Value).

Arguments Shorthand {Value} s.
Arguments Explicit {Value} p.

Module PropertyInfo.
Record t {Value : Type} : Type := mk {
  objectName : string;
  propertyName : string;
  propertySchema : PropertyDefinition Value;
  isPrimaryKey : option bool
}.
Arguments t : clear implicits.
Arguments mk {Value}.
End PropertyInfo.

(** Optional fields are [None] when the record has no such key. *)
Module CanonicalPropertySchema.
Record t {Value : Type} : Type := mk {
  name : string;
  type : string;
  optional : bool;
  indexed : bool;
  mapTo : string;
  objectType : option string;
  property : option string;
  default : option Value
}.
Arguments t : clear implicits.
Arguments mk {Value}.
End CanonicalPropertySchema.

(** The [properties] of an object definition: a mapping from property
    name to definition, or the deprecated array of named definitions. *)
Inductive PropertiesTypes (Value : Type) : Type :=
| PropertiesObject (entries : list (string * PropertyDefinition Value))
| PropertiesArray (items : list (string * PropertySchema.t Value)).

Arguments PropertiesObject {Value} entries.
Arguments PropertiesArray {Value} items.

Module ObjectSchema.
Record t {Value : Type} : Type := mk {
  name : string;
  primaryKey : option string;
  asymmetric : option bool;
  embedded : option bool;
  properties : PropertiesTypes Value
}.
Arguments t : clear implicits.
Arguments mk {Value}.
End ObjectSchema.

(** A class constructor: the identity of the function object and its
    static [schema] field. *)
Module RealmObjectConstructor.
Record t {Value : Type} : Type := mk {
  self : nat;
  schema : option (ObjectSchema.t Value)
}.
Arguments t : clear implicits.
Arguments mk {Value}.
End RealmObjectConstructor.

Inductive ObjectSchemaInput (Value : Type) : Type :=
| Class (c : RealmObjectConstructor.t Value)
| Plain (o : ObjectSchema.t Value).

Arguments Class {Value} c.
Arguments Plain {Value} o.

Module CanonicalObjectSchema.
Record t {Value : Type} : Type := mk {
  name : string;
  primaryKey : option string;
  asymmetric : bool;
  embedded : bool;
  properties : list (string * CanonicalPropertySchema.t Value);
  ctor : option (RealmObjectConstructor.t Value)
}.
Arguments t : clear implicits.
Arguments mk {Value}.
End CanonicalObjectSchema.

(** The feature flags of the package, read by the normalizer. *)
Record Flags : Type := { ALLOW_VALUES_ARRAYS : bool }.

(** [Object.prototype.hasOwnProperty.call(record, key)] *)
Definition hasOwnProperty {A : Type} (record : list (string * A)) (key : string) : bool :=
  existsb (fun kv => String.eqb (fst kv) key) record.

(** The value of a decimal digit. *)
Definition digit (c : ascii) : option N :=
  let n := N_of_ascii c in
  if ((48 <=? n) && (n <=? 57))%N then Some (n - 48)%N else None.

(** The number a string of decimal digits writes, after [acc]. *)
Fixpoint decimal (s : string) (acc : N) : option N :=
  match s with
  | EmptyString => Some acc
  | String c s' =>
      match digit c with
      | Some d => decimal s' (10 * acc + d)%N
      | None => None
      end
  end.

(** The array index a property name stands for: the name is the
    canonical decimal writing, without a leading zero, of an integer
    below 2^32 - 1.  The own keys of an object are enumerated with the
    array indices first, in ascending order, and the other names after
    them in the order of their creation. *)
Definition arrayIndex (key : string) : option N :=
  match key with
  | EmptyString => None
  | String c rest =>
      if Ascii.eqb c "0" && negb (String.eqb rest "") then None
      else
        match decimal key 0 with
        | Some n => if (n <? 4294967295)%N then Some n else None
        | None => None
        end
  end.

(** The value of a key already present is replaced, at its place; a key
    that is new comes last. *)
Fixpoint store {A : Type} (record : list (string * A)) (key : string) (value : A)
  : list (string * A) :=
  match record with
  | [] => [(key, value)]
  | (k, v) :: rest =>
      if String.eqb k key then (k, value) :: rest
      else (k, v) :: store rest key value
  end.

(** A new array index is placed after the smaller indices of the
    record and before its other keys. *)
Fixpoint insertIndex {A : Type} (record : list (string * A)) (n : N)
    (key : string) (value : A) : list (string * A) :=
  match record with
  | [] => [(key, value)]
  | (k, v) :: rest =>
      match arrayIndex k with
      | Some m =>
          if (n <? m)%N then (key, value) :: (k, v) :: rest
          else (k, v) :: insertIndex rest n key value
      | None => (key, value) :: (k, v) :: rest
      end
  end.

(** The definition of an own property of the record, as
    [Object.fromEntries] makes it for each entry: it does not go through
    setters, so that the name "__proto__" is defined like any other. *)
Definition define {A : Type} (record : list (string * A)) (key : string) (value : A)
  : list (string * A) :=
  match arrayIndex key with
  | Some n =>
      if hasOwnProperty record key then store record key value
      else insertIndex record n key value
  | None => store record key value
  end.

(** [record[key] = value], on a record created by [{}] and written by
    assignment only.  The name "__proto__" reaches the setter inherited
    from [Object.prototype]: the assignment sets the prototype of the
    record and stores no own key.  Any other name is stored; the loop
    that assigns visits the names in enumeration order, so that a new
    name comes last. *)
Definition assign {A : Type} (record : list (string * A)) (key : string) (value : A)
  : list (string * A) :=
  if String.eqb key "__proto__" then record else store record key value.

(** [Object.fromEntries(entries)] *)
Definition fromEntries {A : Type} (entries : list (string * A)) : list (string * A) :=
  fold_left (fun record kv => define record (fst kv) (snd kv)) entries [].

(** ** Property normalization *)

Section Normalize.

Context {Value : Type}.

Definition propError (info : PropertyInfo.t Value) (message : string) : error :=
  PropertySchemaParseError message
    (PropertyInfo.objectName info) (PropertyInfo.propertyName info).

Definition objectError (objectName message : string) : error :=
  ObjectSchemaParseError message objectName.

(** *** Shorthand notation

    [normalizePropertySchemaShorthand] runs four blocks one after the
    other on the local variables [propertySchema], [type], [objectType]
    and [optional]; each block is a definition here. *)

(** The collection suffix block: returns [type] and the stripped
    [propertySchema]. *)
Definition shorthandCollection (info : PropertyInfo.t Value) (propertySchema : string)
  : result (string * string) :=
  if hasCollectionSuffix propertySchema then
    let suffix := JS.substringFrom propertySchema (JS.length propertySchema - 2) in
    let type :=
      match get COLLECTION_SHORTHAND_TO_NAME suffix with
      | Some n => n
      | None => ""
      end in
    let propertySchema := JS.substring propertySchema 0 (JS.length propertySchema - 2) in
    assert (0 <? JS.length propertySchema)
      (propError info ("The element type must be specified (Example: 'int" ++ suffix ++ "')")) ;;
    let isNestedCollection := hasCollectionSuffix propertySchema in
    assert (negb isNestedCollection)
      (propError info "Nested collections are not supported.") ;;
    Ok (type, propertySchema)
  else Ok ("", propertySchema).

(** The optional marker block: returns [optional] and the stripped
    [propertySchema]. *)
Definition shorthandOptional (info : PropertyInfo.t Value) (propertySchema : string)
  : result (option bool * string) :=
  if JS.endsWith propertySchema "?" then
    let optional := Some true in
    let propertySchema := JS.substring propertySchema 0 (JS.length propertySchema - 1) in
    assert (0 <? JS.length propertySchema)
      (propError info "The type must be specified. (Examples: 'int?' and 'int?[]')") ;;
    let usingOptionalOnCollection := hasCollectionSuffix propertySchema in
    assert (negb usingOptionalOnCollection)
      (propError info "Collections cannot be optional. To allow elements of the collection to be optional, use '?' after the element type. (Examples: 'int?[]', 'int?{}', and 'int?<>')") ;;
    Ok (optional, propertySchema)
  else Ok (None, propertySchema).

(** The classification block: returns [type] and [objectType]. *)
Definition shorthandClassify (info : PropertyInfo.t Value) (type propertySchema : string)
  : result (string * option string) :=
  if isPrimitive (Some propertySchema) then
    if isCollection (Some type) then Ok (type, Some propertySchema)
    else Ok (propertySchema, None)
  else if isCollection (Some propertySchema) then
    Throw (propError info
      ("Cannot use the collection name " ++ propertySchema
       ++ ". (Examples: 'int[]' (list), 'int{}' (dictionary), and 'int<>' (set))"))
  else if String.eqb propertySchema "object" then
    Throw (propError info
      "To define a relationship, use either 'MyObjectType' or { type: 'object', objectType: 'MyObjectType' }")
  else if String.eqb propertySchema "linkingObjects" then
    Throw (propError info
      "To define an inverse relationship, use { type: 'linkingObjects', objectType: 'MyObjectType', property: 'myObjectTypesProperty' }")
  else
    Ok (if negb (isCollection (Some type)) then "object" else type, Some propertySchema).

(** The implicit optionality block: returns [optional]. *)
Definition shorthandImplicit (info : PropertyInfo.t Value)
    (type : string) (objectType : option string) (optional : option bool)
  : result (option bool) :=
  if optionalIsImplicitlyTrue type objectType then Ok (Some true)
  else if optionalIsImplicitlyFalse type objectType then
    assert (negb (JS.truthyBool optional))
      (propError info "User-defined types in lists and sets are always non-optional and cannot be made optional. Remove '?' or change the type.") ;;
    Ok (Some false)
  else Ok optional.

Definition normalizePropertySchemaShorthand
    (info : PropertyInfo.t Value) (propertySchema : string)
  : result (CanonicalPropertySchema.t Value) :=
  assert (0 <? JS.length propertySchema) (propError info "The type must be specified.") ;;
  '(type, propertySchema) <- shorthandCollection info propertySchema ;;
  '(optional, propertySchema) <- shorthandOptional info propertySchema ;;
  '(type, objectType) <- shorthandClassify info type propertySchema ;;
  optional <- shorthandImplicit info type objectType optional ;;
  Ok {| CanonicalPropertySchema.name := PropertyInfo.propertyName info;
        CanonicalPropertySchema.type := type;
        CanonicalPropertySchema.optional := JS.truthyBool optional;
        CanonicalPropertySchema.indexed := JS.truthyBool (PropertyInfo.isPrimaryKey info);
        CanonicalPropertySchema.mapTo := PropertyInfo.propertyName info;
        CanonicalPropertySchema.objectType := objectType;
        CanonicalPropertySchema.property := None;
        CanonicalPropertySchema.default := None |}.

(** *** Explicit object notation *)

Definition assertNotUsingShorthand (input : option string) (info : PropertyInfo.t Value)
  : result unit :=
  let shorthands : list string := [] in
  let '(shorthands, input) :=
    match input with
    | Some s =>
        if JS.truthy s && hasCollectionSuffix s
        then ((shorthands ++ [JS.substringFrom s (JS.length s - 2)])%list,
              Some (JS.substring s 0 (JS.length s - 2)))
        else (shorthands, input)
    | None => (shorthands, input)
    end in
  let shorthands :=
    if match input with Some s => JS.endsWith s "?" | None => false end
    then (shorthands ++ ["?"])%list
    else shorthands in
  assert (Nat.eqb (List.length shorthands) 0)
    (propError info
      ("Cannot use shorthand '" ++ JS.join "' and '" shorthands
       ++ "' in 'type' or 'objectType' when defining property objects.")).

(** [normalizePropertySchemaObject] runs its checks one after the other;
    the four conditional blocks are definitions here. *)

(** The block on the category of [type]. *)
Definition objectTypeRules (info : PropertyInfo.t Value)
    (type : string) (objectType property : option string) : result unit :=
  if isPrimitive (Some type) then
    assert (match objectType with None => true | Some _ => false end)
      (propError info ("'objectType' cannot be defined when 'type' is '" ++ type ++ "'."))
  else if isCollection (Some type) then
    assert (isPrimitive objectType || isUserDefined objectType)
      (propError info
        ("A " ++ type ++ " must contain only primitive or user-defined types specified through 'objectType'."))
  else if String.eqb type "object" then
    assert (isUserDefined objectType)
      (propError info "A user-defined type must be specified through 'objectType'.")
  else if String.eqb type "linkingObjects" then
    assert (isUserDefined objectType)
      (propError info "A user-defined type must be specified through 'objectType'.") ;;
    assert (JS.truthyOpt property)
      (propError info "The linking object's property name must be specified through 'property'.")
  else
    Throw (propError info
      ("If you meant to define a relationship, use { type: 'object', objectType: '" ++ type
       ++ "' } or { type: 'linkingObjects', objectType: '" ++ type
       ++ "', property: 'The " ++ type ++ " property' }")).

(** The block on [property] outside linking objects. *)
Definition objectPropertyRule (info : PropertyInfo.t Value)
    (type : string) (property : option string) : result unit :=
  if negb (String.eqb type "linkingObjects") then
    assert (match property with None => true | Some _ => false end)
      (propError info "'property' can only be specified if 'type' is 'linkingObjects'.")
  else Ok tt.

(** The implicit optionality block: returns [optional]. *)
Definition objectImplicit (info : PropertyInfo.t Value)
    (type : string) (objectType : option string) (optional : option bool)
  : result (option bool) :=
  if optionalIsImplicitlyTrue type objectType then
    let displayed :=
      if String.eqb type "mixed"
         || match objectType with Some o => String.eqb o "mixed" | None => false end
      then "'mixed' types"
      else "User-defined types as standalone objects and in dictionaries" in
    assert (match optional with Some false => false | _ => true end)
      (propError info (displayed ++ " are always optional and cannot be made non-optional.")) ;;
    Ok (Some true)
  else if optionalIsImplicitlyFalse type objectType then
    assert (match optional with Some true => false | _ => true end)
      (propError info "User-defined types in lists and sets are always non-optional and cannot be made optional.") ;;
    Ok (Some false)
  else Ok optional.

(** The primary key block: returns [indexed]. *)
Definition objectIndexed (info : PropertyInfo.t Value) (indexed : option bool)
  : result (option bool) :=
  if JS.truthyBool (PropertyInfo.isPrimaryKey info) then
    assert (match indexed with Some false => false | _ => true end)
      (propError info "Primary keys must always be indexed.") ;;
    Ok (Some true)
  else Ok indexed.

Definition normalizePropertySchemaObject
    (info : PropertyInfo.t Value) (propertySchema : PropertySchema.t Value)
  : result (CanonicalPropertySchema.t Value) :=
  let type := PropertySchema.type propertySchema in
  let objectType := PropertySchema.objectType propertySchema in
  let property := PropertySchema.property propertySchema in
  let defaultValue := PropertySchema.default propertySchema in
  let optional := PropertySchema.optional propertySchema in
  let indexed := PropertySchema.indexed propertySchema in
  assert (0 <? JS.length type) (propError info "'type' must be specified.") ;;
  assertNotUsingShorthand (Some type) info ;;
  assertNotUsingShorthand objectType info ;;
  objectTypeRules info type objectType property ;;
  objectPropertyRule info type property ;;
  optional <- objectImplicit info type objectType optional ;;
  indexed <- objectIndexed info indexed ;;
  Ok {| CanonicalPropertySchema.name := PropertyInfo.propertyName info;
        CanonicalPropertySchema.type := type;
        CanonicalPropertySchema.optional := JS.truthyBool optional;
        CanonicalPropertySchema.indexed := JS.truthyBool indexed;
        CanonicalPropertySchema.mapTo :=
          (if JS.truthyOpt (PropertySchema.mapTo propertySchema)
           then match PropertySchema.mapTo propertySchema with
                | Some m => m
                | None => PropertyInfo.propertyName info
                end
           else PropertyInfo.propertyName info);
        CanonicalPropertySchema.objectType := objectType;
        CanonicalPropertySchema.property := property;
        CanonicalPropertySchema.default := defaultValue |}.

(** Dispatch on [typeof info.propertySchema === "string"]. *)
Definition normalizePropertySchema (info : PropertyInfo.t Value)
  : result (CanonicalPropertySchema.t Value) :=
  match PropertyInfo.propertySchema info with
  | Shorthand s => normalizePropertySchemaShorthand info s
  | Explicit p => normalizePropertySchemaObject info p
  end.

(** ** Object normalization *)

(** [primaryKey === propertyName] *)
Definition isThePrimaryKey (primaryKey : option string) (propertyName : string) : bool :=
  match primaryKey with
  | Some k => String.eqb k propertyName
  | None => false
  end.

(** The [for ... in] loop of [normalizePropertySchemas], over the entries
    still to visit and the record built so far. *)
Fixpoint normalizePropertySchemasFrom
    (objectName : string) (primaryKey : option string)
    (entries : list (string * PropertyDefinition Value))
    (normalizedSchemas : list (string * CanonicalPropertySchema.t Value))
  : result (list (string * CanonicalPropertySchema.t Value)) :=
  match entries with
  | [] => Ok normalizedSchemas
  | (propertyName, propertySchema) :: entries =>
      c <- normalizePropertySchema
             {| PropertyInfo.objectName := objectName;
                PropertyInfo.propertyName := propertyName;
                PropertyInfo.propertySchema := propertySchema;
                PropertyInfo.isPrimaryKey := Some (isThePrimaryKey primaryKey propertyName) |} ;;
      normalizePropertySchemasFrom objectName primaryKey entries
        (assign normalizedSchemas propertyName c)
  end.

Definition normalizePropertySchemas
    (objectName : string)
    (propertiesSchemas : list (string * PropertyDefinition Value))
    (primaryKey : option string)
  : result (list (string * CanonicalPropertySchema.t Value)) :=
  normalizePropertySchemasFrom objectName primaryKey propertiesSchemas [].

(** [normalizeObjectSchema] on a definition whose properties are a
    mapping: the part of the function after the array block. *)
Definition normalizeObjectSchemaMapping
    (name : string) (primaryKey : option string) (asymmetric embedded : option bool)
    (properties : list (string * PropertyDefinition Value))
  : result (CanonicalObjectSchema.t Value) :=
  assert (0 <? JS.length name) (objectError "" "'name' must be specified.") ;;
  let primaryKeyFieldIsMissing :=
    match primaryKey with
    | Some k => JS.truthy k && negb (hasOwnProperty properties k)
    | None => false
    end in
  assert (negb primaryKeyFieldIsMissing)
    (objectError name
      ("'" ++ match primaryKey with Some k => k | None => "undefined" end
       ++ "' is set as the primary key field but was not found in 'properties'.")) ;;
  assert (negb (JS.truthyBool asymmetric) || negb (JS.truthyBool embedded))
    (objectError name "Cannot be both asymmetric and embedded.") ;;
  properties <- normalizePropertySchemas name properties primaryKey ;;
  Ok {| CanonicalObjectSchema.name := name;
        CanonicalObjectSchema.primaryKey := primaryKey;
        CanonicalObjectSchema.asymmetric := JS.truthyBool asymmetric;
        CanonicalObjectSchema.embedded := JS.truthyBool embedded;
        CanonicalObjectSchema.properties := properties;
        CanonicalObjectSchema.ctor := None |}.

(** [normalizeObjectSchema] on a plain definition.  An array of
    properties is rewritten into a mapping and normalized again, which
    then takes the mapping branch. *)
Definition normalizeObjectSchemaPlain (flags : Flags) (arg : ObjectSchema.t Value)
  : result (CanonicalObjectSchema.t Value) :=
  match ObjectSchema.properties arg with
  | PropertiesArray items =>
      if ALLOW_VALUES_ARRAYS flags then
        normalizeObjectSchemaMapping
          (ObjectSchema.name arg) (ObjectSchema.primaryKey arg)
          (ObjectSchema.asymmetric arg) (ObjectSchema.embedded arg)
          (fromEntries (map (fun item => (fst item, Explicit (snd item))) items))
      else Throw (Error "Array of properties are no longer supported. Use an object instead.")
  | PropertiesObject properties =>
      normalizeObjectSchemaMapping
        (ObjectSchema.name arg) (ObjectSchema.primaryKey arg)
        (ObjectSchema.asymmetric arg) (ObjectSchema.embedded arg)
        properties
  end.

(** [objectSchema.ctor = arg] *)
Definition setCtor (objectSchema : CanonicalObjectSchema.t Value)
    (arg : RealmObjectConstructor.t Value) : CanonicalObjectSchema.t Value :=
  {| CanonicalObjectSchema.name := CanonicalObjectSchema.name objectSchema;
     CanonicalObjectSchema.primaryKey := CanonicalObjectSchema.primaryKey objectSchema;
     CanonicalObjectSchema.asymmetric := CanonicalObjectSchema.asymmetric objectSchema;
     CanonicalObjectSchema.embedded := CanonicalObjectSchema.embedded objectSchema;
     CanonicalObjectSchema.properties := CanonicalObjectSchema.properties objectSchema;
     CanonicalObjectSchema.ctor := Some arg |}.

(** [normalizeObjectSchema]: a class constructor is unwrapped to its
    static schema and recorded on the result. *)
Definition normalizeObjectSchema (flags : Flags) (arg : ObjectSchemaInput Value)
  : result (CanonicalObjectSchema.t Value) :=
  match arg with
  | Class c =>
      match RealmObjectConstructor.schema c with
      | None => Throw (SchemaParseError "A static schema must be specified on this class.")
      | Some schema =>
          objectSchema <- normalizeObjectSchemaPlain flags schema ;;
          Ok (setCtor objectSchema c)
      end
  | Plain o => normalizeObjectSchemaPlain flags o
  end.

(** [realmSchema.map(normalizeObjectSchema)], stopping at the first
    exception. *)
Fixpoint normalizeRealmSchema (flags : Flags) (realmSchema : list (ObjectSchemaInput Value))
  : result (list (CanonicalObjectSchema.t Value)) :=
  match realmSchema with
  | [] => Ok []
  | arg :: rest =>
      o <- normalizeObjectSchema flags arg ;;
      os <- normalizeRealmSchema flags rest ;;
      Ok (o :: os)
  end.

End Normalize.

(** ** Generic type notation *)

Module Generic.
Record t : Type := mk {
  typeBase : string;
  typeArgument : option string
}.
End Generic.

Definition extractGeneric (type : string) : Generic.t :=
  let bracketStart := JS.indexOf type "<" 0 in
  let bracketEnd := JS.indexOf type ">" bracketStart in
  if bracketStart =? -1 then
    {| Generic.typeBase := type; Generic.typeArgument := None |}
  else
    {| Generic.typeBase := JS.substring type 0 bracketStart;
       Generic.typeArgument := Some (JS.substring type (bracketStart + 1) bracketEnd) |}.

(** ** Vocabulary of the specification *)

(** A name is user-defined when it is non-empty and is neither a
    primitive, a collection, "object" nor "linkingObjects". *)
Definition UserDefined (type : option string) : Prop :=
  exists s, type = Some s /\ s <> "" /\ ~ In s PRIMITIVE_TYPES
            /\ ~ In s COLLECTION_TYPES /\ s <> "object" /\ s <> "linkingObjects".

(** The three collection suffixes of the shorthand notation. *)
Definition collectionSuffixes : list string := ["[]"; "{}"; "<>"].

(** The string ends with one of the collection suffixes. *)
Definition EndsWithCollectionSuffix (s : string) : Prop :=
  exists r suffix, s = r ++ suffix /\ In suffix collectionSuffixes.

(** The character occurs in the string. *)
Fixpoint contains (c : ascii) (s : string) : bool :=
  match s with
  | EmptyString => false
  | String b s' => Ascii.eqb b c || contains c s'
  end.

(** The optional marker of the shorthand notation, written or not. *)
Definition marker (optional : bool) : string := if optional then "?" else "".

(** An element of the shorthand notation: a non-empty string that ends
    with neither a collection suffix nor the optional marker. *)
Definition Element (e : string) : Prop :=
  e <> "" /\ hasCollectionSuffix e = false /\ JS.endsWith e "?" = false.

Section Vocabulary.

Context {Value : Type}.

(** The optional flag a canonical record must carry for its resolved
    type and objectType. *)
Definition forcedOptional (c : CanonicalPropertySchema.t Value) : Prop :=
  (optionalIsImplicitlyTrue (CanonicalPropertySchema.type c)
     (CanonicalPropertySchema.objectType c) = true ->
   CanonicalPropertySchema.optional c = true)
  /\ (optionalIsImplicitlyFalse (CanonicalPropertySchema.type c)
        (CanonicalPropertySchema.objectType c) = true ->
      CanonicalPropertySchema.optional c = false).

(** The record a shorthand yields for a type, an objectType and an
    optional flag: it is named and stored under the property name, is
    indexed when the property is the primary key, and has neither a
    linking property nor a default value. *)
Definition shorthandRecord (info : PropertyInfo.t Value)
    (type : string) (objectType : option string) (optional : bool)
  : CanonicalPropertySchema.t Value :=
  {| CanonicalPropertySchema.name := PropertyInfo.propertyName info;
     CanonicalPropertySchema.type := type;
     CanonicalPropertySchema.optional := optional;
     CanonicalPropertySchema.indexed := JS.truthyBool (PropertyInfo.isPrimaryKey info);
     CanonicalPropertySchema.mapTo := PropertyInfo.propertyName info;
     CanonicalPropertySchema.objectType := objectType;
     CanonicalPropertySchema.property := None;
     CanonicalPropertySchema.default := None |}.

(** The info [normalizePropertySchemas] builds for one entry. *)
Definition entryInfo (objectName : string) (primaryKey : option string)
    (propertyName : string) (propertySchema : PropertyDefinition Value)
  : PropertyInfo.t Value :=
  {| PropertyInfo.objectName := objectName;
     PropertyInfo.propertyName := propertyName;
     PropertyInfo.propertySchema := propertySchema;
     PropertyInfo.isPrimaryKey := Some (isThePrimaryKey primaryKey propertyName) |}.

(** Every entry of a mapping normalized in turn, stopping at the first
    error. *)
Fixpoint normalizeEach (objectName : string) (primaryKey : option string)
    (entries : list (string * PropertyDefinition Value))
  : result (list (string * CanonicalPropertySchema.t Value)) :=
  match entries with
  | [] => Ok []
  | (propertyName, propertySchema) :: entries =>
      c <- normalizePropertySchema
             (entryInfo objectName primaryKey propertyName propertySchema) ;;
      cs <- normalizeEach objectName primaryKey entries ;;
      Ok ((propertyName, c) :: cs)
  end.

(** A canonical property record read as an explicit definition. *)
Definition toRawProperty (c : CanonicalPropertySchema.t Value) : PropertySchema.t Value :=
  {| PropertySchema.type := CanonicalPropertySchema.type c;
     PropertySchema.objectType := CanonicalPropertySchema.objectType c;
     PropertySchema.property := CanonicalPropertySchema.property c;
     PropertySchema.optional := Some (CanonicalPropertySchema.optional c);
     PropertySchema.indexed := Some (CanonicalPropertySchema.indexed c);
     PropertySchema.mapTo := Some (CanonicalPropertySchema.mapTo c);
     PropertySchema.default := CanonicalPropertySchema.default c |}.

(** A canonical object schema read as a raw definition: the same name,
    primary key and flags, and its records as the property definitions. *)
Definition toRaw (C : CanonicalObjectSchema.t Value) : ObjectSchema.t Value :=
  {| ObjectSchema.name := CanonicalObjectSchema.name C;
     ObjectSchema.primaryKey := CanonicalObjectSchema.primaryKey C;
     ObjectSchema.asymmetric := Some (CanonicalObjectSchema.asymmetric C);
     ObjectSchema.embedded := Some (CanonicalObjectSchema.embedded C);
     ObjectSchema.properties :=
       PropertiesObject
         (map (fun kc => (fst kc, Explicit (toRawProperty (snd kc))))
              (CanonicalObjectSchema.properties C)) |}.

(** The property names a plain definition gives, from its mapping or
    from the items of its array. *)
Definition propertyNames (properties : PropertiesTypes Value) : list string :=
  match properties with
  | PropertiesObject entries => map fst entries
  | PropertiesArray items => map fst items
  end.

(** The objectType of the record, when it has one, does not end with
    the optional marker. *)
Definition Unmarked (c : CanonicalPropertySchema.t Value) : Prop :=
  forall o, CanonicalPropertySchema.objectType c = Some o -> JS.endsWith o "?" = false.

(** The result raises nothing but property errors for [info]. *)
Definition RaisesFor {A : Type} (info : PropertyInfo.t Value) (r : result A) : Prop :=
  forall e, r = Throw e -> exists message, e = propError info message.

(** The explicit definition that spells out a record of the shorthand
    form: its type, its objectType and its optional flag. *)
Definition explicitOf (c : CanonicalPropertySchema.t Value) : PropertySchema.t Value :=
  {| PropertySchema.type := CanonicalPropertySchema.type c;
     PropertySchema.objectType := CanonicalPropertySchema.objectType c;
     PropertySchema.property := None;
     PropertySchema.optional := Some (CanonicalPropertySchema.optional c);
     PropertySchema.indexed := None;
     PropertySchema.mapTo := None;
     PropertySchema.default := None |}.

End Vocabulary.

(** * Properties *)

(** ** The error monad *)

Lemma bind_Ok {A B : Type} (r : result A) (k : A -> result B) (b : B) :
  bind r k = Ok b -> exists a, r = Ok a /\ k a = Ok b.
Proof.
  destruct r as [a|e]; simpl; intros H.
  - exists a; split; [reflexivity | exact H].
  - discriminate H.
Qed.

Lemma assert_Ok (condition : bool) (err : error) (u : unit) :
  assert condition err = Ok u -> condition = true.
Proof.
  destruct condition; simpl; [reflexivity | discriminate].
Qed.

Lemma assert_true (condition : bool) (err : error) :
  condition = true -> assert condition err = Ok tt.
Proof.
  intros ->; reflexivity.
Qed.

(** Splits a successful chain of binds and asserts in hypothesis [H]. *)
Ltac bind_inv H :=
  let a := fresh "a" in
  let Ha := fresh "H" in
  apply bind_Ok in H; destruct H as (a & Ha & H).

Ltac ok_inv H :=
  repeat (first
    [ apply assert_Ok in H
    | match type of H with
      | bind _ _ = Ok _ =>
          let a := fresh "a" in
          let Ha := fresh "H" in
          apply bind_Ok in H; destruct H as (a & Ha & H);
          try apply assert_Ok in Ha
      | match ?p with (_, _) => _ end = Ok _ => destruct p as [? ?]
      end ]).

(** ** C1: implicit optionality *)

Lemma has_In (set : list string) (s : string) : has set (Some s) = true <-> In s set.
Proof.
  unfold has. rewrite existsb_exists. split.
  - intros (x & Hx & E). apply String.eqb_eq in E. subst. exact Hx.
  - intros H. exists s. split; [exact H | apply String.eqb_refl].
Qed.

Lemma has_not_In (set : list string) (s : string) : has set (Some s) = false <-> ~ In s set.
Proof.
  rewrite <- has_In. destruct (has set (Some s)); split; congruence.
Qed.

Lemma isUserDefined_spec (type : option string) :
  isUserDefined type = true <-> UserDefined type.
Proof.
  unfold isUserDefined, UserDefined, isPrimitive, isCollection.
  destruct type as [s|]; simpl JS.truthyOpt.
  - rewrite andb_true_iff, negb_true_iff, !orb_false_iff, !has_not_In,
      !String.eqb_neq. unfold JS.truthy. rewrite negb_true_iff, String.eqb_neq.
    split.
    + intros (H0 & ((H1 & H2) & H3) & H4). exists s. tauto.
    + intros (s' & E & H). injection E as <-. tauto.
  - split; [discriminate|]. intros (s & E & _). discriminate.
Qed.

Lemma isUserDefined_not_mixed (objectType : option string) :
  isUserDefined objectType = true -> objectType <> Some "mixed".
Proof.
  intros H ->. vm_compute in H. discriminate.
Qed.

Lemma implicit_exclusive (type : string) (objectType : option string) :
  optionalIsImplicitlyTrue type objectType = true ->
  optionalIsImplicitlyFalse type objectType = true -> False.
Proof.
  unfold optionalIsImplicitlyTrue, optionalIsImplicitlyFalse.
  rewrite !orb_true_iff, !andb_true_iff, !orb_true_iff, !String.eqb_eq.
  intros HT (HF & HU).
  pose proof (isUserDefined_not_mixed _ HU) as NM.
  destruct HT as [[[-> | HT] | ->] | [-> _]].
  - destruct HF as [[HF|HF]|HF]; discriminate HF.
  - destruct objectType as [o|]; [|discriminate].
    apply String.eqb_eq in HT. subst. congruence.
  - destruct HF as [[HF|HF]|HF]; discriminate HF.
  - destruct HF as [[HF|HF]|HF]; discriminate HF.
Qed.

Lemma optionalIsImplicitlyTrue_spec (type : string) (objectType : option string) :
  optionalIsImplicitlyTrue type objectType = true <->
  (type = "mixed" \/ objectType = Some "mixed" \/ type = "object"
   \/ (type = "dictionary" /\ UserDefined objectType)).
Proof.
  unfold optionalIsImplicitlyTrue.
  rewrite !orb_true_iff, andb_true_iff, !String.eqb_eq, isUserDefined_spec.
  assert (E : match objectType with Some o => (o =? "mixed")%string | None => false end = true
              <-> objectType = Some "mixed").
  { destruct objectType as [o|]; [rewrite String.eqb_eq|]; split; congruence. }
  rewrite E. tauto.
Qed.

Lemma optionalIsImplicitlyFalse_spec (type : string) (objectType : option string) :
  optionalIsImplicitlyFalse type objectType = true <->
  ((type = "list" \/ type = "set" \/ type = "linkingObjects") /\ UserDefined objectType).
Proof.
  unfold optionalIsImplicitlyFalse.
  rewrite andb_true_iff, !orb_true_iff, !String.eqb_eq, isUserDefined_spec. tauto.
Qed.

Section Forced.

Context {Value : Type}.

Lemma shorthandImplicit_forced (info : PropertyInfo.t Value) type objectType optional o :
  shorthandImplicit info type objectType optional = Ok o ->
  (optionalIsImplicitlyTrue type objectType = true -> JS.truthyBool o = true)
  /\ (optionalIsImplicitlyFalse type objectType = true -> JS.truthyBool o = false).
Proof.
  unfold shorthandImplicit.
  destruct (optionalIsImplicitlyTrue type objectType) eqn:HT.
  - intros [= <-]. split; [reflexivity|].
    intros HF. destruct (implicit_exclusive _ _ HT HF).
  - destruct (optionalIsImplicitlyFalse type objectType) eqn:HF.
    + intros H. ok_inv H. injection H as <-. split; [discriminate | reflexivity].
    + intros _. split; discriminate.
Qed.

Lemma shorthand_forced (info : PropertyInfo.t Value) s c :
  normalizePropertySchemaShorthand info s = Ok c -> forcedOptional c.
Proof.
  unfold normalizePropertySchemaShorthand. intros H. ok_inv H.
  injection H as <-. unfold forcedOptional. simpl.
  eapply shorthandImplicit_forced; eassumption.
Qed.

End Forced.

Section ForcedObject.

Context {Value : Type}.

Lemma object_forced (info : PropertyInfo.t Value) p c :
  normalizePropertySchemaObject info p = Ok c -> forcedOptional c.
Proof.
  unfold normalizePropertySchemaObject. intros H.
  do 5 bind_inv H. bind_inv H. bind_inv H. injection H as <-.
  unfold forcedOptional. simpl. unfold objectImplicit in H5.
  destruct (optionalIsImplicitlyTrue (PropertySchema.type p) (PropertySchema.objectType p)) eqn:HT.
  - ok_inv H5. injection H5 as <-. split; [reflexivity|].
    intros HF. destruct (implicit_exclusive _ _ HT HF).
  - destruct (optionalIsImplicitlyFalse (PropertySchema.type p) (PropertySchema.objectType p)) eqn:HF.
    + ok_inv H5. injection H5 as <-. split; [discriminate | reflexivity].
    + split; discriminate.
Qed.

Lemma normalizePropertySchema_forced (info : PropertyInfo.t Value) c :
  normalizePropertySchema info = Ok c -> forcedOptional c.
Proof.
  unfold normalizePropertySchema.
  destruct (PropertyInfo.propertySchema info) as [s|p].
  - apply shorthand_forced.
  - apply object_forced.
Qed.

End ForcedObject.

(** C1. For every type and objectType at most one of the two implicit
    optionality predicates holds; [optionalIsImplicitlyTrue] holds exactly
    when type is mixed, objectType is mixed, type is object, or type is
    dictionary with a user-defined objectType; [optionalIsImplicitlyFalse]
    holds exactly when type is list, set or linkingObjects with a
    user-defined objectType; and every successful property normalization,
    shorthand or explicit, yields a record whose optional flag is true when
    the first predicate holds of its type and objectType and false when
    the second does. *)
Theorem implicit_optionality_total :
  (forall type objectType,
      ~ (optionalIsImplicitlyTrue type objectType = true
         /\ optionalIsImplicitlyFalse type objectType = true))
  /\ (forall type objectType,
        optionalIsImplicitlyTrue type objectType = true <->
        (type = "mixed" \/ objectType = Some "mixed" \/ type = "object"
         \/ (type = "dictionary" /\ UserDefined objectType)))
  /\ (forall type objectType,
        optionalIsImplicitlyFalse type objectType = true <->
        ((type = "list" \/ type = "set" \/ type = "linkingObjects")
         /\ UserDefined objectType))
  /\ (forall (Value : Type) (info : PropertyInfo.t Value) c,
        normalizePropertySchema info = Ok c ->
        (optionalIsImplicitlyTrue (CanonicalPropertySchema.type c)
           (CanonicalPropertySchema.objectType c) = true ->
         CanonicalPropertySchema.optional c = true)
        /\ (optionalIsImplicitlyFalse (CanonicalPropertySchema.type c)
              (CanonicalPropertySchema.objectType c) = true ->
            CanonicalPropertySchema.optional c = false)).
Proof.
  split; [|split; [|split]].
  - intros type objectType [HT HF]. exact (implicit_exclusive _ _ HT HF).
  - exact optionalIsImplicitlyTrue_spec.
  - exact optionalIsImplicitlyFalse_spec.
  - intros Value info c H. exact (normalizePropertySchema_forced info c H).
Qed.

(** The shorthand of a to-one relationship and the explicit form of a
    list of objects with an optional flag left out: both are accepted and
    carry the forced flag. *)
Lemma implicit_optionality_total_witness :
  let info1 : PropertyInfo.t nat :=
    PropertyInfo.mk "Task" "owner" (Shorthand "Person") (Some false) in
  let info2 : PropertyInfo.t nat :=
    PropertyInfo.mk "Person" "tasks"
      (Explicit (PropertySchema.mk "list" (Some "Task") None None None None None))
      (Some false) in
  (exists c, normalizePropertySchema info1 = Ok c
             /\ optionalIsImplicitlyTrue (CanonicalPropertySchema.type c)
                  (CanonicalPropertySchema.objectType c) = true
             /\ CanonicalPropertySchema.optional c = true)
  /\ (exists c, normalizePropertySchema info2 = Ok c
                /\ optionalIsImplicitlyFalse (CanonicalPropertySchema.type c)
                     (CanonicalPropertySchema.objectType c) = true
                /\ CanonicalPropertySchema.optional c = false).
Proof.
  intros info1 info2.
  destruct implicit_optionality_total as (_ & _ & _ & Hforced).
  split.
  - eexists. split; [vm_compute; reflexivity|]. split; [reflexivity|].
    eapply (proj1 (Hforced nat info1 _ eq_refl)). reflexivity.
  - eexists. split; [vm_compute; reflexivity|]. split; [reflexivity|].
    eapply (proj2 (Hforced nat info2 _ eq_refl)). reflexivity.
Defined.

(** ** C2: the shorthand scenarios *)

(** C2. For a property that is not the primary key, the shorthand "int"
    normalizes to type int, not optional, not indexed, stored under the
    property name, with no objectType; "int?" to the same with optional
    true; "int?[]" to a list of int with optional true; and "MyClass" to
    an object relationship to MyClass with optional true. *)
Theorem shorthand_scenarios
    (Value : Type) (objectName propertyName : string) (isPrimaryKey : option bool)
    (NotPrimaryKey : isPrimaryKey = None \/ isPrimaryKey = Some false) :
  let normalize (s : string) : result (CanonicalPropertySchema.t Value) :=
    normalizePropertySchema
      (PropertyInfo.mk objectName propertyName (Shorthand s) isPrimaryKey) in
  normalize "int"
  = Ok {| CanonicalPropertySchema.name := propertyName;
          CanonicalPropertySchema.type := "int";
          CanonicalPropertySchema.optional := false;
          CanonicalPropertySchema.indexed := false;
          CanonicalPropertySchema.mapTo := propertyName;
          CanonicalPropertySchema.objectType := None;
          CanonicalPropertySchema.property := None;
          CanonicalPropertySchema.default := None |}
  /\ normalize "int?"
     = Ok {| CanonicalPropertySchema.name := propertyName;
             CanonicalPropertySchema.type := "int";
             CanonicalPropertySchema.optional := true;
             CanonicalPropertySchema.indexed := false;
             CanonicalPropertySchema.mapTo := propertyName;
             CanonicalPropertySchema.objectType := None;
             CanonicalPropertySchema.property := None;
             CanonicalPropertySchema.default := None |}
  /\ normalize "int?[]"
     = Ok {| CanonicalPropertySchema.name := propertyName;
             CanonicalPropertySchema.type := "list";
             CanonicalPropertySchema.optional := true;
             CanonicalPropertySchema.indexed := false;
             CanonicalPropertySchema.mapTo := propertyName;
             CanonicalPropertySchema.objectType := Some "int";
             CanonicalPropertySchema.property := None;
             CanonicalPropertySchema.default := None |}
  /\ normalize "MyClass"
     = Ok {| CanonicalPropertySchema.name := propertyName;
             CanonicalPropertySchema.type := "object";
             CanonicalPropertySchema.optional := true;
             CanonicalPropertySchema.indexed := false;
             CanonicalPropertySchema.mapTo := propertyName;
             CanonicalPropertySchema.objectType := Some "MyClass";
             CanonicalPropertySchema.property := None;
             CanonicalPropertySchema.default := None |}.
Proof.
  destruct NotPrimaryKey as [-> | ->]; repeat split.
Qed.

Lemma shorthand_scenarios_witness :
  normalizePropertySchema
    (PropertyInfo.mk "Person" "age" (Shorthand "int?[]") (Some false) : PropertyInfo.t nat)
  = Ok {| CanonicalPropertySchema.name := "age";
          CanonicalPropertySchema.type := "list";
          CanonicalPropertySchema.optional := true;
          CanonicalPropertySchema.indexed := false;
          CanonicalPropertySchema.mapTo := "age";
          CanonicalPropertySchema.objectType := Some "int";
          CanonicalPropertySchema.property := None;
          CanonicalPropertySchema.default := None |}.
Proof.
  apply (shorthand_scenarios nat "Person" "age" (Some false) (or_intror eq_refl)).
Defined.

(** ** Records as association lists *)

Lemma get_In {A : Type} (record : list (string * A)) (key : string) (v : A) :
  get record key = Some v -> In (key, v) record.
Proof.
  induction record as [|[k w] rest IH]; simpl; [discriminate|].
  destruct (String.eqb k key) eqn:E.
  - apply String.eqb_eq in E. intros [= ->]. left. congruence.
  - intros H. right. exact (IH H).
Qed.

Lemma Forall_store {A : Type} (Q : string * A -> Prop) record key value :
  Forall Q record -> Q (key, value) -> Forall Q (store record key value).
Proof.
  intros HF HQ. induction HF as [|[k w] rest Hk Hrest IH]; simpl.
  - constructor; [exact HQ | constructor].
  - destruct (String.eqb k key) eqn:E.
    + apply String.eqb_eq in E. subst k. constructor; assumption.
    + constructor; assumption.
Qed.

Lemma Forall_assign {A : Type} (Q : string * A -> Prop) record key value :
  Forall Q record -> Q (key, value) -> Forall Q (assign record key value).
Proof.
  intros HF HQ. unfold assign.
  destruct (String.eqb key "__proto__"); [exact HF | apply Forall_store; assumption].
Qed.

Lemma result_Ok_or_Throw {A : Type} (r : result A) :
  (exists a, r = Ok a) \/ isThrow r.
Proof.
  destruct r as [a|e]; [left; exists a | right; exists e]; reflexivity.
Qed.

Lemma not_Ok_isThrow {A : Type} (r : result A) :
  (forall a, r <> Ok a) -> isThrow r.
Proof.
  intros H. destruct (result_Ok_or_Throw r) as [[a E]|T]; [|exact T].
  destruct (H a E).
Qed.

(** ** The property loop *)

Section Loop.

Context {Value : Type}.

(** A property of keys and canonical records that every normalized entry
    has, and the record built so far has, holds of the final record. *)
Lemma normalizePropertySchemasFrom_Forall
    (P : string -> CanonicalPropertySchema.t Value -> Prop)
    (objectName : string) (primaryKey : option string) :
  (forall k d c,
      normalizePropertySchema (entryInfo objectName primaryKey k d) = Ok c -> P k c) ->
  forall entries acc out,
    Forall (fun kc => P (fst kc) (snd kc)) acc ->
    normalizePropertySchemasFrom objectName primaryKey entries acc = Ok out ->
    Forall (fun kc => P (fst kc) (snd kc)) out.
Proof.
  intros HP entries. induction entries as [|[k d] rest IH]; simpl; intros acc out Hacc H.
  - injection H as <-. exact Hacc.
  - bind_inv H. apply (IH _ _ (Forall_assign _ _ _ _ Hacc (HP _ _ _ H0)) H).
Qed.

(** When the loop succeeds, every entry was normalized successfully. *)
Lemma normalizePropertySchemasFrom_entries
    (objectName : string) (primaryKey : option string) :
  forall (entries : list (string * PropertyDefinition Value)) acc out,
    normalizePropertySchemasFrom objectName primaryKey entries acc = Ok out ->
    Forall (fun kd => exists c,
                normalizePropertySchema
                  (entryInfo objectName primaryKey (fst kd) (snd kd)) = Ok c)
           entries.
Proof.
  induction entries as [|[k d] rest IH]; simpl; intros acc out H.
  - constructor.
  - bind_inv H. constructor; [exists a; exact H0 | exact (IH _ _ H)].
Qed.

(** Every successful object normalization ran the property loop on some
    mapping, with the name and primary key of the result. *)
Lemma normalizeObjectSchemaMapping_Ok name primaryKey asymmetric embedded properties
    (C : CanonicalObjectSchema.t Value) :
  normalizeObjectSchemaMapping name primaryKey asymmetric embedded properties = Ok C ->
  normalizePropertySchemas name properties primaryKey
  = Ok (CanonicalObjectSchema.properties C)
  /\ CanonicalObjectSchema.name C = name
  /\ CanonicalObjectSchema.primaryKey C = primaryKey.
Proof.
  unfold normalizeObjectSchemaMapping. intros H. do 4 bind_inv H.
  injection H as <-. simpl. auto.
Qed.

Lemma normalizeObjectSchema_Ok (flags : Flags) (arg : ObjectSchemaInput Value)
    (C : CanonicalObjectSchema.t Value) :
  normalizeObjectSchema flags arg = Ok C ->
  exists properties,
    normalizePropertySchemas (CanonicalObjectSchema.name C) properties
      (CanonicalObjectSchema.primaryKey C)
    = Ok (CanonicalObjectSchema.properties C).
Proof.
  assert (Plain_Ok : forall (o : ObjectSchema.t Value) C',
             normalizeObjectSchemaPlain flags o = Ok C' ->
             exists properties,
               normalizePropertySchemas (CanonicalObjectSchema.name C') properties
                 (CanonicalObjectSchema.primaryKey C')
               = Ok (CanonicalObjectSchema.properties C')).
  { intros o C'. unfold normalizeObjectSchemaPlain.
    destruct (ObjectSchema.properties o) as [entries|items].
    - intros H. apply normalizeObjectSchemaMapping_Ok in H as (H & -> & ->).
      eexists; exact H.
    - destruct (ALLOW_VALUES_ARRAYS flags); [|discriminate].
      intros H. apply normalizeObjectSchemaMapping_Ok in H as (H & -> & ->).
      eexists; exact H. }
  destruct arg as [c|o]; simpl.
  - destruct (RealmObjectConstructor.schema c) as [schema|]; [|discriminate].
    intros H. bind_inv H. injection H as <-. simpl. exact (Plain_Ok _ _ H0).
  - apply Plain_Ok.
Qed.

(** ** C3: the primary key is indexed *)

Lemma primaryKey_indexed (info : PropertyInfo.t Value) c :
  normalizePropertySchema info = Ok c ->
  JS.truthyBool (PropertyInfo.isPrimaryKey info) = true ->
  CanonicalPropertySchema.indexed c = true.
Proof.
  unfold normalizePropertySchema. intros H PK.
  destruct (PropertyInfo.propertySchema info) as [s|p].
  - unfold normalizePropertySchemaShorthand in H. ok_inv H.
    injection H as <-. exact PK.
  - unfold normalizePropertySchemaObject in H. do 7 bind_inv H.
    injection H as <-. simpl. unfold objectIndexed in H6. rewrite PK in H6. ok_inv H6.
    injection H6 as <-. reflexivity.
Qed.

Lemma primaryKey_unindexed_rejected (info : PropertyInfo.t Value) p :
  PropertyInfo.propertySchema info = Explicit p ->
  JS.truthyBool (PropertyInfo.isPrimaryKey info) = true ->
  PropertySchema.indexed p = Some false ->
  isThrow (normalizePropertySchema info).
Proof.
  intros E PK IX. apply not_Ok_isThrow. intros c H.
  unfold normalizePropertySchema in H. rewrite E in H.
  unfold normalizePropertySchemaObject in H. do 7 bind_inv H.
  unfold objectIndexed in H6. rewrite PK, IX in H6. discriminate H6.
Qed.

End Loop.

Lemma get_store {A : Type} (record : list (string * A)) (key key' : string) (value : A) :
  get (store record key value) key'
  = if String.eqb key key' then Some value else get record key'.
Proof.
  induction record as [|[k w] rest IH]; simpl.
  - reflexivity.
  - destruct (String.eqb_spec k key) as [->|NE]; simpl.
    + destruct (String.eqb key key'); reflexivity.
    + destruct (String.eqb_spec k key') as [->|NE'].
      * destruct (String.eqb_spec key key') as [->|_]; [congruence | reflexivity].
      * exact IH.
Qed.

(** An assignment to a name other than "__proto__" is read back; an
    assignment to "__proto__" leaves every key as it is. *)
Lemma get_assign {A : Type} (record : list (string * A)) (key key' : string) (value : A) :
  get (assign record key value) key'
  = if String.eqb key "__proto__" then get record key'
    else if String.eqb key key' then Some value else get record key'.
Proof.
  unfold assign. destruct (String.eqb key "__proto__"); [reflexivity | apply get_store].
Qed.

Lemma hasOwnProperty_cons {A : Type} (k : string) (v : A) rest key :
  hasOwnProperty ((k, v) :: rest) key = String.eqb k key || hasOwnProperty rest key.
Proof. reflexivity. Qed.

Section PrimaryKey.

Context {Value : Type}.

(** A key of the mapping, or of the record built so far, other than
    "__proto__", is a key of the record the loop returns. *)
Lemma normalizePropertySchemasFrom_key (objectName : string) (primaryKey : option string)
    (key : string) :
  key <> "__proto__" ->
  forall (entries : list (string * PropertyDefinition Value)) acc out,
    normalizePropertySchemasFrom objectName primaryKey entries acc = Ok out ->
    hasOwnProperty entries key = true \/ get acc key <> None ->
    get out key <> None.
Proof.
  intros NP.
  induction entries as [|[k d] rest IH]; intros acc out H Hkey; simpl in H.
  - injection H as <-. destruct Hkey as [Hkey|Hkey]; [discriminate | exact Hkey].
  - bind_inv H. apply (IH _ _ H). rewrite get_assign.
    rewrite hasOwnProperty_cons, orb_true_iff in Hkey.
    destruct (String.eqb_spec k "__proto__") as [->|_].
    + destruct (String.eqb_spec "__proto__" key) as [E|_]; [destruct (NP (eq_sym E))|].
      destruct Hkey as [[Hkey|Hkey]|Hkey]; [discriminate | left | right]; exact Hkey.
    + destruct (String.eqb k key); [right; discriminate|].
      destruct Hkey as [[Hkey|Hkey]|Hkey]; [discriminate | left | right]; exact Hkey.
Qed.

Lemma normalizeObjectSchemaMapping_primaryKey name primaryKey asymmetric embedded
    properties (C : CanonicalObjectSchema.t Value) key :
  normalizeObjectSchemaMapping name primaryKey asymmetric embedded properties = Ok C ->
  primaryKey = Some key -> key <> "" -> key <> "__proto__" ->
  get (CanonicalObjectSchema.properties C) key <> None.
Proof.
  unfold normalizeObjectSchemaMapping. intros H -> NE NP. do 4 bind_inv H.
  injection H as <-. simpl.
  apply assert_Ok in H1. apply negb_true_iff in H1.
  apply String.eqb_neq in NE. unfold JS.truthy in H1. rewrite NE in H1.
  simpl in H1. apply negb_false_iff in H1.
  apply (normalizePropertySchemasFrom_key _ _ _ NP _ _ _ H3). left. exact H1.
Qed.

Lemma normalizeObjectSchema_primaryKey (flags : Flags) (arg : ObjectSchemaInput Value)
    (C : CanonicalObjectSchema.t Value) key :
  normalizeObjectSchema flags arg = Ok C ->
  CanonicalObjectSchema.primaryKey C = Some key -> key <> "" -> key <> "__proto__" ->
  get (CanonicalObjectSchema.properties C) key <> None.
Proof.
  assert (Plain_Ok : forall (o : ObjectSchema.t Value) C',
             normalizeObjectSchemaPlain flags o = Ok C' ->
             CanonicalObjectSchema.primaryKey C' = Some key -> key <> "" ->
             key <> "__proto__" ->
             get (CanonicalObjectSchema.properties C') key <> None).
  { intros o C'. unfold normalizeObjectSchemaPlain.
    destruct (ObjectSchema.properties o) as [entries|items].
    - intros H PK. pose proof (normalizeObjectSchemaMapping_Ok _ _ _ _ _ _ H) as (_ & _ & E).
      rewrite PK in E. symmetry in E.
      exact (normalizeObjectSchemaMapping_primaryKey _ _ _ _ _ _ _ H E).
    - destruct (ALLOW_VALUES_ARRAYS flags); [|discriminate].
      intros H PK. pose proof (normalizeObjectSchemaMapping_Ok _ _ _ _ _ _ H) as (_ & _ & E).
      rewrite PK in E. symmetry in E.
      exact (normalizeObjectSchemaMapping_primaryKey _ _ _ _ _ _ _ H E). }
  destruct arg as [c|o]; simpl.
  - destruct (RealmObjectConstructor.schema c) as [schema|]; [|discriminate].
    intros H. bind_inv H. injection H as <-. simpl. exact (Plain_Ok _ _ H0).
  - apply Plain_Ok.
Qed.

End PrimaryKey.

(** C3. A property normalized as the primary key gets indexed = true,
    whatever its definition says, except that an explicit definition with
    indexed: false is rejected.  For an object: in every canonical schema
    with a primary key, the record of that property has indexed = true
    (and the record exists when the key is neither the empty string nor
    "__proto__", a name whose record is not stored), and an object whose
    mapping gives the primary key property an explicit definition with
    indexed: false is rejected. *)
Theorem primary_key_implies_indexed (Value : Type) (flags : Flags) :
  (forall (info : PropertyInfo.t Value) c,
      PropertyInfo.isPrimaryKey info = Some true ->
      normalizePropertySchema info = Ok c ->
      CanonicalPropertySchema.indexed c = true)
  /\ (forall (info : PropertyInfo.t Value) p,
        PropertyInfo.isPrimaryKey info = Some true ->
        PropertyInfo.propertySchema info = Explicit p ->
        PropertySchema.indexed p = Some false ->
        isThrow (normalizePropertySchema info))
  /\ (forall (arg : ObjectSchemaInput Value) C key,
        normalizeObjectSchema flags arg = Ok C ->
        CanonicalObjectSchema.primaryKey C = Some key ->
        (forall c, get (CanonicalObjectSchema.properties C) key = Some c ->
                   CanonicalPropertySchema.indexed c = true)
        /\ (key <> "" -> key <> "__proto__" ->
            get (CanonicalObjectSchema.properties C) key <> None))
  /\ (forall name key asymmetric embedded properties (p : PropertySchema.t Value),
        In (key, Explicit p) properties ->
        PropertySchema.indexed p = Some false ->
        isThrow (normalizeObjectSchema flags
                   (Plain (ObjectSchema.mk name (Some key) asymmetric embedded
                             (PropertiesObject properties))))).
Proof.
  split; [|split; [|split]].
  - intros info c PK H. apply (primaryKey_indexed info c H). rewrite PK. reflexivity.
  - intros info p PK E IX. apply (primaryKey_unindexed_rejected info p E); [|exact IX].
    rewrite PK. reflexivity.
  - intros arg C key H PK. split.
    + intros c G. apply get_In in G.
      destruct (normalizeObjectSchema_Ok flags arg C H) as (properties & L).
      assert (F : Forall (fun kc : string * CanonicalPropertySchema.t Value =>
                            fst kc = key -> CanonicalPropertySchema.indexed (snd kc) = true)
                         (CanonicalObjectSchema.properties C)).
      { apply (normalizePropertySchemasFrom_Forall
                 (fun k c => k = key -> CanonicalPropertySchema.indexed c = true)
                 (CanonicalObjectSchema.name C) (CanonicalObjectSchema.primaryKey C))
          with (entries := properties) (acc := []); [|constructor|exact L].
        intros k d c' N ->. apply (primaryKey_indexed _ _ N). simpl.
        rewrite PK. simpl. apply String.eqb_refl. }
      rewrite Forall_forall in F. exact (F _ G eq_refl).
    + exact (normalizeObjectSchema_primaryKey flags arg C key H PK).
  - intros name key asymmetric embedded properties p HIn IX.
    apply not_Ok_isThrow. intros C H. simpl in H.
    unfold normalizeObjectSchemaPlain in H. simpl in H.
    apply normalizeObjectSchemaMapping_Ok in H as (L & _ & _).
    apply normalizePropertySchemasFrom_entries in L.
    rewrite Forall_forall in L. destruct (L _ HIn) as (c & N). cbn [fst snd] in N.
    assert (T : isThrow (normalizePropertySchema
                           (entryInfo name (Some key) key (Explicit p)))).
    { apply (primaryKey_unindexed_rejected _ p); [reflexivity| |exact IX].
      simpl. apply String.eqb_refl. }
    destruct T as (e & T). rewrite T in N. discriminate N.
Qed.

Lemma primary_key_implies_indexed_witness :
  let flags := {| ALLOW_VALUES_ARRAYS := false |} in
  let person : ObjectSchema.t nat :=
    ObjectSchema.mk "Person" (Some "id") None None
      (PropertiesObject
         [("id", Explicit (PropertySchema.mk "int" None None None None None None));
          ("name", Shorthand "string")]) in
  let broken : ObjectSchema.t nat :=
    ObjectSchema.mk "Person" (Some "id") None None
      (PropertiesObject
         [("id", Explicit (PropertySchema.mk "int" None None None (Some false) None None))]) in
  (exists C c,
      normalizeObjectSchema flags (Plain person) = Ok C
      /\ get (CanonicalObjectSchema.properties C) "id" = Some c
      /\ CanonicalPropertySchema.indexed c = true)
  /\ isThrow (normalizeObjectSchema flags (Plain broken)).
Proof.
  intros flags person broken.
  destruct (primary_key_implies_indexed nat flags) as (_ & _ & HOk & HThrow).
  split.
  - do 2 eexists. split; [vm_compute; reflexivity|]. split; [vm_compute; reflexivity|].
    eapply (proj1 (HOk (Plain person) _ "id" eq_refl eq_refl)). vm_compute. reflexivity.
  - apply (HThrow "Person" "id" None None _
             (PropertySchema.mk "int" None None None (Some false) None None)).
    + left. reflexivity.
    + reflexivity.
Defined.

(** ** JavaScript string operations and concatenation *)

Lemma string_length_append (r s : string) :
  String.length (r ++ s) = (String.length r + String.length s)%nat.
Proof.
  induction r as [|c r IH]; simpl; [reflexivity | now rewrite IH].
Qed.

Lemma string_append_assoc (r s t : string) : (r ++ s) ++ t = r ++ (s ++ t).
Proof.
  induction r as [|c r IH]; simpl; [reflexivity | now rewrite IH].
Qed.

Lemma string_substring_all (s : string) : String.substring 0 (String.length s) s = s.
Proof.
  induction s as [|c s IH]; simpl; [reflexivity | now rewrite IH].
Qed.

Lemma string_substring_take (r s : string) :
  String.substring 0 (String.length r) (r ++ s) = r.
Proof.
  induction r as [|c r IH]; simpl.
  - destruct s; reflexivity.
  - now rewrite IH.
Qed.

Lemma string_substring_drop (r s : string) :
  String.substring (String.length r) (String.length s) (r ++ s) = s.
Proof.
  induction r as [|c r IH]; simpl; [apply string_substring_all | exact IH].
Qed.

Lemma string_substring_split (n : nat) (s : string) :
  (n <= String.length s)%nat ->
  String.substring 0 n s ++ String.substring n (String.length s - n) s = s.
Proof.
  revert s. induction n as [|n IH]; intros s Hn.
  - rewrite Nat.sub_0_r, string_substring_all. destruct s; reflexivity.
  - destruct s as [|c s]; simpl in Hn; [lia|].
    simpl. rewrite IH by lia. reflexivity.
Qed.

Lemma string_substring_length (n m : nat) (s : string) :
  (n + m <= String.length s)%nat -> String.length (String.substring n m s) = m.
Proof.
  revert n m. induction s as [|c s IH]; intros n m H; simpl in H.
  - assert (n = 0%nat) by lia. assert (m = 0%nat) by lia. subst. reflexivity.
  - destruct n as [|n]; simpl.
    + destruct m as [|m]; simpl; [reflexivity|]. rewrite IH by lia. reflexivity.
    + apply IH. lia.
Qed.

Lemma JS_length_append (r s : string) : JS.length (r ++ s) = JS.length r + JS.length s.
Proof.
  unfold JS.length. rewrite string_length_append. lia.
Qed.

Lemma JS_length_nonneg (s : string) : 0 <= JS.length s.
Proof. unfold JS.length. lia. Qed.

Lemma JS_length_zero (s : string) : JS.length s = 0 <-> s = "".
Proof.
  unfold JS.length. destruct s; simpl; split; intros H; try reflexivity; try discriminate; lia.
Qed.

Lemma JS_substring_inrange (s : string) (a b : Z) :
  0 <= a <= b -> b <= JS.length s ->
  JS.substring s a b = String.substring (Z.to_nat a) (Z.to_nat (b - a)) s.
Proof.
  intros Ha Hb. unfold JS.substring, JS.clamp.
  replace (Z.max 0 (Z.min a (JS.length s))) with a by lia.
  replace (Z.max 0 (Z.min b (JS.length s))) with b by lia.
  replace (Z.min a b) with a by lia.
  replace (Z.max a b) with b by lia.
  reflexivity.
Qed.

(** The last [JS.length s] units of [r ++ s] are [s]. *)
Lemma JS_substringFrom_append (r s : string) :
  JS.substringFrom (r ++ s) (JS.length (r ++ s) - JS.length s) = s.
Proof.
  pose proof (JS_length_nonneg r). pose proof (JS_length_nonneg s).
  unfold JS.substringFrom. rewrite JS_length_append, JS_substring_inrange by
    (rewrite ?JS_length_append; lia).
  replace (JS.length r + JS.length s - JS.length s) with (JS.length r) by lia.
  replace (JS.length r + JS.length s - JS.length r) with (JS.length s) by lia.
  unfold JS.length. rewrite !Nat2Z.id. apply string_substring_drop.
Qed.

(** Stripping the last [JS.length s] units of [r ++ s] leaves [r]. *)
Lemma JS_substring_append (r s : string) :
  JS.substring (r ++ s) 0 (JS.length (r ++ s) - JS.length s) = r.
Proof.
  pose proof (JS_length_nonneg r). pose proof (JS_length_nonneg s).
  rewrite JS_length_append, JS_substring_inrange by
    (rewrite ?JS_length_append; lia).
  replace (JS.length r + JS.length s - JS.length s - 0) with (JS.length r) by lia.
  unfold JS.length. rewrite Nat2Z.id. apply string_substring_take.
Qed.

(** A string of at least [n] units is its first units followed by its
    last [n]. *)
Lemma JS_substring_split (s : string) (n : Z) :
  0 <= n <= JS.length s ->
  s = JS.substring s 0 (JS.length s - n) ++ JS.substringFrom s (JS.length s - n)
  /\ JS.length (JS.substringFrom s (JS.length s - n)) = n.
Proof.
  intros Hn. unfold JS.substringFrom. rewrite !JS_substring_inrange by lia.
  rewrite Z.sub_0_r.
  replace (JS.length s - (JS.length s - n)) with n by lia.
  unfold JS.length in *.
  assert (E : Z.to_nat n = (String.length s - Z.to_nat (Z.of_nat (String.length s) - n))%nat) by lia.
  split.
  - rewrite E. symmetry. apply string_substring_split. lia.
  - rewrite string_substring_length by lia. lia.
Qed.

(** ** Suffix tests *)

Lemma collectionSuffix_length (suffix : string) :
  In suffix collectionSuffixes -> JS.length suffix = 2.
Proof.
  intros [<-|[<-|[<-|[]]]]; reflexivity.
Qed.

Lemma get_cons {A : Type} (k : string) (v : A) rest key :
  get ((k, v) :: rest) key = if String.eqb k key then Some v else get rest key.
Proof. reflexivity. Qed.

Lemma collectionName_truthy (end_ : string) :
  JS.truthyOpt (get COLLECTION_SHORTHAND_TO_NAME end_) = true <-> In end_ collectionSuffixes.
Proof.
  unfold COLLECTION_SHORTHAND_TO_NAME, collectionSuffixes.
  rewrite !get_cons.
  destruct (String.eqb_spec "[]" end_) as [<-|N1]; [simpl; tauto|].
  destruct (String.eqb_spec "{}" end_) as [<-|N2]; [simpl; tauto|].
  destruct (String.eqb_spec "<>" end_) as [<-|N3]; [simpl; tauto|].
  simpl. split; [discriminate | tauto].
Qed.

Lemma hasCollectionSuffix_append (r suffix : string) :
  In suffix collectionSuffixes -> hasCollectionSuffix (r ++ suffix) = true.
Proof.
  intros H. unfold hasCollectionSuffix.
  rewrite <- (collectionSuffix_length suffix H), JS_substringFrom_append.
  apply collectionName_truthy. exact H.
Qed.

Lemma hasCollectionSuffix_spec (s : string) :
  hasCollectionSuffix s = true <-> EndsWithCollectionSuffix s.
Proof.
  split.
  - unfold hasCollectionSuffix. intros H. apply collectionName_truthy in H.
    destruct (Z_lt_ge_dec (JS.length s) 2) as [Short|Long].
    + exfalso. apply collectionSuffix_length in H.
      destruct s as [|c1 [|c2 s]]; [cbv in H; discriminate H | cbv in H; discriminate H |].
      unfold JS.length in Short. simpl in Short. lia.
    + pose proof (JS_length_nonneg s).
      destruct (JS_substring_split s 2 ltac:(lia)) as [E _].
      eexists _, _. split; [exact E | exact H].
  - intros (r & suffix & -> & H). apply hasCollectionSuffix_append. exact H.
Qed.

Lemma hasCollectionSuffix_empty : hasCollectionSuffix "" = false.
Proof. reflexivity. Qed.

Lemma endsWith_append (r s : string) : JS.endsWith (r ++ s) s = true.
Proof.
  unfold JS.endsWith. pose proof (JS_length_nonneg r).
  destruct (Z.ltb_spec (JS.length (r ++ s) - JS.length s) 0) as [L|_].
  - rewrite JS_length_append in L. lia.
  - pose proof (JS_substringFrom_append r s) as E. unfold JS.substringFrom in E.
    rewrite E. apply String.eqb_refl.
Qed.

Lemma endsWith_question_spec (s : string) :
  JS.endsWith s "?" = true <-> exists r, s = r ++ "?".
Proof.
  split.
  - unfold JS.endsWith. change (JS.length "?") with 1.
    destruct (Z.ltb_spec (JS.length s - 1) 0) as [L|G]; [discriminate|].
    intros H. apply String.eqb_eq in H.
    destruct (JS_substring_split s 1 ltac:(lia)) as [E _].
    unfold JS.substringFrom in E. rewrite H in E. eexists. exact E.
  - intros (r & ->). apply endsWith_append.
Qed.

Lemma strip_suffix (r suffix : string) :
  In suffix collectionSuffixes ->
  JS.substring (r ++ suffix) 0 (JS.length (r ++ suffix) - 2) = r.
Proof.
  intros H. rewrite <- (collectionSuffix_length suffix H). apply JS_substring_append.
Qed.

Lemma strip_question (r : string) :
  JS.substring (r ++ "?") 0 (JS.length (r ++ "?") - 1) = r.
Proof.
  exact (JS_substring_append r "?").
Qed.

Lemma JS_length_positive (s : string) : (0 <? JS.length s) = true <-> s <> "".
Proof.
  rewrite Z.ltb_lt, <- JS_length_zero. pose proof (JS_length_nonneg s). lia.
Qed.

(** ** C4: nested collections *)

Section Shorthand.

Context {Value : Type}.

Lemma append_suffix_nonempty (r suffix : string) :
  In suffix collectionSuffixes -> (0 <? JS.length (r ++ suffix)) = true.
Proof.
  intros H. rewrite JS_length_append, (collectionSuffix_length _ H).
  pose proof (JS_length_nonneg r). apply Z.ltb_lt. lia.
Qed.

Lemma shorthandCollection_nested (info : PropertyInfo.t Value) (r suffix1 suffix2 : string) :
  In suffix1 collectionSuffixes -> In suffix2 collectionSuffixes ->
  shorthandCollection info ((r ++ suffix1) ++ suffix2)
  = Throw (propError info "Nested collections are not supported.").
Proof.
  intros H1 H2. unfold shorthandCollection.
  rewrite (hasCollectionSuffix_append _ _ H2), (strip_suffix _ _ H2).
  rewrite (append_suffix_nonempty _ _ H1), (hasCollectionSuffix_append _ _ H1).
  reflexivity.
Qed.

End Shorthand.

(** C4. A shorthand string made of any string followed by two collection
    suffixes is rejected, with the error for nested collections. *)
Theorem nested_collections_rejected
    (Value : Type) (info : PropertyInfo.t Value) (r suffix1 suffix2 : string) :
  In suffix1 collectionSuffixes -> In suffix2 collectionSuffixes ->
  PropertyInfo.propertySchema info = Shorthand (r ++ suffix1 ++ suffix2) ->
  normalizePropertySchema info
  = Throw (PropertySchemaParseError "Nested collections are not supported."
             (PropertyInfo.objectName info) (PropertyInfo.propertyName info)).
Proof.
  intros H1 H2 E. unfold normalizePropertySchema. rewrite E.
  unfold normalizePropertySchemaShorthand.
  rewrite <- string_append_assoc, (append_suffix_nonempty _ _ H2).
  cbn [assert bind]. rewrite (shorthandCollection_nested info r _ _ H1 H2).
  reflexivity.
Qed.

Lemma nested_collections_rejected_witness :
  normalizePropertySchema
    (PropertyInfo.mk "Person" "grid" (Shorthand "int[]{}") (Some false) : PropertyInfo.t nat)
  = Throw (PropertySchemaParseError "Nested collections are not supported." "Person" "grid").
Proof.
  exact (nested_collections_rejected nat
           (PropertyInfo.mk "Person" "grid" (Shorthand "int[]{}") (Some false))
           "int" "[]" "{}"
           (or_introl eq_refl) (or_intror (or_introl eq_refl)) eq_refl).
Defined.

(** ** C5: the optional marker *)

(** A question mark written before a collection suffix is accepted,
    although the collection step has recorded a collection kind: the
    shorthand "int?[]" is a list of optional int. *)
Lemma optional_marker_before_suffix_accepted :
  let info : PropertyInfo.t nat :=
    PropertyInfo.mk "Person" "scores" (Shorthand "int?[]") (Some false) in
  shorthandCollection info "int?[]" = Ok ("list", "int?")
  /\ JS.endsWith "int?" "?" = true
  /\ normalizePropertySchemaShorthand info "int?[]"
     = Ok {| CanonicalPropertySchema.name := "scores";
             CanonicalPropertySchema.type := "list";
             CanonicalPropertySchema.optional := true;
             CanonicalPropertySchema.indexed := false;
             CanonicalPropertySchema.mapTo := "scores";
             CanonicalPropertySchema.objectType := Some "int";
             CanonicalPropertySchema.property := None;
             CanonicalPropertySchema.default := None |}.
Proof.
  repeat split.
Qed.

Section OptionalMarker.

Context {Value : Type}.

Lemma shorthandCollection_nonempty (info : PropertyInfo.t Value) s type rest :
  shorthandCollection info s = Ok (type, rest) -> rest <> "" -> s <> "".
Proof.
  intros H NE ->. vm_compute in H. injection H as _ <-. apply NE. reflexivity.
Qed.

Lemma shorthandOptional_marker (info : PropertyInfo.t Value) (r : string) :
  shorthandOptional info (r ++ "?")
  = (assert (0 <? JS.length r)
       (propError info "The type must be specified. (Examples: 'int?' and 'int?[]')") ;;
     assert (negb (hasCollectionSuffix r))
       (propError info "Collections cannot be optional. To allow elements of the collection to be optional, use '?' after the element type. (Examples: 'int?[]', 'int?{}', and 'int?<>')") ;;
     Ok (Some true, r)).
Proof.
  unfold shorthandOptional. rewrite endsWith_append, strip_question. reflexivity.
Qed.

Lemma shorthandImplicit_marked (info : PropertyInfo.t Value) type objectType o :
  shorthandImplicit info type objectType (Some true) = Ok o -> JS.truthyBool o = true.
Proof.
  unfold shorthandImplicit.
  destruct (optionalIsImplicitlyTrue type objectType); [intros [= <-]; reflexivity|].
  destruct (optionalIsImplicitlyFalse type objectType); [discriminate|].
  intros [= <-]; reflexivity.
Qed.

End OptionalMarker.

(** C5, amended.  When the string left by the collection suffix step
    ends with a question mark, the input is rejected if nothing precedes
    the question mark, and rejected if what precedes it ends with a
    collection suffix; otherwise the optional marker step records
    optional = true and strips the question mark, and every record the
    normalization then yields has optional = true. *)
Theorem optional_marker_step
    (Value : Type) (info : PropertyInfo.t Value) (s type r : string) :
  shorthandCollection info s = Ok (type, r ++ "?") ->
  (r = "" ->
   normalizePropertySchemaShorthand info s
   = Throw (PropertySchemaParseError
              "The type must be specified. (Examples: 'int?' and 'int?[]')"
              (PropertyInfo.objectName info) (PropertyInfo.propertyName info)))
  /\ (EndsWithCollectionSuffix r ->
      normalizePropertySchemaShorthand info s
      = Throw (PropertySchemaParseError
                 "Collections cannot be optional. To allow elements of the collection to be optional, use '?' after the element type. (Examples: 'int?[]', 'int?{}', and 'int?<>')"
                 (PropertyInfo.objectName info) (PropertyInfo.propertyName info)))
  /\ (r <> "" -> ~ EndsWithCollectionSuffix r ->
      shorthandOptional info (r ++ "?") = Ok (Some true, r)
      /\ forall c, normalizePropertySchemaShorthand info s = Ok c ->
                   CanonicalPropertySchema.optional c = true).
Proof.
  intros HC.
  assert (NE : (0 <? JS.length s) = true).
  { apply JS_length_positive. apply (shorthandCollection_nonempty info s type (r ++ "?") HC).
    destruct r; discriminate. }
  unfold normalizePropertySchemaShorthand. rewrite NE, HC. cbn [assert bind].
  rewrite shorthandOptional_marker.
  split; [|split].
  - intros ->. reflexivity.
  - intros HS. pose proof HS as HS'. apply hasCollectionSuffix_spec in HS'.
    rewrite HS'. assert (NEr : (0 <? JS.length r) = true).
    { apply JS_length_positive. intros ->. rewrite hasCollectionSuffix_empty in HS'.
      discriminate. }
    rewrite NEr. reflexivity.
  - intros NEr NS. apply JS_length_positive in NEr. rewrite NEr.
    assert (HS : hasCollectionSuffix r = false).
    { destruct (hasCollectionSuffix r) eqn:E; [|reflexivity].
      apply hasCollectionSuffix_spec in E. destruct (NS E). }
    rewrite HS. cbn [assert bind negb]. split; [reflexivity|].
    intros c H. ok_inv H. injection H as <-. simpl.
    eapply shorthandImplicit_marked. eassumption.
Qed.

Lemma optional_marker_step_witness :
  let info : PropertyInfo.t nat :=
    PropertyInfo.mk "Person" "scores" (Shorthand "int[]?") (Some false) in
  normalizePropertySchemaShorthand info "int[]?"
  = Throw (PropertySchemaParseError
             "Collections cannot be optional. To allow elements of the collection to be optional, use '?' after the element type. (Examples: 'int?[]', 'int?{}', and 'int?<>')"
             "Person" "scores").
Proof.
  intros info.
  apply (proj1 (proj2 (optional_marker_step nat info "int[]?" "" "int[]" eq_refl))).
  exists "int", "[]". split; [reflexivity | left; reflexivity].
Defined.

(** ** C6: the linking property *)

(** C6. In explicit object form, when type is linkingObjects the
    normalization fails unless objectType is user-defined and property is
    supplied; for every other type it fails when property is supplied. *)
Theorem property_only_for_linkingObjects
    (Value : Type) (info : PropertyInfo.t Value) (p : PropertySchema.t Value) :
  (PropertySchema.type p = "linkingObjects" ->
   ~ UserDefined (PropertySchema.objectType p) \/ PropertySchema.property p = None ->
   isThrow (normalizePropertySchemaObject info p))
  /\ (PropertySchema.type p <> "linkingObjects" ->
      PropertySchema.property p <> None ->
      isThrow (normalizePropertySchemaObject info p)).
Proof.
  split.
  - intros T Bad. apply not_Ok_isThrow. intros c H.
    unfold normalizePropertySchemaObject in H. do 4 bind_inv H. clear H.
    unfold objectTypeRules in H3. rewrite T in H3. change (isPrimitive (Some "linkingObjects")) with false in H3.
    change (isCollection (Some "linkingObjects")) with false in H3.
    change (String.eqb "linkingObjects" "object") with false in H3.
    change (String.eqb "linkingObjects" "linkingObjects") with true in H3.
    cbv iota in H3. ok_inv H3.
    destruct Bad as [Bad|Bad].
    + apply Bad. apply isUserDefined_spec. assumption.
    + rewrite Bad in H3. discriminate H3.
  - intros T Supplied. apply not_Ok_isThrow. intros c H.
    unfold normalizePropertySchemaObject in H. do 5 bind_inv H. clear H.
    unfold objectPropertyRule in H4.
    apply String.eqb_neq in T. rewrite T in H4. simpl in H4.
    apply assert_Ok in H4.
    destruct (PropertySchema.property p); [discriminate H4 | apply Supplied; reflexivity].
Qed.

Lemma property_only_for_linkingObjects_witness :
  let info (p : PropertySchema.t nat) : PropertyInfo.t nat :=
    PropertyInfo.mk "Person" "pets" (Explicit p) (Some false) in
  let omitted := PropertySchema.mk "linkingObjects" (Some "MyClass") None None None None None in
  let misplaced := PropertySchema.mk "int" None (Some "owner") None None None None in
  isThrow (normalizePropertySchemaObject (info omitted) omitted)
  /\ isThrow (normalizePropertySchemaObject (info misplaced) misplaced).
Proof.
  intros info omitted misplaced. split.
  - apply (proj1 (property_only_for_linkingObjects nat (info omitted) omitted)).
    + reflexivity.
    + right. reflexivity.
  - apply (proj2 (property_only_for_linkingObjects nat (info misplaced) misplaced)).
    + discriminate.
    + discriminate.
Defined.

(** ** C9: the storage name *)

(** An empty mapTo is supplied, and the record is stored under the
    property name. *)
Lemma empty_mapTo_not_used :
  let p : PropertySchema.t nat :=
    PropertySchema.mk "int" None None None None (Some "") None in
  let info := PropertyInfo.mk "Person" "age" (Explicit p) (Some false) in
  exists c, normalizePropertySchemaObject info p = Ok c
            /\ PropertySchema.mapTo p = Some ""
            /\ CanonicalPropertySchema.mapTo c = "age"
            /\ CanonicalPropertySchema.mapTo c <> "".
Proof.
  eexists. split; [reflexivity|]. repeat split. discriminate.
Qed.

(** C9, amended.  For every explicit definition that normalizes, the
    storage name of the record is the supplied mapTo when one is supplied
    and is not the empty string, and the property name when mapTo is not
    supplied or is the empty string. *)
Theorem storage_name
    (Value : Type) (info : PropertyInfo.t Value) (p : PropertySchema.t Value)
    (c : CanonicalPropertySchema.t Value) :
  normalizePropertySchemaObject info p = Ok c ->
  (forall m, PropertySchema.mapTo p = Some m -> m <> "" ->
             CanonicalPropertySchema.mapTo c = m)
  /\ (PropertySchema.mapTo p = None \/ PropertySchema.mapTo p = Some "" ->
      CanonicalPropertySchema.mapTo c = PropertyInfo.propertyName info).
Proof.
  unfold normalizePropertySchemaObject. intros H. do 7 bind_inv H.
  injection H as <-. simpl. split.
  - intros m -> NE. apply String.eqb_neq in NE. simpl. unfold JS.truthy.
    rewrite NE. reflexivity.
  - intros [-> | ->]; reflexivity.
Qed.

Lemma storage_name_witness :
  let p : PropertySchema.t nat :=
    PropertySchema.mk "int" None None None None (Some "years") None in
  let info := PropertyInfo.mk "Person" "age" (Explicit p) (Some false) in
  exists c, normalizePropertySchemaObject info p = Ok c
            /\ CanonicalPropertySchema.mapTo c = "years".
Proof.
  intros p info. eexists. split; [reflexivity|].
  apply (proj1 (storage_name nat info p _ eq_refl) "years"); [reflexivity | discriminate].
Defined.

(** ** C10: class constructors *)

(** C10. A class constructor without a static schema is rejected with
    the schema error for a missing static schema; with a static schema,
    the result is the normalization of that schema with the constructor
    recorded on it. *)
Theorem class_constructor
    (Value : Type) (flags : Flags) (c : RealmObjectConstructor.t Value) :
  (RealmObjectConstructor.schema c = None ->
   normalizeObjectSchema flags (Class c)
   = Throw (SchemaParseError "A static schema must be specified on this class."))
  /\ (forall schema,
         RealmObjectConstructor.schema c = Some schema ->
         normalizeObjectSchema flags (Class c)
         = (objectSchema <- normalizeObjectSchema flags (Plain schema) ;;
            Ok (setCtor objectSchema c))).
Proof.
  split.
  - intros E. simpl. rewrite E. reflexivity.
  - intros schema E. simpl. rewrite E. reflexivity.
Qed.

Lemma class_constructor_witness :
  let flags := {| ALLOW_VALUES_ARRAYS := false |} in
  let missing : RealmObjectConstructor.t nat := RealmObjectConstructor.mk 1 None in
  let person : ObjectSchema.t nat :=
    ObjectSchema.mk "Person" None None None (PropertiesObject [("age", Shorthand "int")]) in
  let present : RealmObjectConstructor.t nat := RealmObjectConstructor.mk 2 (Some person) in
  normalizeObjectSchema flags (Class missing)
  = Throw (SchemaParseError "A static schema must be specified on this class.")
  /\ exists C, normalizeObjectSchema flags (Class present) = Ok C
               /\ CanonicalObjectSchema.ctor C = Some present
               /\ normalizeObjectSchema flags (Plain person)
                  = Ok {| CanonicalObjectSchema.name := CanonicalObjectSchema.name C;
                          CanonicalObjectSchema.primaryKey := CanonicalObjectSchema.primaryKey C;
                          CanonicalObjectSchema.asymmetric := CanonicalObjectSchema.asymmetric C;
                          CanonicalObjectSchema.embedded := CanonicalObjectSchema.embedded C;
                          CanonicalObjectSchema.properties := CanonicalObjectSchema.properties C;
                          CanonicalObjectSchema.ctor := None |}.
Proof.
  intros flags missing person present. split.
  - apply (proj1 (class_constructor nat flags missing)). reflexivity.
  - eexists. split.
    + rewrite (proj2 (class_constructor nat flags present) person eq_refl).
      vm_compute. reflexivity.
    + split; reflexivity.
Defined.

(** ** C7: the object checks *)

Lemma hasOwnProperty_In {A : Type} (record : list (string * A)) (key : string) :
  hasOwnProperty record key = true <-> In key (map fst record).
Proof.
  unfold hasOwnProperty. rewrite existsb_exists, in_map_iff. split.
  - intros (kv & HIn & E). apply String.eqb_eq in E. exists kv. auto.
  - intros (kv & E & HIn). exists kv. split; [exact HIn|]. apply String.eqb_eq. exact E.
Qed.

Lemma store_fresh {A : Type} (record : list (string * A)) (key : string) (value : A) :
  ~ In key (map fst record) -> store record key value = (record ++ [(key, value)])%list.
Proof.
  induction record as [|[k w] rest IH]; simpl; intros NI.
  - reflexivity.
  - destruct (String.eqb_spec k key) as [->|NE].
    + destruct NI. left. reflexivity.
    + rewrite IH; [reflexivity|]. intros HIn. apply NI. right. exact HIn.
Qed.

Lemma assign_fresh {A : Type} (record : list (string * A)) (key : string) (value : A) :
  key <> "__proto__" -> ~ In key (map fst record) ->
  assign record key value = (record ++ [(key, value)])%list.
Proof.
  intros NP NI. unfold assign. apply String.eqb_neq in NP. rewrite NP.
  apply store_fresh. exact NI.
Qed.

Section ObjectChecks.

Context {Value : Type}.

(** On a mapping with distinct keys, none of them "__proto__", the loop
    normalizes each entry in turn and appends the records in order. *)
Lemma normalizePropertySchemasFrom_each (objectName : string) (primaryKey : option string) :
  forall (entries : list (string * PropertyDefinition Value)) acc,
    NoDup (map fst entries) -> ~ In "__proto__" (map fst entries) ->
    (forall k, In k (map fst entries) -> ~ In k (map fst acc)) ->
    normalizePropertySchemasFrom objectName primaryKey entries acc
    = (cs <- normalizeEach objectName primaryKey entries ;; Ok (acc ++ cs)%list).
Proof.
  induction entries as [|[k d] rest IH]; intros acc ND NP Fresh; simpl.
  - rewrite app_nil_r. reflexivity.
  - change (normalizePropertySchema
              {| PropertyInfo.objectName := objectName;
                 PropertyInfo.propertyName := k;
                 PropertyInfo.propertySchema := d;
                 PropertyInfo.isPrimaryKey := Some (isThePrimaryKey primaryKey k) |})
      with (normalizePropertySchema (entryInfo objectName primaryKey k d)).
    destruct (normalizePropertySchema (entryInfo objectName primaryKey k d)) as [c|e];
      simpl; [|reflexivity].
    inversion ND as [|? ? NI ND']; subst.
    rewrite assign_fresh;
      [|intros E; apply NP; left; exact E | apply Fresh; left; reflexivity].
    rewrite IH.
    + destruct (normalizeEach objectName primaryKey rest) as [cs|e]; simpl; [|reflexivity].
      rewrite <- app_assoc. reflexivity.
    + exact ND'.
    + intros HIn. apply NP. right. exact HIn.
    + intros k' HIn. rewrite map_app, in_app_iff. simpl. intros [HIn'|[<-|[]]].
      * exact (Fresh k' (or_intror HIn) HIn').
      * exact (NI HIn).
Qed.

Lemma normalizePropertySchemas_each (objectName : string) (primaryKey : option string)
    (entries : list (string * PropertyDefinition Value)) :
  NoDup (map fst entries) -> ~ In "__proto__" (map fst entries) ->
  normalizePropertySchemas objectName entries primaryKey
  = normalizeEach objectName primaryKey entries.
Proof.
  intros ND NP. unfold normalizePropertySchemas.
  rewrite normalizePropertySchemasFrom_each; [|exact ND|exact NP|intros k _ []].
  destruct (normalizeEach objectName primaryKey entries); reflexivity.
Qed.

(** The loop succeeds exactly when every entry is accepted. *)
Lemma normalizePropertySchemasFrom_accepts (objectName : string) (primaryKey : option string) :
  forall (entries : list (string * PropertyDefinition Value)) acc,
    Forall (fun kd => exists c,
                normalizePropertySchema
                  (entryInfo objectName primaryKey (fst kd) (snd kd)) = Ok c)
           entries ->
    exists out, normalizePropertySchemasFrom objectName primaryKey entries acc = Ok out.
Proof.
  induction entries as [|[k d] rest IH]; intros acc HF; simpl.
  - exists acc. reflexivity.
  - inversion HF as [|? ? (c & Hc) HF']; subst. cbn [fst snd] in Hc.
    change (normalizePropertySchema
              {| PropertyInfo.objectName := objectName;
                 PropertyInfo.propertyName := k;
                 PropertyInfo.propertySchema := d;
                 PropertyInfo.isPrimaryKey := Some (isThePrimaryKey primaryKey k) |})
      with (normalizePropertySchema (entryInfo objectName primaryKey k d)).
    rewrite Hc. cbn [bind]. apply IH. exact HF'.
Qed.

End ObjectChecks.

(** A primary key that is the empty string is declared and names no
    property of the mapping, and the definition is accepted. *)
Lemma empty_primaryKey_accepted :
  let flags := {| ALLOW_VALUES_ARRAYS := false |} in
  let person : ObjectSchema.t nat :=
    ObjectSchema.mk "Person" (Some "") None None
      (PropertiesObject [("age", Shorthand "int")]) in
  ObjectSchema.primaryKey person = Some ""
  /\ ~ In "" (map fst [("age", Shorthand "int" : PropertyDefinition nat)])
  /\ exists C, normalizeObjectSchema flags (Plain person) = Ok C.
Proof.
  split; [reflexivity|]. split.
  - simpl. intros [H|[]]. discriminate H.
  - eexists. vm_compute. reflexivity.
Qed.

(** C7, amended.  On a definition in mapping form, [normalizeObjectSchema]
    raises an object schema error when the name is empty, when the
    declared primary key is not the empty string and is not a key of the
    mapping, or when asymmetric and embedded are both true.  When none of
    these hold (the primary key being absent, empty, or a key of the
    mapping), the result is the canonical object built from the property
    loop, which normalizes every property: the definition is accepted
    exactly when every entry of the mapping is. *)
Theorem object_checks
    (Value : Type) (flags : Flags) (name : string) (primaryKey : option string)
    (asymmetric embedded : option bool)
    (properties : list (string * PropertyDefinition Value)) :
  let outcome :=
    normalizeObjectSchema flags
      (Plain (ObjectSchema.mk name primaryKey asymmetric embedded
                (PropertiesObject properties))) in
  (name = "" -> exists message objectName,
        outcome = Throw (ObjectSchemaParseError message objectName))
  /\ (forall key, primaryKey = Some key -> key <> "" ->
                  ~ In key (map fst properties) ->
                  exists message objectName,
                    outcome = Throw (ObjectSchemaParseError message objectName))
  /\ (asymmetric = Some true -> embedded = Some true ->
      exists message objectName,
        outcome = Throw (ObjectSchemaParseError message objectName))
  /\ (name <> "" ->
      (primaryKey = None \/ primaryKey = Some ""
       \/ exists key, primaryKey = Some key /\ In key (map fst properties)) ->
      ~ (asymmetric = Some true /\ embedded = Some true) ->
      outcome
      = (canonical <- normalizePropertySchemas name properties primaryKey ;;
         Ok {| CanonicalObjectSchema.name := name;
               CanonicalObjectSchema.primaryKey := primaryKey;
               CanonicalObjectSchema.asymmetric := JS.truthyBool asymmetric;
               CanonicalObjectSchema.embedded := JS.truthyBool embedded;
               CanonicalObjectSchema.properties := canonical;
               CanonicalObjectSchema.ctor := None |})
      /\ ((exists C, outcome = Ok C) <->
          Forall (fun kd => exists c,
                      normalizePropertySchema
                        (entryInfo name primaryKey (fst kd) (snd kd)) = Ok c)
                 properties)).
Proof.
  intros outcome. subst outcome. simpl.
  unfold normalizeObjectSchemaPlain, normalizeObjectSchemaMapping. simpl.
  split; [|split; [|split]].
  - intros ->. eexists _, _. reflexivity.
  - intros key -> NE NI.
    destruct (0 <? JS.length name); [|eexists _, _; reflexivity].
    cbn [assert bind]. apply String.eqb_neq in NE. unfold JS.truthy. rewrite NE.
    assert (E : hasOwnProperty properties key = false).
    { destruct (hasOwnProperty properties key) eqn:E; [|reflexivity].
      apply hasOwnProperty_In in E. destruct (NI E). }
    rewrite E. eexists _, _. reflexivity.
  - intros -> ->.
    destruct (0 <? JS.length name); [|eexists _, _; reflexivity].
    cbn [assert bind].
    destruct (negb _); eexists _, _; reflexivity.
  - intros NE PK Flags. apply JS_length_positive in NE. rewrite NE.
    cbn [assert bind].
    assert (E : match primaryKey with
                | Some k => JS.truthy k && negb (hasOwnProperty properties k)
                | None => false
                end = false).
    { destruct PK as [-> | [-> | (key & -> & HIn)]]; [reflexivity | reflexivity |].
      apply hasOwnProperty_In in HIn. rewrite HIn. apply andb_false_r. }
    rewrite E. cbn [assert bind negb].
    assert (F : negb (JS.truthyBool asymmetric) || negb (JS.truthyBool embedded) = true).
    { destruct asymmetric as [[|]|], embedded as [[|]|]; try reflexivity.
      destruct Flags. split; reflexivity. }
    rewrite F. cbn [assert bind]. split; [reflexivity|].
    unfold normalizePropertySchemas. split.
    + intros (C & H).
      destruct (normalizePropertySchemasFrom name primaryKey properties [])
        as [out|e] eqn:L; [|discriminate H].
      exact (normalizePropertySchemasFrom_entries _ _ _ _ _ L).
    + intros HF.
      destruct (normalizePropertySchemasFrom_accepts name primaryKey properties [] HF)
        as (out & ->).
      eexists. reflexivity.
Qed.

Lemma object_checks_witness :
  let flags := {| ALLOW_VALUES_ARRAYS := false |} in
  let properties : list (string * PropertyDefinition nat) := [("age", Shorthand "int")] in
  (exists message objectName,
      normalizeObjectSchema flags
        (Plain (ObjectSchema.mk "Person" (Some "id") None None (PropertiesObject properties)))
      = Throw (ObjectSchemaParseError message objectName))
  /\ normalizeObjectSchema flags
       (Plain (ObjectSchema.mk "Person" (Some "age") None None (PropertiesObject properties)))
     = (canonical <- normalizePropertySchemas "Person" properties (Some "age") ;;
        Ok {| CanonicalObjectSchema.name := "Person";
              CanonicalObjectSchema.primaryKey := Some "age";
              CanonicalObjectSchema.asymmetric := false;
              CanonicalObjectSchema.embedded := false;
              CanonicalObjectSchema.properties := canonical;
              CanonicalObjectSchema.ctor := None |}).
Proof.
  intros flags properties. split.
  - apply (proj1 (proj2 (object_checks nat flags "Person" (Some "id") None None properties))
             "id" eq_refl).
    + discriminate.
    + simpl. intros [H|[]]. discriminate H.
  - apply (proj2 (proj2 (proj2
             (object_checks nat flags "Person" (Some "age") None None properties)))).
    + discriminate.
    + right. right. exists "age". split; [reflexivity | left; reflexivity].
    + intros [H _]. discriminate H.
Defined.

(** ** C8: normalizing a canonical schema again *)

Lemma primitive_cases (t : string) (P : string -> Prop) :
  P "bool" -> P "int" -> P "float" -> P "double" -> P "decimal128" -> P "objectId" ->
  P "string" -> P "data" -> P "date" -> P "mixed" -> P "uuid" ->
  isPrimitive (Some t) = true -> P t.
Proof.
  intros ? ? ? ? ? ? ? ? ? ? ? H. apply has_In in H. simpl in H.
  repeat (destruct H as [<-|H]; [assumption|]). destruct H.
Qed.

Lemma collection_cases (t : string) (P : string -> Prop) :
  P "list" -> P "dictionary" -> P "set" -> isCollection (Some t) = true -> P t.
Proof.
  intros ? ? ? H. apply has_In in H. simpl in H.
  repeat (destruct H as [<-|H]; [assumption|]). destruct H.
Qed.

(** Proves a goal on [t] for each keyword of the set [H] puts [t] in. *)
Ltac by_keyword cases t H :=
  pattern t;
  match goal with
  | |- ?P t => apply (cases t P); [.. | exact H]
  end.

Section Canonical.

Context {Value : Type}.

Variable info : PropertyInfo.t Value.

(** The type of a canonical record is a keyword without shorthand. *)
Lemma keyword_accepted (t : string) :
  isPrimitive (Some t) = true \/ isCollection (Some t) = true \/ t = "object" ->
  (0 <? JS.length t) = true /\ assertNotUsingShorthand (Some t) info = Ok tt.
Proof.
  intros [H | [H | ->]].
  - by_keyword primitive_cases t H; split; reflexivity.
  - by_keyword collection_cases t H; split; reflexivity.
  - split; reflexivity.
Qed.

Lemma unmarked_accepted (s : string) :
  hasCollectionSuffix s = false -> JS.endsWith s "?" = false ->
  assertNotUsingShorthand (Some s) info = Ok tt.
Proof.
  intros HS HQ. unfold assertNotUsingShorthand.
  rewrite HS, andb_false_r, HQ. reflexivity.
Qed.

Lemma shorthandCollection_rest (s type rest : string) :
  s <> "" -> shorthandCollection info s = Ok (type, rest) ->
  rest <> "" /\ hasCollectionSuffix rest = false.
Proof.
  intros NE. unfold shorthandCollection.
  destruct (hasCollectionSuffix s) eqn:HS.
  - intros H. ok_inv H. injection H as _ <-.
    apply JS_length_positive in H0. apply negb_true_iff in H1. auto.
  - intros [= _ <-]. auto.
Qed.

Lemma shorthandOptional_rest (s rest : string) (optional : option bool) :
  s <> "" -> hasCollectionSuffix s = false ->
  shorthandOptional info s = Ok (optional, rest) ->
  rest <> "" /\ hasCollectionSuffix rest = false
  /\ (optional = None -> JS.endsWith rest "?" = false).
Proof.
  intros NE HS. unfold shorthandOptional.
  destruct (JS.endsWith s "?") eqn:HQ.
  - intros H. ok_inv H. injection H as <- <-.
    apply JS_length_positive in H0. apply negb_true_iff in H1.
    repeat split; [assumption | assumption | discriminate].
  - intros [= <- <-]. auto.
Qed.

Lemma isCollection_not_primitive (t : string) :
  isCollection (Some t) = true -> isPrimitive (Some t) = false.
Proof.
  intros H. by_keyword collection_cases t H; reflexivity.
Qed.

(** What the classification block returns: a primitive type, a
    collection of primitives, a collection of objects, or an object. *)
Lemma shorthandClassify_cases (type0 rest type : string) (objectType : option string) :
  rest <> "" ->
  shorthandClassify info type0 rest = Ok (type, objectType) ->
  (isPrimitive (Some type) = true /\ objectType = None)
  \/ (objectType = Some rest
      /\ (isPrimitive (Some rest) = true \/ isUserDefined (Some rest) = true)
      /\ (isCollection (Some type) = true \/ type = "object" /\ isUserDefined (Some rest) = true)).
Proof.
  intros NE. unfold shorthandClassify.
  destruct (isPrimitive (Some rest)) eqn:HP.
  - destruct (isCollection (Some type0)) eqn:HC.
    + intros [= <- <-]. right. auto.
    + intros [= <- <-]. left. auto.
  - destruct (isCollection (Some rest)) eqn:HC; [discriminate|].
    destruct (String.eqb rest "object") eqn:HO; [discriminate|].
    destruct (String.eqb rest "linkingObjects") eqn:HL; [discriminate|].
    assert (HU : isUserDefined (Some rest) = true).
    { unfold isUserDefined. rewrite HP, HC, HO, HL. simpl.
      unfold JS.truthy. apply String.eqb_neq in NE. rewrite NE. reflexivity. }
    destruct (isCollection (Some type0)) eqn:HC0; simpl; intros [= <- <-]; right; auto.
Qed.

(** The last three blocks of the explicit form leave a record with a
    consistent optional flag, an indexed primary key and a storage name
    as they are. *)
Lemma objectImplicit_stable (type : string) (objectType : option string) (b : bool) :
  (optionalIsImplicitlyTrue type objectType = true -> b = true) ->
  (optionalIsImplicitlyFalse type objectType = true -> b = false) ->
  exists o, objectImplicit info type objectType (Some b) = Ok o /\ JS.truthyBool o = b.
Proof.
  intros HT HF. unfold objectImplicit.
  destruct (optionalIsImplicitlyTrue type objectType).
  - rewrite (HT eq_refl). eexists. split; reflexivity.
  - destruct (optionalIsImplicitlyFalse type objectType).
    + rewrite (HF eq_refl). eexists. split; reflexivity.
    + eexists. split; reflexivity.
Qed.

Lemma objectIndexed_stable (b : bool) :
  (JS.truthyBool (PropertyInfo.isPrimaryKey info) = true -> b = true) ->
  exists i, objectIndexed info (Some b) = Ok i /\ JS.truthyBool i = b.
Proof.
  intros HI. unfold objectIndexed.
  destruct (JS.truthyBool (PropertyInfo.isPrimaryKey info)).
  - rewrite (HI eq_refl). eexists. split; reflexivity.
  - eexists. split; reflexivity.
Qed.

(** A record that passes the checks of the explicit form on its type,
    objectType and property, with a consistent optional flag, an indexed
    primary key, no placeholder in its name, is normalized to itself. *)
Lemma normalizePropertySchemaObject_fixed (c : CanonicalPropertySchema.t Value) :
  (0 <? JS.length (CanonicalPropertySchema.type c)) = true ->
  assertNotUsingShorthand (Some (CanonicalPropertySchema.type c)) info = Ok tt ->
  assertNotUsingShorthand (CanonicalPropertySchema.objectType c) info = Ok tt ->
  objectTypeRules info (CanonicalPropertySchema.type c)
    (CanonicalPropertySchema.objectType c) (CanonicalPropertySchema.property c) = Ok tt ->
  objectPropertyRule info (CanonicalPropertySchema.type c)
    (CanonicalPropertySchema.property c) = Ok tt ->
  forcedOptional c ->
  (JS.truthyBool (PropertyInfo.isPrimaryKey info) = true ->
   CanonicalPropertySchema.indexed c = true) ->
  CanonicalPropertySchema.name c = PropertyInfo.propertyName info ->
  (CanonicalPropertySchema.mapTo c = "" -> PropertyInfo.propertyName info = "") ->
  normalizePropertySchemaObject info (toRawProperty c) = Ok c.
Proof.
  intros H0 H1 H2 H3 H4 [HT HF] HI HN HM.
  unfold normalizePropertySchemaObject. destruct c as [n t op ix m ot pr dv].
  cbn [toRawProperty PropertySchema.type PropertySchema.objectType PropertySchema.property
       PropertySchema.optional PropertySchema.indexed PropertySchema.mapTo
       PropertySchema.default CanonicalPropertySchema.type CanonicalPropertySchema.objectType
       CanonicalPropertySchema.property CanonicalPropertySchema.optional
       CanonicalPropertySchema.indexed CanonicalPropertySchema.mapTo
       CanonicalPropertySchema.default CanonicalPropertySchema.name] in *.
  rewrite H0, H1, H2, H3, H4. cbn [assert bind].
  destruct (objectImplicit_stable t ot op HT HF) as (o & -> & Eo).
  destruct (objectIndexed_stable ix HI) as (i & -> & Ei).
  cbn [bind JS.truthyOpt]. rewrite Eo, Ei. subst n. unfold JS.truthy.
  destruct (String.eqb_spec m "") as [E|_]; cbn [negb]; [|reflexivity].
  rewrite (HM E), E. reflexivity.
Qed.

End Canonical.

Section Again.

Context {Value : Type}.

Lemma unit_result (r : result unit) (u : unit) : r = Ok u -> r = Ok tt.
Proof. destruct u. exact (fun H => H). Qed.

(** A record of the explicit form is normalized to itself. *)
Lemma object_again (info : PropertyInfo.t Value) (p : PropertySchema.t Value) c :
  normalizePropertySchemaObject info p = Ok c ->
  normalizePropertySchemaObject info (toRawProperty c) = Ok c.
Proof.
  intros H. pose proof (object_forced info p c H) as HF.
  assert (HI : JS.truthyBool (PropertyInfo.isPrimaryKey info) = true ->
               CanonicalPropertySchema.indexed c = true).
  { apply (primaryKey_indexed
             (PropertyInfo.mk (PropertyInfo.objectName info) (PropertyInfo.propertyName info)
                (Explicit p) (PropertyInfo.isPrimaryKey info)) c).
    unfold normalizePropertySchema. cbn [PropertyInfo.propertySchema].
    destruct info; exact H. }
  unfold normalizePropertySchemaObject in H. do 7 bind_inv H. injection H as E.
  apply normalizePropertySchemaObject_fixed; try assumption; subst c;
    cbn [CanonicalPropertySchema.type CanonicalPropertySchema.objectType
         CanonicalPropertySchema.property CanonicalPropertySchema.name
         CanonicalPropertySchema.mapTo].
  - apply (assert_Ok _ _ _ H0).
  - apply (unit_result _ _ H1).
  - apply (unit_result _ _ H2).
  - apply (unit_result _ _ H3).
  - apply (unit_result _ _ H4).
  - reflexivity.
  - destruct (PropertySchema.mapTo p) as [m|]; cbn [JS.truthyOpt]; [|exact (fun E => E)].
    unfold JS.truthy. destruct (String.eqb_spec m "") as [->|NE]; cbn [negb].
    + exact (fun E => E).
    + intros E. destruct (NE E).
Qed.

(** The blocks of a successful shorthand normalization. *)
Lemma normalizePropertySchemaShorthand_Ok (info : PropertyInfo.t Value) (s : string) c :
  normalizePropertySchemaShorthand info s = Ok c ->
  exists type0 rest0 optional1 rest1 type objectType optional,
    s <> ""
    /\ shorthandCollection info s = Ok (type0, rest0)
    /\ shorthandOptional info rest0 = Ok (optional1, rest1)
    /\ shorthandClassify info type0 rest1 = Ok (type, objectType)
    /\ shorthandImplicit info type objectType optional1 = Ok optional
    /\ c = {| CanonicalPropertySchema.name := PropertyInfo.propertyName info;
              CanonicalPropertySchema.type := type;
              CanonicalPropertySchema.optional := JS.truthyBool optional;
              CanonicalPropertySchema.indexed := JS.truthyBool (PropertyInfo.isPrimaryKey info);
              CanonicalPropertySchema.mapTo := PropertyInfo.propertyName info;
              CanonicalPropertySchema.objectType := objectType;
              CanonicalPropertySchema.property := None;
              CanonicalPropertySchema.default := None |}.
Proof.
  unfold normalizePropertySchemaShorthand. intros H.
  apply bind_Ok in H as (u & H0 & H). apply assert_Ok, JS_length_positive in H0.
  apply bind_Ok in H as ([type0 rest0] & H1 & H).
  apply bind_Ok in H as ([optional1 rest1] & H2 & H).
  apply bind_Ok in H as ([type objectType] & H3 & H).
  apply bind_Ok in H as (optional & H4 & H).
  injection H as <-. exists type0, rest0, optional1, rest1, type, objectType, optional.
  auto 10.
Qed.

(** A record of the shorthand form whose objectType does not end with
    the optional marker is normalized to itself. *)
Lemma shorthand_again (info : PropertyInfo.t Value) (s : string) c :
  normalizePropertySchemaShorthand info s = Ok c -> Unmarked c ->
  normalizePropertySchemaObject info (toRawProperty c) = Ok c.
Proof.
  intros H UM. pose proof (shorthand_forced info s c H) as HF.
  destruct (normalizePropertySchemaShorthand_Ok info s c H)
    as (type0 & rest0 & optional1 & rest1 & type & objectType & optional
        & H0 & H1 & H2 & H3 & H4 & E).
  destruct (shorthandCollection_rest info _ _ _ H0 H1) as (NE0 & HS0).
  destruct (shorthandOptional_rest info _ _ _ NE0 HS0 H2) as (NE1 & HS1 & HQ).
  pose proof (shorthandClassify_cases info _ _ _ _ NE1 H3) as Cases.
  apply normalizePropertySchemaObject_fixed; try assumption; subst c;
    cbn [CanonicalPropertySchema.type CanonicalPropertySchema.objectType
         CanonicalPropertySchema.property CanonicalPropertySchema.name
         CanonicalPropertySchema.mapTo CanonicalPropertySchema.indexed].
  - destruct Cases as [[HP _] | (_ & _ & [HC | [-> _]])].
    + apply (keyword_accepted info type). auto.
    + apply (keyword_accepted info type). auto.
    + reflexivity.
  - destruct Cases as [[HP _] | (_ & _ & [HC | [-> _]])].
    + apply (keyword_accepted info type). auto.
    + apply (keyword_accepted info type). auto.
    + reflexivity.
  - destruct Cases as [[_ ->] | (-> & [HP | HU] & _)].
    + reflexivity.
    + apply (keyword_accepted info rest1). auto.
    + apply unmarked_accepted; [exact HS1|].
      apply (UM rest1). reflexivity.
  - unfold objectTypeRules.
    destruct Cases as [[HP ->] | (-> & HO & [HC | [-> HU]])].
    + rewrite HP. reflexivity.
    + rewrite (isCollection_not_primitive _ HC), HC.
      apply assert_true. apply orb_true_iff. exact HO.
    + rewrite HU. reflexivity.
  - unfold objectPropertyRule. destruct (negb _); reflexivity.
  - exact (fun PK => PK).
  - reflexivity.
  - exact (fun E => E).
Qed.

Lemma normalizePropertySchema_again (info : PropertyInfo.t Value) c :
  normalizePropertySchema info = Ok c -> Unmarked c ->
  normalizePropertySchemaObject info (toRawProperty c) = Ok c.
Proof.
  unfold normalizePropertySchema. destruct (PropertyInfo.propertySchema info) as [s|p].
  - apply shorthand_again.
  - intros H _. exact (object_again info p c H).
Qed.

End Again.

Lemma In_keys_store {A : Type} (record : list (string * A)) (key key' : string) (value : A) :
  In key' (map fst (store record key value)) <-> In key' (map fst record) \/ key' = key.
Proof.
  induction record as [|[k w] rest IH]; simpl.
  - intuition congruence.
  - destruct (String.eqb_spec k key) as [->|NE]; simpl.
    + intuition congruence.
    + rewrite IH. intuition congruence.
Qed.

Lemma NoDup_keys_store {A : Type} (record : list (string * A)) (key : string) (value : A) :
  NoDup (map fst record) -> NoDup (map fst (store record key value)).
Proof.
  induction record as [|[k w] rest IH]; simpl; intros ND.
  - constructor; [intros [] | constructor].
  - inversion ND as [|? ? NI ND']; subst.
    destruct (String.eqb_spec k key) as [->|NE]; simpl.
    + constructor; assumption.
    + constructor; [|exact (IH ND')].
      rewrite In_keys_store. intros [HIn|E]; [exact (NI HIn) | exact (NE E)].
Qed.

(** The keys after an assignment: the name assigned is added, unless it
    is "__proto__". *)
Lemma In_keys_assign {A : Type} (record : list (string * A)) (key key' : string) (value : A) :
  In key' (map fst (assign record key value))
  <-> In key' (map fst record) \/ (key' = key /\ key <> "__proto__").
Proof.
  unfold assign. destruct (String.eqb_spec key "__proto__") as [->|NE].
  - intuition congruence.
  - rewrite In_keys_store. intuition congruence.
Qed.

Lemma NoDup_keys_assign {A : Type} (record : list (string * A)) (key : string) (value : A) :
  NoDup (map fst record) -> NoDup (map fst (assign record key value)).
Proof.
  intros ND. unfold assign.
  destruct (String.eqb key "__proto__"); [exact ND | apply NoDup_keys_store; exact ND].
Qed.

Lemma get_hasOwnProperty {A : Type} (record : list (string * A)) (key : string) :
  get record key <> None -> hasOwnProperty record key = true.
Proof.
  induction record as [|[k w] rest IH]; simpl; intros H.
  - destruct (H eq_refl).
  - unfold hasOwnProperty. simpl.
    destruct (String.eqb k key); [reflexivity | exact (IH H)].
Qed.

Lemma hasOwnProperty_map_snd {A B : Type} (f : A -> B) (record : list (string * A)) key :
  hasOwnProperty (map (fun kv => (fst kv, f (snd kv))) record) key
  = hasOwnProperty record key.
Proof.
  unfold hasOwnProperty. induction record as [|[k w] rest IH]; simpl;
    [reflexivity | now rewrite IH].
Qed.

Lemma keys_map_snd {A B : Type} (f : A -> B) (record : list (string * A)) :
  map fst (map (fun kv => (fst kv, f (snd kv))) record) = map fst record.
Proof.
  induction record as [|[k w] rest IH]; simpl; [reflexivity | now rewrite IH].
Qed.

Lemma In_keys_insertIndex {A : Type} (record : list (string * A)) (n : N)
    (key key' : string) (value : A) :
  In key' (map fst (insertIndex record n key value))
  <-> In key' (map fst record) \/ key' = key.
Proof.
  induction record as [|[k w] rest IH]; simpl.
  - intuition congruence.
  - destruct (arrayIndex k) as [m|]; [destruct (n <? m)%N|]; simpl;
      rewrite ?IH; intuition congruence.
Qed.

Lemma In_keys_define {A : Type} (record : list (string * A)) (key key' : string) (value : A) :
  In key' (map fst (define record key value)) <-> In key' (map fst record) \/ key' = key.
Proof.
  unfold define. destruct (arrayIndex key) as [n|]; [destruct (hasOwnProperty record key)|].
  - apply In_keys_store.
  - apply In_keys_insertIndex.
  - apply In_keys_store.
Qed.

Lemma In_keys_fromEntries {A : Type} (entries : list (string * A)) (key : string) :
  In key (map fst (fromEntries entries)) <-> In key (map fst entries).
Proof.
  unfold fromEntries.
  assert (G : forall acc : list (string * A),
             In key (map fst (fold_left (fun record kv => define record (fst kv) (snd kv))
                                entries acc))
             <-> In key (map fst acc) \/ In key (map fst entries)).
  { induction entries as [|[k v] rest IH]; intros acc; simpl.
    - tauto.
    - rewrite IH, In_keys_define. intuition congruence. }
  rewrite G. simpl. tauto.
Qed.

Section Idempotence.

Context {Value : Type}.

(** The explicit form reads the object name, the property name and the
    primary key flag of its info, and nothing else. *)
Lemma normalizePropertySchemaObject_info (info info' : PropertyInfo.t Value) p :
  PropertyInfo.objectName info = PropertyInfo.objectName info' ->
  PropertyInfo.propertyName info = PropertyInfo.propertyName info' ->
  PropertyInfo.isPrimaryKey info = PropertyInfo.isPrimaryKey info' ->
  normalizePropertySchemaObject info p = normalizePropertySchemaObject info' p.
Proof.
  destruct info, info'. simpl. intros -> -> ->. reflexivity.
Qed.

Lemma entry_again objectName primaryKey key (d : PropertyDefinition Value) c :
  normalizePropertySchema (entryInfo objectName primaryKey key d) = Ok c ->
  Unmarked c ->
  normalizePropertySchema
    (entryInfo objectName primaryKey key (Explicit (toRawProperty c))) = Ok c.
Proof.
  intros H UM. apply normalizePropertySchema_again in H; [|exact UM].
  unfold normalizePropertySchema. cbn [entryInfo PropertyInfo.propertySchema].
  rewrite <- H. apply normalizePropertySchemaObject_info; reflexivity.
Qed.

Lemma normalizePropertySchemasFrom_NoDup objectName primaryKey :
  forall (entries : list (string * PropertyDefinition Value)) acc out,
    NoDup (map fst acc) ->
    normalizePropertySchemasFrom objectName primaryKey entries acc = Ok out ->
    NoDup (map fst out).
Proof.
  induction entries as [|[k d] rest IH]; simpl; intros acc out ND H.
  - injection H as <-. exact ND.
  - bind_inv H. exact (IH _ _ (NoDup_keys_assign _ _ _ ND) H).
Qed.

Lemma normalizePropertySchemasFrom_stored objectName primaryKey :
  forall (entries : list (string * PropertyDefinition Value)) acc out,
    ~ In "__proto__" (map fst acc) ->
    normalizePropertySchemasFrom objectName primaryKey entries acc = Ok out ->
    ~ In "__proto__" (map fst out).
Proof.
  induction entries as [|[k d] rest IH]; simpl; intros acc out NP H.
  - injection H as <-. exact NP.
  - bind_inv H. apply (IH (assign acc k a) out); [|exact H].
    intros HIn.
    apply In_keys_assign in HIn as [HIn | [E NE]]; [exact (NP HIn) | exact (NE (eq_sym E))].
Qed.

Lemma normalizeEach_fixed objectName primaryKey
    (out : list (string * CanonicalPropertySchema.t Value)) :
  Forall (fun kc =>
            normalizePropertySchema
              (entryInfo objectName primaryKey (fst kc) (Explicit (toRawProperty (snd kc))))
            = Ok (snd kc)) out ->
  normalizeEach objectName primaryKey
    (map (fun kc => (fst kc, Explicit (toRawProperty (snd kc)))) out) = Ok out.
Proof.
  induction 1 as [|[k c] rest Hk _ IH]; simpl.
  - reflexivity.
  - simpl in Hk. rewrite Hk. cbn [bind]. rewrite IH. reflexivity.
Qed.

(** The records the property loop returns are normalized to themselves
    by a second run of the loop, when none has a marked objectType. *)
Lemma normalizePropertySchemas_again objectName primaryKey
    (properties : list (string * PropertyDefinition Value)) out :
  normalizePropertySchemas objectName properties primaryKey = Ok out ->
  Forall (fun kc => Unmarked (snd kc)) out ->
  normalizePropertySchemas objectName
    (map (fun kc => (fst kc, Explicit (toRawProperty (snd kc)))) out) primaryKey
  = Ok out.
Proof.
  intros H UM. unfold normalizePropertySchemas in H.
  rewrite normalizePropertySchemas_each.
  - apply normalizeEach_fixed.
    assert (F : Forall (fun kc : string * CanonicalPropertySchema.t Value =>
                Unmarked (snd kc) ->
                normalizePropertySchema
                  (entryInfo objectName primaryKey (fst kc)
                     (Explicit (toRawProperty (snd kc)))) = Ok (snd kc)) out).
    { apply (normalizePropertySchemasFrom_Forall
               (fun k c => Unmarked c ->
                           normalizePropertySchema
                             (entryInfo objectName primaryKey k (Explicit (toRawProperty c)))
                           = Ok c)
               objectName primaryKey) with (entries := properties) (acc := []);
        [|constructor|exact H].
      intros k d c. apply entry_again. }
    rewrite Forall_forall in *. intros kc HIn. exact (F kc HIn (UM kc HIn)).
  - rewrite (keys_map_snd (fun c => Explicit (toRawProperty c))).
    apply (normalizePropertySchemasFrom_NoDup objectName primaryKey properties [] out);
      [constructor | exact H].
  - rewrite (keys_map_snd (fun c => Explicit (toRawProperty c))).
    apply (normalizePropertySchemasFrom_stored objectName primaryKey properties [] out);
      [intros [] | exact H].
Qed.

Lemma normalizeObjectSchemaMapping_again name primaryKey asymmetric embedded
    (properties : list (string * PropertyDefinition Value)) C :
  normalizeObjectSchemaMapping name primaryKey asymmetric embedded properties = Ok C ->
  ~ In "__proto__" (map fst properties) ->
  Forall (fun kc => Unmarked (snd kc)) (CanonicalObjectSchema.properties C) ->
  normalizeObjectSchemaMapping
    (CanonicalObjectSchema.name C) (CanonicalObjectSchema.primaryKey C)
    (Some (CanonicalObjectSchema.asymmetric C)) (Some (CanonicalObjectSchema.embedded C))
    (map (fun kc => (fst kc, Explicit (toRawProperty (snd kc))))
         (CanonicalObjectSchema.properties C))
  = Ok C.
Proof.
  unfold normalizeObjectSchemaMapping at 1. intros H NP UM.
  apply bind_Ok in H as (u0 & H0 & H). apply bind_Ok in H as (u1 & H1 & H).
  apply bind_Ok in H as (u2 & H2 & H). apply bind_Ok in H as (out & H3 & H).
  injection H as <-. cbn [CanonicalObjectSchema.properties] in UM.
  unfold normalizeObjectSchemaMapping.
  cbn [CanonicalObjectSchema.name CanonicalObjectSchema.primaryKey
       CanonicalObjectSchema.asymmetric CanonicalObjectSchema.embedded
       CanonicalObjectSchema.properties JS.truthyBool].
  rewrite (unit_result _ _ H0). cbn [bind].
  assert (PK : match primaryKey with
               | Some k =>
                   JS.truthy k
                   && negb (hasOwnProperty
                              (map (fun kc : string * CanonicalPropertySchema.t Value =>
                                      (fst kc, Explicit (toRawProperty (snd kc)))) out) k)
               | None => false
               end = false).
  { destruct primaryKey as [k|]; [|reflexivity].
    apply assert_Ok, negb_true_iff in H1.
    destruct (JS.truthy k); [|reflexivity]. simpl in H1 |- *.
    apply negb_false_iff in H1. apply negb_false_iff.
    rewrite (hasOwnProperty_map_snd (fun c => Explicit (toRawProperty c))).
    apply get_hasOwnProperty.
    assert (NK : k <> "__proto__").
    { intros ->. apply NP. apply hasOwnProperty_In. exact H1. }
    apply (normalizePropertySchemasFrom_key _ _ _ NK _ _ _ H3). left. exact H1. }
  rewrite PK. cbn [negb assert bind].
  rewrite (unit_result _ _ H2). cbn [bind].
  rewrite (normalizePropertySchemas_again _ _ _ _ H3 UM). reflexivity.
Qed.

(** Idempotence, for the definitions that name no property "__proto__"
    and the schemas in which no objectType ends with the optional marker. *)
Lemma idempotent_when_unmarked (flags : Flags) (raw : ObjectSchema.t Value) C :
  normalizeObjectSchema flags (Plain raw) = Ok C ->
  ~ In "__proto__" (propertyNames (ObjectSchema.properties raw)) ->
  Forall (fun kc => Unmarked (snd kc)) (CanonicalObjectSchema.properties C) ->
  normalizeObjectSchema flags (Plain (toRaw C)) = Ok C.
Proof.
  cbn [normalizeObjectSchema]. unfold normalizeObjectSchemaPlain at 1. intros H NP UM.
  unfold normalizeObjectSchemaPlain.
  cbn [toRaw ObjectSchema.properties ObjectSchema.name ObjectSchema.primaryKey
       ObjectSchema.asymmetric ObjectSchema.embedded].
  destruct (ObjectSchema.properties raw) as [entries|items]; cbn [propertyNames] in NP.
  - exact (normalizeObjectSchemaMapping_again _ _ _ _ _ _ H NP UM).
  - destruct (ALLOW_VALUES_ARRAYS flags); [|discriminate].
    apply (normalizeObjectSchemaMapping_again _ _ _ _ _ _ H); [|exact UM].
    rewrite In_keys_fromEntries.
    rewrite (keys_map_snd (fun p : PropertySchema.t Value => Explicit p)). exact NP.
Qed.

End Idempotence.

(** C8.  The shorthand "int??" is accepted as a relationship to a type
    named "int?"; the canonical schema read back as a raw definition
    gives that name as an objectType in explicit form, where it is
    rejected as shorthand.  Normalizing the canonical schema again fails. *)
Theorem idempotence_fails_on_doubled_marker :
  let flags := {| ALLOW_VALUES_ARRAYS := false |} in
  let raw : ObjectSchema.t nat :=
    ObjectSchema.mk "Person" None None None
      (PropertiesObject [("age", Shorthand "int??")]) in
  let C : CanonicalObjectSchema.t nat :=
    {| CanonicalObjectSchema.name := "Person";
       CanonicalObjectSchema.primaryKey := None;
       CanonicalObjectSchema.asymmetric := false;
       CanonicalObjectSchema.embedded := false;
       CanonicalObjectSchema.properties :=
         [("age", {| CanonicalPropertySchema.name := "age";
                     CanonicalPropertySchema.type := "object";
                     CanonicalPropertySchema.optional := true;
                     CanonicalPropertySchema.indexed := false;
                     CanonicalPropertySchema.mapTo := "age";
                     CanonicalPropertySchema.objectType := Some "int?";
                     CanonicalPropertySchema.property := None;
                     CanonicalPropertySchema.default := None |})];
       CanonicalObjectSchema.ctor := None |} in
  normalizeObjectSchema flags (Plain raw) = Ok C
  /\ normalizeObjectSchema flags (Plain (toRaw C))
     = Throw (PropertySchemaParseError
                "Cannot use shorthand '?' in 'type' or 'objectType' when defining property objects."
                "Person" "age").
Proof.
  split; vm_compute; reflexivity.
Qed.

(** ** The generic notation *)

Lemma index_skip (base t search : string) :
  String.index (String.length base) search (base ++ t)
  = option_map (fun n => (n + String.length base)%nat) (String.index 0 search t).
Proof.
  induction base as [|b base IH]; simpl.
  - destruct (String.index 0 search t) as [n|]; simpl; [|reflexivity].
    rewrite Nat.add_0_r. reflexivity.
  - rewrite IH. destruct (String.index 0 search t) as [n|]; simpl; [|reflexivity].
    rewrite Nat.add_succ_r. reflexivity.
Qed.

Lemma contains_cons (c b : ascii) (s : string) :
  contains c (String b s) = false -> b <> c /\ contains c s = false.
Proof.
  simpl. rewrite orb_false_iff, Ascii.eqb_neq. exact (fun H => H).
Qed.

Lemma index_char_found (c : ascii) (s rest : string) :
  contains c s = false ->
  String.index 0 (String c "") (s ++ String c rest) = Some (String.length s).
Proof.
  induction s as [|b s IH]; intros H.
  - simpl. destruct (Ascii.ascii_dec c c) as [_|N]; [|destruct (N eq_refl)].
    destruct rest; reflexivity.
  - apply contains_cons in H as [NE H]. simpl.
    destruct (Ascii.ascii_dec c b) as [E|_]; [destruct (NE (eq_sym E))|].
    rewrite (IH H). reflexivity.
Qed.

Lemma index_char_absent (c : ascii) (s : string) :
  contains c s = false -> String.index 0 (String c "") s = None.
Proof.
  induction s as [|b s IH]; intros H.
  - reflexivity.
  - apply contains_cons in H as [NE H]. simpl.
    destruct (Ascii.ascii_dec c b) as [E|_]; [destruct (NE (eq_sym E))|].
    rewrite (IH H). reflexivity.
Qed.

Lemma string_substring_mid (a b c : string) :
  String.substring (String.length a) (String.length b) (a ++ b ++ c) = b.
Proof.
  induction a as [|x a IH]; simpl; [apply string_substring_take | exact IH].
Qed.

Lemma JS_indexOf_start (s search : string) :
  JS.indexOf s search 0
  = match String.index 0 search s with Some n => Z.of_nat n | None => -1 end.
Proof.
  unfold JS.indexOf, JS.clamp. pose proof (JS_length_nonneg s).
  replace (Z.max 0 (Z.min 0 (JS.length s))) with 0 by lia. reflexivity.
Qed.

Lemma JS_indexOf_skip (base t search : string) :
  JS.indexOf (base ++ t) search (JS.length base)
  = match String.index 0 search t with
    | Some n => Z.of_nat n + JS.length base
    | None => -1
    end.
Proof.
  unfold JS.indexOf, JS.clamp. rewrite JS_length_append.
  pose proof (JS_length_nonneg base). pose proof (JS_length_nonneg t).
  replace (Z.max 0 (Z.min (JS.length base) (JS.length base + JS.length t)))
    with (JS.length base) by lia.
  unfold JS.length at 1. rewrite Nat2Z.id, index_skip.
  destruct (String.index 0 search t) as [n|]; simpl; [|reflexivity].
  unfold JS.length. lia.
Qed.

(** X1. A base without an opening bracket, followed by an argument
    without a closing bracket written between the brackets, is split into
    the base and the argument, whatever follows the closing bracket. *)
Theorem extractGeneric_brackets (base argument rest : string) :
  contains "<" base = false -> contains ">" argument = false ->
  extractGeneric (base ++ "<" ++ argument ++ ">" ++ rest)
  = {| Generic.typeBase := base; Generic.typeArgument := Some argument |}.
Proof.
  intros HB HA. unfold extractGeneric.
  pose proof (JS_length_nonneg base) as Lb. pose proof (JS_length_nonneg argument) as La.
  pose proof (JS_length_nonneg rest) as Lr.
  rewrite JS_indexOf_start.
  change (base ++ "<" ++ argument ++ ">" ++ rest)
    with (base ++ String "<" (argument ++ String ">" rest)).
  rewrite (index_char_found "<" base _ HB).
  fold (JS.length base). rewrite JS_indexOf_skip.
  assert (E : String.index 0 ">" (String "<" (argument ++ String ">" rest))
              = Some (S (String.length argument))).
  { cbn [String.index String.prefix].
    destruct (Ascii.ascii_dec ">" "<") as [D|_]; [discriminate D|].
    rewrite (index_char_found ">" argument rest HA). reflexivity. }
  rewrite E.
  destruct (Z.eqb_spec (JS.length base) (-1)) as [Bad|_]; [lia|].
  assert (Len : JS.length (base ++ String "<" (argument ++ String ">" rest))
                = JS.length base + 1 + JS.length argument + 1 + JS.length rest).
  { change (String "<" (argument ++ String ">" rest))
      with ("<" ++ argument ++ ">" ++ rest).
    rewrite !JS_length_append. change (JS.length "<") with 1.
    change (JS.length ">") with 1. lia. }
  f_equal.
  - rewrite JS_substring_inrange by lia.
    rewrite Z.sub_0_r. unfold JS.length. rewrite Nat2Z.id. apply string_substring_take.
  - f_equal. rewrite JS_substring_inrange by (unfold JS.length in *; lia).
    replace (Z.to_nat (JS.length base + 1)) with (String.length (base ++ "<"))
      by (rewrite string_length_append; unfold JS.length; simpl; lia).
    replace (Z.to_nat (Z.of_nat (S (String.length argument)) + JS.length base
                       - (JS.length base + 1)))
      with (String.length argument) by lia.
    change (base ++ String "<" (argument ++ String ">" rest))
      with (base ++ "<" ++ argument ++ ">" ++ rest).
    rewrite <- (string_append_assoc base "<").
    apply string_substring_mid.
Qed.

Lemma extractGeneric_brackets_witness :
  extractGeneric "Results<Person>"
  = {| Generic.typeBase := "Results"; Generic.typeArgument := Some "Person" |}.
Proof.
  exact (extractGeneric_brackets "Results" "Person" "" eq_refl eq_refl).
Defined.

(** X2. A string without an opening bracket is its own base and has no
    argument.  When the bracket is opened and never closed, the base is
    what precedes the bracket and the argument is the base followed by the
    bracket: the missing position -1 is clamped to the start of the string
    and the two ends of the substring are swapped. *)
Theorem extractGeneric_edges :
  (forall type, contains "<" type = false ->
                extractGeneric type
                = {| Generic.typeBase := type; Generic.typeArgument := None |})
  /\ (forall base tail,
         contains "<" base = false -> contains ">" tail = false ->
         extractGeneric (base ++ "<" ++ tail)
         = {| Generic.typeBase := base;
              Generic.typeArgument := Some (base ++ "<") |}).
Proof.
  split.
  - intros type H. unfold extractGeneric.
    rewrite JS_indexOf_start, (index_char_absent "<" type H). reflexivity.
  - intros base tail HB HT. unfold extractGeneric.
    pose proof (JS_length_nonneg base) as Lb. pose proof (JS_length_nonneg tail) as Lt.
    rewrite JS_indexOf_start.
    change (base ++ "<" ++ tail) with (base ++ String "<" tail).
    rewrite (index_char_found "<" base _ HB).
    fold (JS.length base). rewrite JS_indexOf_skip.
    assert (E : String.index 0 ">" (String "<" tail) = None).
    { cbn [String.index String.prefix].
      destruct (Ascii.ascii_dec ">" "<") as [D|_]; [discriminate D|].
      rewrite (index_char_absent ">" tail HT). reflexivity. }
    rewrite E.
    destruct (Z.eqb_spec (JS.length base) (-1)) as [Bad|_]; [lia|].
    assert (Len : JS.length (base ++ String "<" tail) = JS.length base + 1 + JS.length tail).
    { change (String "<" tail) with ("<" ++ tail).
      rewrite !JS_length_append. change (JS.length "<") with 1. lia. }
    f_equal.
    + rewrite JS_substring_inrange by lia.
      rewrite Z.sub_0_r. unfold JS.length. rewrite Nat2Z.id. apply string_substring_take.
    + f_equal. unfold JS.substring, JS.clamp. rewrite Len.
      replace (Z.max 0 (Z.min (JS.length base + 1) (JS.length base + 1 + JS.length tail)))
        with (JS.length base + 1) by lia.
      replace (Z.max 0 (Z.min (-1) (JS.length base + 1 + JS.length tail))) with 0 by lia.
      replace (Z.min (JS.length base + 1) 0) with 0 by lia.
      replace (Z.max (JS.length base + 1) 0 - 0) with (JS.length base + 1) by lia.
      replace (Z.to_nat (JS.length base + 1)) with (String.length (base ++ "<"))
        by (rewrite string_length_append; unfold JS.length; simpl; lia).
      change (base ++ String "<" tail) with (base ++ "<" ++ tail).
      rewrite <- (string_append_assoc base "<").
      apply string_substring_take.
Qed.

Lemma extractGeneric_edges_witness :
  extractGeneric "int" = {| Generic.typeBase := "int"; Generic.typeArgument := None |}
  /\ extractGeneric "list<int"
     = {| Generic.typeBase := "list"; Generic.typeArgument := Some "list<" |}.
Proof.
  split.
  - exact (proj1 extractGeneric_edges "int" eq_refl).
  - exact (proj2 extractGeneric_edges "list" "int" eq_refl eq_refl).
Defined.

(** ** The classifier and the suffix test *)

(** X3. Every non-empty type name is in exactly one of the five
    categories: primitive, collection, the keyword object, the keyword
    linkingObjects, user-defined.  The empty string and an undefined name
    are in none. *)
Theorem classification_partition :
  (forall s, s <> "" ->
     (Nat.b2n (isPrimitive (Some s)) + Nat.b2n (isCollection (Some s))
      + Nat.b2n (String.eqb s "object") + Nat.b2n (String.eqb s "linkingObjects")
      + Nat.b2n (isUserDefined (Some s)) = 1)%nat)
  /\ (forall type, type = None \/ type = Some "" ->
        isPrimitive type = false /\ isCollection type = false
        /\ isUserDefined type = false).
Proof.
  split.
  - intros s NE. destruct (isPrimitive (Some s)) eqn:HP.
    { by_keyword primitive_cases s HP; reflexivity. }
    destruct (isCollection (Some s)) eqn:HC.
    { by_keyword collection_cases s HC; reflexivity. }
    unfold isUserDefined. rewrite HP, HC. cbn [JS.truthyOpt]. unfold JS.truthy.
    apply String.eqb_neq in NE. rewrite NE.
    destruct (String.eqb_spec s "object") as [->|_]; [reflexivity|].
    destruct (String.eqb_spec s "linkingObjects") as [->|_]; reflexivity.
  - intros type [-> | ->]; repeat split.
Qed.

Lemma classification_partition_witness :
  (Nat.b2n (isPrimitive (Some "Person")) + Nat.b2n (isCollection (Some "Person"))
   + Nat.b2n (String.eqb "Person" "object") + Nat.b2n (String.eqb "Person" "linkingObjects")
   + Nat.b2n (isUserDefined (Some "Person")) = 1)%nat
  /\ isUserDefined (Some "") = false.
Proof.
  split.
  - apply (proj1 classification_partition "Person"). discriminate.
  - apply (proj2 classification_partition (Some "")). right. reflexivity.
Defined.

(** X4. [hasCollectionSuffix] holds exactly of the strings that end
    with one of the three suffixes; in particular it fails on every string
    of fewer than two units, where the start of the substring is negative. *)
Theorem hasCollectionSuffix_exact (s : string) :
  (hasCollectionSuffix s = true <->
   exists r suffix, s = r ++ suffix /\ In suffix ["[]"; "{}"; "<>"])
  /\ (JS.length s < 2 -> hasCollectionSuffix s = false).
Proof.
  split.
  - exact (hasCollectionSuffix_spec s).
  - intros Short. destruct (hasCollectionSuffix s) eqn:E; [|reflexivity].
    apply hasCollectionSuffix_spec in E as (r & suffix & -> & H).
    rewrite JS_length_append, (collectionSuffix_length _ H) in Short.
    pose proof (JS_length_nonneg r). lia.
Qed.

Lemma hasCollectionSuffix_exact_witness :
  hasCollectionSuffix "Person{}" = true /\ hasCollectionSuffix "]" = false.
Proof.
  split.
  - apply (proj2 (proj1 (hasCollectionSuffix_exact "Person{}"))).
    exists "Person", "{}". split; [reflexivity | right; left; reflexivity].
  - apply (proj2 (hasCollectionSuffix_exact "]")). reflexivity.
Defined.

(** ** The shorthand grammar *)

Lemma string_append_empty (s : string) : s ++ "" = s.
Proof.
  induction s as [|c s IH]; simpl; [reflexivity | now rewrite IH].
Qed.

Lemma hasCollectionSuffix_marked (r : string) : hasCollectionSuffix (r ++ "?") = false.
Proof.
  destruct (hasCollectionSuffix (r ++ "?")) eqn:E; [|reflexivity]. exfalso.
  apply hasCollectionSuffix_spec in E as (r' & suffix & E & H).
  assert (L : String.length r = S (String.length r')).
  { apply (f_equal String.length) in E. rewrite !string_length_append in E.
    apply collectionSuffix_length in H. unfold JS.length in H. simpl in E. lia. }
  pose proof (append_correct2 r "?" 0) as G1.
  pose proof (append_correct2 r' suffix 1) as G2.
  rewrite E in G1. simpl (0 + _)%nat in G1. simpl (1 + _)%nat in G2.
  rewrite L, <- G2 in G1.
  destruct H as [<-|[<-|[<-|[]]]]; discriminate G1.
Qed.

Lemma collectionName_of (suffix name : string) :
  In (suffix, name) COLLECTION_SHORTHAND_TO_NAME ->
  In suffix collectionSuffixes /\ get COLLECTION_SHORTHAND_TO_NAME suffix = Some name.
Proof.
  intros [[= <- <-]|[[= <- <-]|[[= <- <-]|[]]]]; split;
    try reflexivity; simpl; tauto.
Qed.

Section Grammar.

Context {Value : Type}.

Variable info : PropertyInfo.t Value.

Lemma shorthandCollection_suffix (r suffix name : string) :
  r <> "" -> hasCollectionSuffix r = false ->
  In (suffix, name) COLLECTION_SHORTHAND_TO_NAME ->
  shorthandCollection info (r ++ suffix) = Ok (name, r).
Proof.
  intros NE HS HIn. apply collectionName_of in HIn as [HIn G].
  unfold shorthandCollection.
  rewrite (hasCollectionSuffix_append _ _ HIn), (strip_suffix _ _ HIn).
  rewrite <- (collectionSuffix_length _ HIn), JS_substringFrom_append, G.
  apply JS_length_positive in NE. rewrite NE, HS. reflexivity.
Qed.

Lemma marked_element (e : string) (b : bool) :
  Element e -> e ++ marker b <> "" /\ hasCollectionSuffix (e ++ marker b) = false.
Proof.
  intros (NE & HS & _). destruct b; simpl.
  - split; [destruct e; discriminate | apply hasCollectionSuffix_marked].
  - rewrite string_append_empty. auto.
Qed.

Lemma shorthandOptional_element (e : string) (b : bool) :
  Element e ->
  shorthandOptional info (e ++ marker b) = Ok (if b then Some true else None, e).
Proof.
  intros (NE & HS & HQ). destruct b; simpl.
  - rewrite shorthandOptional_marker. apply JS_length_positive in NE.
    rewrite NE, HS. reflexivity.
  - rewrite string_append_empty. unfold shorthandOptional. rewrite HQ. reflexivity.
Qed.

(** The first two blocks undo the concatenation of an element, a marker
    and a suffix. *)
Lemma shorthand_parse (e : string) (b : bool) (suffix type0 : string) :
  Element e ->
  suffix = "" /\ type0 = "" \/ In (suffix, type0) COLLECTION_SHORTHAND_TO_NAME ->
  normalizePropertySchemaShorthand info (e ++ marker b ++ suffix)
  = ('(type, objectType) <- shorthandClassify info type0 e ;;
     optional <- shorthandImplicit info type objectType (if b then Some true else None) ;;
     Ok (shorthandRecord info type objectType (JS.truthyBool optional))).
Proof.
  intros HE Hsuffix. destruct (marked_element e b HE) as [NE HS].
  unfold normalizePropertySchemaShorthand.
  assert (C : (0 <? JS.length (e ++ marker b ++ suffix)) = true
              /\ shorthandCollection info (e ++ marker b ++ suffix)
                 = Ok (type0, e ++ marker b)).
  { destruct Hsuffix as [[-> ->] | HIn].
    - rewrite string_append_empty. split; [apply JS_length_positive; exact NE|].
      unfold shorthandCollection. rewrite HS. reflexivity.
    - rewrite <- string_append_assoc. split.
      + apply append_suffix_nonempty. apply (collectionName_of _ _ HIn).
      + apply shorthandCollection_suffix; assumption. }
  destruct C as [-> ->]. cbn [assert bind].
  rewrite (shorthandOptional_element e b HE). reflexivity.
Qed.

Lemma userDefined_classify (type0 u : string) :
  isUserDefined (Some u) = true ->
  shorthandClassify info type0 u
  = Ok (if negb (isCollection (Some type0)) then "object" else type0, Some u).
Proof.
  unfold isUserDefined, shorthandClassify. rewrite andb_true_iff, negb_true_iff.
  rewrite !orb_false_iff. intros (_ & ((-> & ->) & ->) & ->). reflexivity.
Qed.

End Grammar.

(** X5. The shorthand of a primitive type, with or without the optional
    marker, yields that type with no objectType; followed by a collection
    suffix it yields the collection with the primitive as objectType.  The
    record is optional exactly when the marker is written or the
    primitive is mixed. *)
Theorem shorthand_primitive
    (Value : Type) (info : PropertyInfo.t Value) (p : string) (b : bool) :
  isPrimitive (Some p) = true ->
  normalizePropertySchemaShorthand info (p ++ marker b)
  = Ok (shorthandRecord info p None (b || String.eqb p "mixed"))
  /\ forall suffix name,
       In (suffix, name) COLLECTION_SHORTHAND_TO_NAME ->
       normalizePropertySchemaShorthand info (p ++ marker b ++ suffix)
       = Ok (shorthandRecord info name (Some p) (b || String.eqb p "mixed")).
Proof.
  intros H. by_keyword primitive_cases p H; destruct b; (split; [reflexivity|]);
    intros suffix name [[= <- <-]|[[= <- <-]|[[= <- <-]|[]]]]; reflexivity.
Qed.

Lemma shorthand_primitive_witness :
  let info : PropertyInfo.t nat :=
    PropertyInfo.mk "Person" "tags" (Shorthand "string?<>") (Some false) in
  normalizePropertySchemaShorthand info "string?<>"
  = Ok (shorthandRecord info "set" (Some "string") true).
Proof.
  intros info.
  apply (proj2 (shorthand_primitive nat info "string" true eq_refl) "<>" "set").
  right. right. left. reflexivity.
Defined.

(** X6. The shorthand of a user-defined name, with or without the
    optional marker, yields an optional relationship to that name;
    followed by the dictionary suffix, an optional dictionary of it.
    Followed by the list or set suffix it yields a non-optional list or
    set, and is rejected when the optional marker is written. *)
Theorem shorthand_relationship
    (Value : Type) (info : PropertyInfo.t Value) (u : string) (b : bool) :
  isUserDefined (Some u) = true -> Element u ->
  normalizePropertySchemaShorthand info (u ++ marker b)
  = Ok (shorthandRecord info "object" (Some u) true)
  /\ normalizePropertySchemaShorthand info (u ++ marker b ++ "{}")
     = Ok (shorthandRecord info "dictionary" (Some u) true)
  /\ forall suffix name,
       In (suffix, name) [("[]", "list"); ("<>", "set")] ->
       normalizePropertySchemaShorthand info (u ++ suffix)
       = Ok (shorthandRecord info name (Some u) false)
       /\ normalizePropertySchemaShorthand info (u ++ "?" ++ suffix)
          = Throw (PropertySchemaParseError
                     "User-defined types in lists and sets are always non-optional and cannot be made optional. Remove '?' or change the type."
                     (PropertyInfo.objectName info) (PropertyInfo.propertyName info)).
Proof.
  intros HU HE.
  pose proof (isUserDefined_not_mixed _ HU) as NM.
  assert (NM' : String.eqb u "mixed" = false).
  { apply String.eqb_neq. intros ->. apply NM. reflexivity. }
  split; [|split].
  - rewrite <- (string_append_empty (u ++ marker b)), string_append_assoc.
    rewrite (shorthand_parse info u b "" "" HE (or_introl (conj eq_refl eq_refl))).
    rewrite (userDefined_classify info "" u HU). cbn [bind].
    change (if negb (isCollection (Some "")) then "object" else "") with "object".
    unfold shorthandImplicit, optionalIsImplicitlyTrue. rewrite NM'. reflexivity.
  - rewrite (shorthand_parse info u b "{}" "dictionary" HE);
      [|right; right; left; reflexivity].
    rewrite (userDefined_classify info "dictionary" u HU). cbn [bind].
    change (if negb (isCollection (Some "dictionary")) then "object" else "dictionary")
      with "dictionary".
    unfold shorthandImplicit, optionalIsImplicitlyTrue. rewrite HU, NM'. reflexivity.
  - intros suffix name HIn.
    assert (T : In (suffix, name) COLLECTION_SHORTHAND_TO_NAME
                /\ isCollection (Some name) = true
                /\ optionalIsImplicitlyTrue name (Some u) = false
                /\ optionalIsImplicitlyFalse name (Some u) = true).
    { unfold optionalIsImplicitlyTrue, optionalIsImplicitlyFalse. rewrite HU, NM'.
      destruct HIn as [[= <- <-]|[[= <- <-]|[]]]; repeat split; simpl; tauto. }
    destruct T as (HT & HC & IT & IF).
    split.
    + change (u ++ suffix) with (u ++ marker false ++ suffix).
      rewrite (shorthand_parse info u false suffix name HE (or_intror HT)).
      rewrite (userDefined_classify info name u HU), HC. cbn [bind negb].
      unfold shorthandImplicit. rewrite IT, IF. reflexivity.
    + change (u ++ "?" ++ suffix) with (u ++ marker true ++ suffix).
      rewrite (shorthand_parse info u true suffix name HE (or_intror HT)).
      rewrite (userDefined_classify info name u HU), HC. cbn [bind negb].
      unfold shorthandImplicit. rewrite IT, IF. reflexivity.
Qed.

Lemma shorthand_relationship_witness :
  let info : PropertyInfo.t nat :=
    PropertyInfo.mk "Person" "pets" (Shorthand "Dog?[]") (Some false) in
  normalizePropertySchemaShorthand info "Dog[]"
  = Ok (shorthandRecord info "list" (Some "Dog") false)
  /\ normalizePropertySchemaShorthand info "Dog?[]"
     = Throw (PropertySchemaParseError
                "User-defined types in lists and sets are always non-optional and cannot be made optional. Remove '?' or change the type."
                "Person" "pets").
Proof.
  intros info.
  assert (HE : Element "Dog").
  { split; [discriminate | split; reflexivity]. }
  apply (proj2 (proj2 (shorthand_relationship nat info "Dog" false eq_refl HE)) "[]" "list").
  left. reflexivity.
Defined.

(** ** The explicit form and the canonical records *)

Section Explicit.

Context {Value : Type}.

Variable info : PropertyInfo.t Value.

Lemma assertNotUsingShorthand_Ok (t : string) (u : unit) :
  assertNotUsingShorthand (Some t) info = Ok u ->
  hasCollectionSuffix t = false /\ JS.endsWith t "?" = false.
Proof.
  unfold assertNotUsingShorthand.
  destruct (JS.truthy t && hasCollectionSuffix t) eqn:E.
  - destruct (JS.endsWith (JS.substring t 0 (JS.length t - 2)) "?"); discriminate.
  - destruct (JS.endsWith t "?"); [discriminate|]. intros _. split; [|reflexivity].
    apply andb_false_iff in E as [E|E]; [|exact E].
    unfold JS.truthy in E. apply negb_false_iff, String.eqb_eq in E. subst t. reflexivity.
Qed.

(** The blocks of a successful explicit normalization. *)
Lemma normalizePropertySchemaObject_Ok (p : PropertySchema.t Value) c :
  normalizePropertySchemaObject info p = Ok c ->
  exists optional indexed,
    PropertySchema.type p <> ""
    /\ assertNotUsingShorthand (Some (PropertySchema.type p)) info = Ok tt
    /\ assertNotUsingShorthand (PropertySchema.objectType p) info = Ok tt
    /\ objectTypeRules info (PropertySchema.type p) (PropertySchema.objectType p)
         (PropertySchema.property p) = Ok tt
    /\ objectPropertyRule info (PropertySchema.type p) (PropertySchema.property p) = Ok tt
    /\ objectImplicit info (PropertySchema.type p) (PropertySchema.objectType p)
         (PropertySchema.optional p) = Ok optional
    /\ objectIndexed info (PropertySchema.indexed p) = Ok indexed
    /\ CanonicalPropertySchema.type c = PropertySchema.type p
    /\ CanonicalPropertySchema.objectType c = PropertySchema.objectType p
    /\ CanonicalPropertySchema.property c = PropertySchema.property p
    /\ CanonicalPropertySchema.default c = PropertySchema.default p
    /\ CanonicalPropertySchema.optional c = JS.truthyBool optional
    /\ CanonicalPropertySchema.indexed c = JS.truthyBool indexed.
Proof.
  unfold normalizePropertySchemaObject. intros H.
  apply bind_Ok in H as (u0 & H0 & H). apply assert_Ok, JS_length_positive in H0.
  apply bind_Ok in H as ([] & H1 & H). apply bind_Ok in H as ([] & H2 & H).
  apply bind_Ok in H as ([] & H3 & H). apply bind_Ok in H as ([] & H4 & H).
  apply bind_Ok in H as (optional & H5 & H). apply bind_Ok in H as (indexed & H6 & H).
  injection H as <-. exists optional, indexed. cbn. auto 15.
Qed.

Lemma objectTypeRules_Ok (type : string) (objectType property : option string) :
  objectTypeRules info type objectType property = Ok tt ->
  (isPrimitive (Some type) = true /\ objectType = None)
  \/ (isCollection (Some type) = true
      /\ (isPrimitive objectType = true \/ isUserDefined objectType = true))
  \/ (type = "object" /\ isUserDefined objectType = true)
  \/ (type = "linkingObjects" /\ isUserDefined objectType = true
      /\ JS.truthyOpt property = true).
Proof.
  unfold objectTypeRules.
  destruct (isPrimitive (Some type)) eqn:HP.
  { intros H. apply assert_Ok in H. left. split; [reflexivity|].
    destruct objectType; [discriminate H | reflexivity]. }
  destruct (isCollection (Some type)) eqn:HC.
  { intros H. apply assert_Ok, orb_true_iff in H. right. left. auto. }
  destruct (String.eqb_spec type "object") as [->|_].
  { intros H. apply assert_Ok in H. right. right. left. auto. }
  destruct (String.eqb_spec type "linkingObjects") as [->|_]; [|discriminate].
  intros H. apply bind_Ok in H as (u & H1 & H2).
  apply assert_Ok in H1. apply assert_Ok in H2. right. right. right. auto.
Qed.

Lemma objectPropertyRule_Ok (type : string) (property : option string) :
  objectPropertyRule info type property = Ok tt ->
  type = "linkingObjects" \/ property = None.
Proof.
  unfold objectPropertyRule. destruct (String.eqb_spec type "linkingObjects") as [->|_].
  - left. reflexivity.
  - simpl. intros H. apply assert_Ok in H. right.
    destruct property; [discriminate H | reflexivity].
Qed.

End Explicit.

(** X7. The explicit form rejects a definition whose type, or whose
    objectType, ends with a collection suffix or with the optional
    marker. *)
Theorem explicit_rejects_shorthand
    (Value : Type) (info : PropertyInfo.t Value) (p : PropertySchema.t Value) (t : string) :
  PropertySchema.type p = t \/ PropertySchema.objectType p = Some t ->
  EndsWithCollectionSuffix t \/ (exists r, t = r ++ "?") ->
  isThrow (normalizePropertySchemaObject info p).
Proof.
  intros Where Marked. apply not_Ok_isThrow. intros c H.
  apply normalizePropertySchemaObject_Ok in H
    as (optional & indexed & _ & H1 & H2 & _).
  assert (Clean : hasCollectionSuffix t = false /\ JS.endsWith t "?" = false).
  { destruct Where as [<- | E].
    - exact (assertNotUsingShorthand_Ok info _ _ H1).
    - rewrite E in H2. exact (assertNotUsingShorthand_Ok info _ _ H2). }
  destruct Clean as [HS HQ]. destruct Marked as [M | M].
  - apply hasCollectionSuffix_spec in M. congruence.
  - apply endsWith_question_spec in M. congruence.
Qed.

Lemma explicit_rejects_shorthand_witness :
  let p : PropertySchema.t nat :=
    PropertySchema.mk "list" (Some "int?") None None None None None in
  isThrow (normalizePropertySchemaObject (PropertyInfo.mk "Person" "scores" (Explicit p) None) p).
Proof.
  intros p.
  apply (explicit_rejects_shorthand nat _ p "int?").
  - right. reflexivity.
  - right. exists "int". reflexivity.
Defined.

(** X8. The explicit form rejects an optional flag that contradicts the
    implicit optionality of the type: an explicit false where the
    property is implicitly optional, an explicit true where it is
    implicitly non-optional. *)
Theorem explicit_rejects_contradiction
    (Value : Type) (info : PropertyInfo.t Value) (p : PropertySchema.t Value) :
  (optionalIsImplicitlyTrue (PropertySchema.type p) (PropertySchema.objectType p) = true
   /\ PropertySchema.optional p = Some false)
  \/ (optionalIsImplicitlyFalse (PropertySchema.type p) (PropertySchema.objectType p) = true
      /\ PropertySchema.optional p = Some true) ->
  isThrow (normalizePropertySchemaObject info p).
Proof.
  intros Bad. apply not_Ok_isThrow. intros c H.
  apply normalizePropertySchemaObject_Ok in H
    as (optional & indexed & _ & _ & _ & _ & _ & H5 & _).
  unfold objectImplicit in H5. destruct Bad as [[HT E] | [HF E]].
  - rewrite HT, E in H5. discriminate H5.
  - destruct (optionalIsImplicitlyTrue (PropertySchema.type p)
                (PropertySchema.objectType p)) eqn:HT.
    + destruct (implicit_exclusive _ _ HT HF).
    + rewrite HF, E in H5. discriminate H5.
Qed.

Lemma explicit_rejects_contradiction_witness :
  let p : PropertySchema.t nat :=
    PropertySchema.mk "object" (Some "Dog") None (Some false) None None None in
  isThrow (normalizePropertySchemaObject (PropertyInfo.mk "Person" "pet" (Explicit p) None) p).
Proof.
  intros p. apply (explicit_rejects_contradiction nat _ p).
  left. split; reflexivity.
Defined.

(** X9. Every canonical record, from the shorthand or the explicit form,
    is in one of four shapes: a primitive type without objectType; a
    collection whose objectType is primitive or user-defined; an object
    with a user-defined objectType; linkingObjects with a user-defined
    objectType.  It carries a linking property, which is not empty, exactly
    in the last shape. *)
Theorem canonical_shapes
    (Value : Type) (info : PropertyInfo.t Value) (c : CanonicalPropertySchema.t Value) :
  normalizePropertySchema info = Ok c ->
  let type := CanonicalPropertySchema.type c in
  let objectType := CanonicalPropertySchema.objectType c in
  let property := CanonicalPropertySchema.property c in
  (isPrimitive (Some type) = true /\ objectType = None /\ property = None)
  \/ (isCollection (Some type) = true
      /\ (isPrimitive objectType = true \/ isUserDefined objectType = true)
      /\ property = None)
  \/ (type = "object" /\ isUserDefined objectType = true /\ property = None)
  \/ (type = "linkingObjects" /\ isUserDefined objectType = true
      /\ exists name, property = Some name /\ name <> "").
Proof.
  unfold normalizePropertySchema.
  destruct (PropertyInfo.propertySchema info) as [s|p]; intros H; cbn zeta.
  - destruct (normalizePropertySchemaShorthand_Ok info s c H)
      as (type0 & rest0 & optional1 & rest1 & type & objectType & optional
          & H0 & H1 & H2 & H3 & H4 & ->).
    cbn [CanonicalPropertySchema.type CanonicalPropertySchema.objectType
         CanonicalPropertySchema.property].
    destruct (shorthandCollection_rest info _ _ _ H0 H1) as (NE0 & HS0).
    destruct (shorthandOptional_rest info _ _ _ NE0 HS0 H2) as (NE1 & _).
    destruct (shorthandClassify_cases info _ _ _ _ NE1 H3)
      as [[HP ->] | (-> & HO & [HC | [-> HU]])]; auto 10.
  - destruct (normalizePropertySchemaObject_Ok info p c H)
      as (optional & indexed & _ & _ & _ & H3 & H4 & _ & _ & -> & -> & -> & _).
    apply objectPropertyRule_Ok in H4.
    destruct (objectTypeRules_Ok info _ _ _ H3)
      as [[HP HO] | [[HC HO] | [[E HU] | (E & HU & HT)]]].
    + left. destruct H4 as [E|E]; [rewrite E in HP; discriminate HP | auto].
    + right. left. destruct H4 as [E|E]; [rewrite E in HC; discriminate HC | auto].
    + right. right. left. destruct H4 as [E'|E']; [rewrite E' in E; discriminate E | auto].
    + right. right. right. split; [exact E|]. split; [exact HU|].
      destruct (PropertySchema.property p) as [name|]; [|discriminate HT].
      exists name. split; [reflexivity|]. intros ->. discriminate HT.
Qed.

Lemma canonical_shapes_witness :
  let p : PropertySchema.t nat :=
    PropertySchema.mk "linkingObjects" (Some "Dog") (Some "owner") None None None None in
  let info := PropertyInfo.mk "Person" "dogs" (Explicit p) None in
  exists c, normalizePropertySchema info = Ok c
            /\ CanonicalPropertySchema.property c = Some "owner".
Proof.
  intros p info. eexists. split; [reflexivity|].
  destruct (canonical_shapes nat info _ eq_refl)
    as [(HP & _) | [(HC & _) | [(E & _) | (_ & _ & name & E & _)]]];
    [discriminate HP | discriminate HC | discriminate E | reflexivity].
Defined.

(** X10. The type of a canonical record ends with neither a collection
    suffix nor the optional marker, and its objectType never ends with a
    collection suffix; the objectType of a record of the explicit form
    does not end with the optional marker either. *)
Theorem canonical_without_suffix
    (Value : Type) (info : PropertyInfo.t Value) (c : CanonicalPropertySchema.t Value) :
  normalizePropertySchema info = Ok c ->
  (~ EndsWithCollectionSuffix (CanonicalPropertySchema.type c)
   /\ JS.endsWith (CanonicalPropertySchema.type c) "?" = false)
  /\ (forall o, CanonicalPropertySchema.objectType c = Some o ->
                ~ EndsWithCollectionSuffix o)
  /\ (forall p o, PropertyInfo.propertySchema info = Explicit p ->
                  CanonicalPropertySchema.objectType c = Some o ->
                  JS.endsWith o "?" = false).
Proof.
  intros H.
  assert (Keyword : forall t,
             isPrimitive (Some t) = true \/ isCollection (Some t) = true
             \/ t = "object" \/ t = "linkingObjects" ->
             hasCollectionSuffix t = false /\ JS.endsWith t "?" = false).
  { intros t [HP | [HC | [-> | ->]]].
    - by_keyword primitive_cases t HP; split; reflexivity.
    - by_keyword collection_cases t HC; split; reflexivity.
    - split; reflexivity.
    - split; reflexivity. }
  assert (No : forall t, hasCollectionSuffix t = false -> ~ EndsWithCollectionSuffix t).
  { intros t E M. apply hasCollectionSuffix_spec in M. congruence. }
  split; [|split].
  - destruct (Keyword (CanonicalPropertySchema.type c)) as [HS HQ].
    + unfold normalizePropertySchema in H.
      destruct (PropertyInfo.propertySchema info) as [s|p].
      * destruct (normalizePropertySchemaShorthand_Ok info s c H)
          as (type0 & rest0 & optional1 & rest1 & type & objectType & optional
              & H0 & H1 & H2 & H3 & H4 & ->).
        cbn [CanonicalPropertySchema.type].
        destruct (shorthandCollection_rest info _ _ _ H0 H1) as (NE0 & HS0).
        destruct (shorthandOptional_rest info _ _ _ NE0 HS0 H2) as (NE1 & _).
        destruct (shorthandClassify_cases info _ _ _ _ NE1 H3)
          as [[HP _] | (_ & _ & [HC | [-> _]])]; auto.
      * destruct (normalizePropertySchemaObject_Ok info p c H)
          as (optional & indexed & _ & _ & _ & H3 & _ & _ & _ & -> & _).
        destruct (objectTypeRules_Ok info _ _ _ H3)
          as [[HP _] | [[HC _] | [[E _] | (E & _)]]]; auto.
    + split; [apply No; exact HS | exact HQ].
  - intros o E. apply No. unfold normalizePropertySchema in H.
    destruct (PropertyInfo.propertySchema info) as [s|p].
    + destruct (normalizePropertySchemaShorthand_Ok info s c H)
        as (type0 & rest0 & optional1 & rest1 & type & objectType & optional
            & H0 & H1 & H2 & H3 & H4 & ->).
      cbn [CanonicalPropertySchema.objectType] in E. subst objectType.
      destruct (shorthandCollection_rest info _ _ _ H0 H1) as (NE0 & HS0).
      destruct (shorthandOptional_rest info _ _ _ NE0 HS0 H2) as (NE1 & HS1 & _).
      destruct (shorthandClassify_cases info _ _ _ _ NE1 H3)
        as [[_ E] | (E & _)]; [discriminate E|]. injection E as <-. exact HS1.
    + destruct (normalizePropertySchemaObject_Ok info p c H)
        as (optional & indexed & _ & _ & H2 & _ & _ & _ & _ & _ & EO & _).
      rewrite EO in E. rewrite E in H2.
      exact (proj1 (assertNotUsingShorthand_Ok info _ _ H2)).
  - intros p o EP E. unfold normalizePropertySchema in H. rewrite EP in H.
    destruct (normalizePropertySchemaObject_Ok info p c H)
      as (optional & indexed & _ & _ & H2 & _ & _ & _ & _ & _ & EO & _).
    rewrite EO in E. rewrite E in H2.
    exact (proj2 (assertNotUsingShorthand_Ok info _ _ H2)).
Qed.

Lemma canonical_without_suffix_witness :
  let info : PropertyInfo.t nat :=
    PropertyInfo.mk "Person" "pets" (Shorthand "Dog?{}") None in
  exists c, normalizePropertySchema info = Ok c
            /\ CanonicalPropertySchema.objectType c = Some "Dog"
            /\ ~ EndsWithCollectionSuffix "Dog".
Proof.
  intros info. eexists. split; [reflexivity|]. split; [reflexivity|].
  exact (proj1 (proj2 (canonical_without_suffix nat info _ eq_refl)) "Dog" eq_refl).
Defined.

(** ** The errors of a normalization *)

Section Raises.

Context {Value : Type}.

Variable info : PropertyInfo.t Value.

Lemma RaisesFor_Ok {A : Type} (a : A) : RaisesFor info (Ok a).
Proof. intros e H. discriminate H. Qed.

Lemma RaisesFor_Throw {A : Type} (message : string) :
  RaisesFor info (Throw (propError info message) : result A).
Proof. intros e [= <-]. exists message. reflexivity. Qed.

Lemma RaisesFor_assert (condition : bool) (message : string) :
  RaisesFor info (assert condition (propError info message)).
Proof.
  destruct condition; [apply RaisesFor_Ok | apply RaisesFor_Throw].
Qed.

Lemma RaisesFor_bind {A B : Type} (r : result A) (k : A -> result B) :
  RaisesFor info r -> (forall a, RaisesFor info (k a)) -> RaisesFor info (bind r k).
Proof.
  intros Hr Hk. destruct r as [a|e]; simpl; [apply Hk|].
  intros e' [= <-]. apply Hr. reflexivity.
Qed.

End Raises.

(** Proves that a chain of blocks raises property errors only. *)
Ltac raises :=
  repeat first
    [ apply RaisesFor_Ok
    | apply RaisesFor_Throw
    | apply RaisesFor_assert
    | apply RaisesFor_bind; [|intros ?]
    | match goal with
      | |- RaisesFor _ (if ?c then _ else _) => destruct c
      | |- RaisesFor _ (match ?p with (_, _) => _ end) => destruct p
      end ].

Section PropertyErrors.

Context {Value : Type}.

Lemma normalizePropertySchema_RaisesFor (info : PropertyInfo.t Value) :
  RaisesFor info (normalizePropertySchema info).
Proof.
  unfold normalizePropertySchema.
  destruct (PropertyInfo.propertySchema info) as [s|p].
  - unfold normalizePropertySchemaShorthand, shorthandCollection, shorthandOptional,
      shorthandClassify, shorthandImplicit. raises.
  - unfold normalizePropertySchemaObject, assertNotUsingShorthand, objectTypeRules,
      objectPropertyRule, objectImplicit, objectIndexed. raises.
Qed.

(** When the property loop raises, it raises the error of one of the
    entries. *)
Lemma normalizePropertySchemasFrom_Throw objectName primaryKey err :
  forall (entries : list (string * PropertyDefinition Value)) acc,
    normalizePropertySchemasFrom objectName primaryKey entries acc = Throw err ->
    exists k d, In (k, d) entries
                /\ normalizePropertySchema (entryInfo objectName primaryKey k d) = Throw err.
Proof.
  induction entries as [|[k d] rest IH]; simpl; intros acc H.
  - discriminate H.
  - change (normalizePropertySchema
              {| PropertyInfo.objectName := objectName;
                 PropertyInfo.propertyName := k;
                 PropertyInfo.propertySchema := d;
                 PropertyInfo.isPrimaryKey := Some (isThePrimaryKey primaryKey k) |})
      with (normalizePropertySchema (entryInfo objectName primaryKey k d)) in H.
    destruct (normalizePropertySchema (entryInfo objectName primaryKey k d)) as [c|e] eqn:E.
    + simpl in H. destruct (IH _ H) as (k' & d' & HIn & T). exists k', d'. auto.
    + simpl in H. injection H as ->. exists k, d. auto.
Qed.

End PropertyErrors.

(** X11. When the normalization of an object definition in mapping form
    raises, the error is an object schema error for the object's name, or
    the property error that one of the entries of the mapping raises,
    which names the object and that property. *)
Theorem object_errors
    (Value : Type) (flags : Flags) (name : string) (primaryKey : option string)
    (asymmetric embedded : option bool)
    (properties : list (string * PropertyDefinition Value)) (err : error) :
  normalizeObjectSchema flags
    (Plain (ObjectSchema.mk name primaryKey asymmetric embedded
              (PropertiesObject properties))) = Throw err ->
  (exists message, err = ObjectSchemaParseError message name)
  \/ (exists message k d,
         In (k, d) properties
         /\ normalizePropertySchema (entryInfo name primaryKey k d) = Throw err
         /\ err = PropertySchemaParseError message name k).
Proof.
  cbn [normalizeObjectSchema]. unfold normalizeObjectSchemaPlain.
  cbn [ObjectSchema.properties ObjectSchema.name ObjectSchema.primaryKey
       ObjectSchema.asymmetric ObjectSchema.embedded].
  unfold normalizeObjectSchemaMapping.
  destruct (0 <? JS.length name) eqn:N; cbn [assert bind].
  2:{ intros [= <-]. left. eexists. unfold objectError. f_equal.
      destruct (JS_length_zero name) as [Z _]. symmetry. apply Z.
      apply Z.ltb_ge in N. pose proof (JS_length_nonneg name). lia. }
  destruct (negb _); cbn [assert bind]; [|intros [= <-]; left; eexists; reflexivity].
  destruct (negb _ || negb _); cbn [assert bind];
    [|intros [= <-]; left; eexists; reflexivity].
  destruct (normalizePropertySchemas name properties primaryKey) as [out|e] eqn:L;
    cbn [bind]; [discriminate|].
  intros [= <-]. right.
  destruct (normalizePropertySchemasFrom_Throw _ _ _ _ _ L) as (k & d & HIn & T).
  destruct (normalizePropertySchema_RaisesFor _ _ T) as (message & E).
  exists message, k, d. auto.
Qed.

Lemma object_errors_witness :
  let flags := {| ALLOW_VALUES_ARRAYS := false |} in
  let properties : list (string * PropertyDefinition nat) :=
    [("age", Shorthand "int"); ("pets", Shorthand "Dog[][]")] in
  exists message,
    normalizeObjectSchema flags
      (Plain (ObjectSchema.mk "Person" None None None (PropertiesObject properties)))
    = Throw (PropertySchemaParseError message "Person" "pets").
Proof.
  intros flags properties.
  destruct (object_errors nat flags "Person" None None None properties
              (PropertySchemaParseError "Nested collections are not supported."
                 "Person" "pets") eq_refl)
    as [(message & E) | (message & k & d & _ & _ & E)].
  - discriminate E.
  - exists "Nested collections are not supported.". reflexivity.
Defined.

(** X12. The property loop stops at the first entry that raises: when
    the entries before it are accepted, its error is the error of the
    loop, whatever entries follow. *)
Theorem first_property_error
    (Value : Type) (objectName : string) (primaryKey : option string)
    (before after : list (string * PropertyDefinition Value))
    (k : string) (d : PropertyDefinition Value) (err : error) :
  Forall (fun kd => exists c,
              normalizePropertySchema
                (entryInfo objectName primaryKey (fst kd) (snd kd)) = Ok c) before ->
  normalizePropertySchema (entryInfo objectName primaryKey k d) = Throw err ->
  normalizePropertySchemas objectName (before ++ (k, d) :: after) primaryKey = Throw err.
Proof.
  intros HB HT. unfold normalizePropertySchemas. generalize (@nil (string * CanonicalPropertySchema.t Value)).
  induction HB as [|[k' d'] rest (c & Hc) _ IH]; intros acc; simpl.
  - change (normalizePropertySchema
              {| PropertyInfo.objectName := objectName;
                 PropertyInfo.propertyName := k;
                 PropertyInfo.propertySchema := d;
                 PropertyInfo.isPrimaryKey := Some (isThePrimaryKey primaryKey k) |})
      with (normalizePropertySchema (entryInfo objectName primaryKey k d)).
    rewrite HT. reflexivity.
  - change (normalizePropertySchema
              {| PropertyInfo.objectName := objectName;
                 PropertyInfo.propertyName := k';
                 PropertyInfo.propertySchema := d';
                 PropertyInfo.isPrimaryKey := Some (isThePrimaryKey primaryKey k') |})
      with (normalizePropertySchema (entryInfo objectName primaryKey k' d')).
    cbn [fst snd] in Hc. rewrite Hc. cbn [bind]. apply IH.
Qed.

Lemma first_property_error_witness :
  normalizePropertySchemas "Person"
    ([("age", Shorthand "int" : PropertyDefinition nat)]
     ++ ("pets", Shorthand "Dog[][]") :: [("x", Shorthand "")])%list None
  = Throw (PropertySchemaParseError "Nested collections are not supported." "Person" "pets").
Proof.
  apply (first_property_error nat "Person" None).
  - constructor; [|constructor]. eexists. reflexivity.
  - reflexivity.
Defined.

(** ** The canonical object *)

Section Keys.

Context {Value : Type}.

Lemma normalizePropertySchema_name (info : PropertyInfo.t Value) c :
  normalizePropertySchema info = Ok c ->
  CanonicalPropertySchema.name c = PropertyInfo.propertyName info
  /\ (CanonicalPropertySchema.mapTo c = "" -> PropertyInfo.propertyName info = "").
Proof.
  unfold normalizePropertySchema.
  destruct (PropertyInfo.propertySchema info) as [s|p]; intros H.
  - destruct (normalizePropertySchemaShorthand_Ok info s c H)
      as (? & ? & ? & ? & ? & ? & ? & _ & _ & _ & _ & _ & ->).
    split; [reflexivity | exact (fun E => E)].
  - unfold normalizePropertySchemaObject in H. do 7 bind_inv H. injection H as <-.
    split; [reflexivity|]. cbn [CanonicalPropertySchema.mapTo].
    destruct (PropertySchema.mapTo p) as [m|]; cbn [JS.truthyOpt]; [|exact (fun E => E)].
    unfold JS.truthy. destruct (String.eqb_spec m "") as [->|NE]; cbn [negb].
    + exact (fun E => E).
    + intros E. destruct (NE E).
Qed.

Lemma normalizePropertySchemasFrom_keys objectName primaryKey (key : string) :
  forall (entries : list (string * PropertyDefinition Value)) acc out,
    normalizePropertySchemasFrom objectName primaryKey entries acc = Ok out ->
    (In key (map fst out)
     <-> In key (map fst acc) \/ (In key (map fst entries) /\ key <> "__proto__")).
Proof.
  induction entries as [|[k d] rest IH]; simpl; intros acc out H.
  - injection H as <-. tauto.
  - bind_inv H. rewrite (IH _ _ H), In_keys_assign. split.
    + intros [[HIn | [-> NP]] | [HIn NP]]; auto.
    + intros [HIn | [[<- | HIn] NP]]; auto.
Qed.

Lemma normalizeEach_keys objectName primaryKey :
  forall (entries : list (string * PropertyDefinition Value)) out,
    normalizeEach objectName primaryKey entries = Ok out ->
    map fst out = map fst entries.
Proof.
  induction entries as [|[k d] rest IH]; simpl; intros out H.
  - injection H as <-. reflexivity.
  - do 2 bind_inv H. injection H as <-. simpl. rewrite (IH _ H1). reflexivity.
Qed.

End Keys.

(** X13. In every canonical object schema, the record stored under a
    property name carries that name, and its storage name is not empty
    unless the property name is. *)
Theorem canonical_names
    (Value : Type) (flags : Flags) (arg : ObjectSchemaInput Value)
    (C : CanonicalObjectSchema.t Value) (k : string) (c : CanonicalPropertySchema.t Value) :
  normalizeObjectSchema flags arg = Ok C ->
  get (CanonicalObjectSchema.properties C) k = Some c ->
  CanonicalPropertySchema.name c = k
  /\ (k <> "" -> CanonicalPropertySchema.mapTo c <> "").
Proof.
  intros H G. apply get_In in G.
  destruct (normalizeObjectSchema_Ok flags arg C H) as (properties & L).
  assert (F : Forall (fun kc : string * CanonicalPropertySchema.t Value =>
                        CanonicalPropertySchema.name (snd kc) = fst kc
                        /\ (CanonicalPropertySchema.mapTo (snd kc) = "" -> fst kc = ""))
                     (CanonicalObjectSchema.properties C)).
  { apply (normalizePropertySchemasFrom_Forall
             (fun k c => CanonicalPropertySchema.name c = k
                         /\ (CanonicalPropertySchema.mapTo c = "" -> k = ""))
             (CanonicalObjectSchema.name C) (CanonicalObjectSchema.primaryKey C))
      with (entries := properties) (acc := []); [|constructor|exact L].
    intros k' d c' N. exact (normalizePropertySchema_name _ _ N). }
  rewrite Forall_forall in F. destruct (F _ G) as [EN EM]. cbn [fst snd] in EN, EM.
  split; [exact EN|]. intros NE E. exact (NE (EM E)).
Qed.

Lemma canonical_names_witness :
  let flags := {| ALLOW_VALUES_ARRAYS := false |} in
  let person : ObjectSchema.t nat :=
    ObjectSchema.mk "Person" None None None
      (PropertiesObject
         [("age", Explicit (PropertySchema.mk "int" None None None None (Some "") None))]) in
  exists C c, normalizeObjectSchema flags (Plain person) = Ok C
              /\ get (CanonicalObjectSchema.properties C) "age" = Some c
              /\ CanonicalPropertySchema.name c = "age"
              /\ CanonicalPropertySchema.mapTo c <> "".
Proof.
  intros flags person. do 2 eexists.
  split; [vm_compute; reflexivity|]. split; [vm_compute; reflexivity|].
  destruct (canonical_names nat flags (Plain person) _ "age" _ eq_refl eq_refl) as [EN EM].
  split; [exact EN | apply EM; discriminate].
Defined.

(** X14. The canonical properties of a definition in mapping form have
    the property names of the mapping other than "__proto__", each once;
    when the names of the mapping are distinct and none is "__proto__",
    they come in the same order. *)
Theorem canonical_keys
    (Value : Type) (flags : Flags) (name : string) (primaryKey : option string)
    (asymmetric embedded : option bool)
    (properties : list (string * PropertyDefinition Value))
    (C : CanonicalObjectSchema.t Value) :
  normalizeObjectSchema flags
    (Plain (ObjectSchema.mk name primaryKey asymmetric embedded
              (PropertiesObject properties))) = Ok C ->
  (forall k, In k (map fst (CanonicalObjectSchema.properties C))
             <-> In k (map fst properties) /\ k <> "__proto__")
  /\ NoDup (map fst (CanonicalObjectSchema.properties C))
  /\ (NoDup (map fst properties) -> ~ In "__proto__" (map fst properties) ->
      map fst (CanonicalObjectSchema.properties C) = map fst properties).
Proof.
  cbn [normalizeObjectSchema]. unfold normalizeObjectSchemaPlain.
  cbn [ObjectSchema.properties ObjectSchema.name ObjectSchema.primaryKey
       ObjectSchema.asymmetric ObjectSchema.embedded].
  intros H. apply normalizeObjectSchemaMapping_Ok in H as (L & _ & _).
  split; [|split].
  - intros k. rewrite (normalizePropertySchemasFrom_keys _ _ k _ _ _ L). simpl. tauto.
  - apply (normalizePropertySchemasFrom_NoDup name primaryKey properties [] _);
      [constructor | exact L].
  - intros ND NP. rewrite (normalizePropertySchemas_each _ _ _ ND NP) in L.
    exact (normalizeEach_keys _ _ _ _ L).
Qed.

Lemma canonical_keys_witness :
  let flags := {| ALLOW_VALUES_ARRAYS := false |} in
  let properties : list (string * PropertyDefinition nat) :=
    [("name", Shorthand "string"); ("age", Shorthand "int?")] in
  exists C,
    normalizeObjectSchema flags
      (Plain (ObjectSchema.mk "Person" None None None (PropertiesObject properties))) = Ok C
    /\ map fst (CanonicalObjectSchema.properties C) = ["name"; "age"].
Proof.
  intros flags properties. eexists. split; [vm_compute; reflexivity|].
  apply (proj2 (proj2 (canonical_keys nat flags "Person" None None None properties _ eq_refl))).
  - repeat constructor; simpl; intuition discriminate.
  - simpl. intuition discriminate.
Defined.

(** X15. [normalizeRealmSchema] succeeds exactly when every object
    definition is accepted, and then returns their canonical schemas in
    the order of the input. *)
Theorem realm_schema_pointwise
    (Value : Type) (flags : Flags) (realmSchema : list (ObjectSchemaInput Value))
    (canonical : list (CanonicalObjectSchema.t Value)) :
  normalizeRealmSchema flags realmSchema = Ok canonical
  <-> Forall2 (fun arg C => normalizeObjectSchema flags arg = Ok C) realmSchema canonical.
Proof.
  revert canonical. induction realmSchema as [|arg rest IH]; intros canonical; simpl.
  - split.
    + intros [= <-]. constructor.
    + intros F. inversion F. reflexivity.
  - split.
    + intros H. do 2 bind_inv H. injection H as <-.
      constructor; [assumption | apply IH; assumption].
    + intros F. inversion F as [|? C ? Cs HC HCs]; subst.
      rewrite HC. cbn [bind]. apply IH in HCs. rewrite HCs. reflexivity.
Qed.

Lemma realm_schema_pointwise_witness :
  let flags := {| ALLOW_VALUES_ARRAYS := false |} in
  let person : ObjectSchemaInput nat :=
    Plain (ObjectSchema.mk "Person" None None None (PropertiesObject [("age", Shorthand "int")])) in
  let dog : ObjectSchemaInput nat :=
    Plain (ObjectSchema.mk "Dog" None None None (PropertiesObject [("owner", Shorthand "Person")])) in
  exists P D, normalizeRealmSchema flags [person; dog] = Ok [P; D]
              /\ CanonicalObjectSchema.name P = "Person"
              /\ CanonicalObjectSchema.name D = "Dog".
Proof.
  intros flags person dog. do 2 eexists. split.
  - apply (proj2 (realm_schema_pointwise nat flags [person; dog] _)).
    constructor; [vm_compute; reflexivity|]. constructor; [vm_compute; reflexivity|].
    constructor.
  - split; reflexivity.
Defined.

(** X16. [normalizeRealmSchema] raises the error of the first object
    definition that is rejected, whatever definitions follow. *)
Theorem realm_schema_first_error
    (Value : Type) (flags : Flags) (before after : list (ObjectSchemaInput Value))
    (arg : ObjectSchemaInput Value) (err : error) :
  Forall (fun a => exists C, normalizeObjectSchema flags a = Ok C) before ->
  normalizeObjectSchema flags arg = Throw err ->
  normalizeRealmSchema flags (before ++ arg :: after) = Throw err.
Proof.
  intros HB HT. induction HB as [|a rest (C & HC) _ IH]; simpl.
  - rewrite HT. reflexivity.
  - rewrite HC. cbn [bind]. rewrite IH. reflexivity.
Qed.

Lemma realm_schema_first_error_witness :
  let flags := {| ALLOW_VALUES_ARRAYS := false |} in
  let person : ObjectSchemaInput nat :=
    Plain (ObjectSchema.mk "Person" None None None (PropertiesObject [("age", Shorthand "int")])) in
  let unnamed : ObjectSchemaInput nat :=
    Plain (ObjectSchema.mk "" None None None (PropertiesObject [])) in
  normalizeRealmSchema flags ([person] ++ unnamed :: [person])%list
  = Throw (ObjectSchemaParseError "'name' must be specified." "").
Proof.
  intros flags person unnamed.
  apply (realm_schema_first_error nat flags [person] [person] unnamed).
  - constructor; [|constructor]. eexists. vm_compute. reflexivity.
  - reflexivity.
Defined.

(** ** The array form, and definitions normalized twice *)

Lemma define_fresh {A : Type} (record : list (string * A)) (key : string) (value : A) :
  arrayIndex key = None -> ~ In key (map fst record) ->
  define record key value = (record ++ [(key, value)])%list.
Proof.
  intros NI Fresh. unfold define. rewrite NI. apply store_fresh. exact Fresh.
Qed.

Lemma fromEntries_from {A : Type} (entries acc : list (string * A)) :
  NoDup (map fst entries) ->
  Forall (fun k => arrayIndex k = None) (map fst entries) ->
  (forall k, In k (map fst entries) -> ~ In k (map fst acc)) ->
  fold_left (fun record kv => define record (fst kv) (snd kv)) entries acc
  = (acc ++ entries)%list.
Proof.
  revert acc. induction entries as [|[k v] rest IH]; intros acc ND NI Fresh; simpl.
  - rewrite app_nil_r. reflexivity.
  - inversion ND as [|? ? NIn ND']; subst. inversion NI as [|? ? NIk NI']; subst.
    cbn [fst] in NIk.
    rewrite define_fresh; [|exact NIk | apply Fresh; left; reflexivity].
    rewrite IH.
    + rewrite <- app_assoc. reflexivity.
    + exact ND'.
    + exact NI'.
    + intros k' HIn. rewrite map_app, in_app_iff. simpl. intros [HIn'|[<-|[]]].
      * exact (Fresh k' (or_intror HIn) HIn').
      * exact (NIn HIn).
Qed.

(** Entries with distinct names, none of them an array index, are the
    record [Object.fromEntries] builds, in their order. *)
Lemma fromEntries_distinct {A : Type} (entries : list (string * A)) :
  NoDup (map fst entries) ->
  Forall (fun k => arrayIndex k = None) (map fst entries) ->
  fromEntries entries = entries.
Proof.
  intros ND NI. unfold fromEntries.
  rewrite fromEntries_from; [reflexivity | exact ND | exact NI|].
  intros k _ [].
Qed.

(** X17. An array of properties is rejected with a plain error when the
    flag does not allow it, before any check of the object.  When the
    flag allows it and the items have distinct names, none of which is
    an array index, the array is normalized as the mapping from each
    name to the rest of its item, an explicit definition, in the order
    of the items. *)
Theorem array_of_properties
    (Value : Type) (flags : Flags) (name : string) (primaryKey : option string)
    (asymmetric embedded : option bool) (items : list (string * PropertySchema.t Value)) :
  let array := ObjectSchema.mk name primaryKey asymmetric embedded (PropertiesArray items) in
  let mapping :=
    ObjectSchema.mk name primaryKey asymmetric embedded
      (PropertiesObject (map (fun item => (fst item, Explicit (snd item))) items)) in
  (ALLOW_VALUES_ARRAYS flags = false ->
   normalizeObjectSchema flags (Plain array)
   = Throw (Error "Array of properties are no longer supported. Use an object instead."))
  /\ (ALLOW_VALUES_ARRAYS flags = true ->
      NoDup (map fst items) ->
      Forall (fun k => arrayIndex k = None) (map fst items) ->
      normalizeObjectSchema flags (Plain array) = normalizeObjectSchema flags (Plain mapping)).
Proof.
  intros array mapping. subst array mapping. cbn [normalizeObjectSchema].
  unfold normalizeObjectSchemaPlain.
  cbn [ObjectSchema.properties ObjectSchema.name ObjectSchema.primaryKey
       ObjectSchema.asymmetric ObjectSchema.embedded].
  split.
  - intros ->. reflexivity.
  - intros -> ND NI. rewrite fromEntries_distinct; [reflexivity | |];
      rewrite (keys_map_snd (fun p : PropertySchema.t Value => Explicit p)); assumption.
Qed.

Lemma array_of_properties_witness :
  let items : list (string * PropertySchema.t nat) :=
    [("age", PropertySchema.mk "int" None None None None None None)] in
  normalizeObjectSchema {| ALLOW_VALUES_ARRAYS := false |}
    (Plain (ObjectSchema.mk "" None None None (PropertiesArray items)))
  = Throw (Error "Array of properties are no longer supported. Use an object instead.")
  /\ normalizeObjectSchema {| ALLOW_VALUES_ARRAYS := true |}
       (Plain (ObjectSchema.mk "Person" None None None (PropertiesArray items)))
     = normalizeObjectSchema {| ALLOW_VALUES_ARRAYS := true |}
         (Plain (ObjectSchema.mk "Person" None None None
                   (PropertiesObject [("age", Explicit (PropertySchema.mk "int" None None None None None None))]))).
Proof.
  intros items. split.
  - apply (proj1 (array_of_properties nat {| ALLOW_VALUES_ARRAYS := false |}
                    "" None None None items)). reflexivity.
  - apply (proj2 (array_of_properties nat {| ALLOW_VALUES_ARRAYS := true |}
                    "Person" None None None items)); [reflexivity| |].
    + constructor; [intros [] | constructor].
    + constructor; [reflexivity | constructor].
Defined.

Section Twice.

Context {Value : Type}.

(** A property of the records of the entries holds of the record the
    loop returns. *)
Lemma normalizePropertySchemasFrom_Forall_In
    (P : CanonicalPropertySchema.t Value -> Prop)
    (objectName : string) (primaryKey : option string) :
  forall (entries : list (string * PropertyDefinition Value)) acc out,
    (forall k d c, In (k, d) entries ->
                   normalizePropertySchema (entryInfo objectName primaryKey k d) = Ok c ->
                   P c) ->
    Forall (fun kc => P (snd kc)) acc ->
    normalizePropertySchemasFrom objectName primaryKey entries acc = Ok out ->
    Forall (fun kc => P (snd kc)) out.
Proof.
  induction entries as [|[k d] rest IH]; simpl; intros acc out HP Hacc H.
  - injection H as <-. exact Hacc.
  - bind_inv H. apply (IH (assign acc k a) out).
    + intros k' d' c' HIn. apply (HP k' d' c'). right. exact HIn.
    + apply Forall_assign; [exact Hacc|]. apply (HP k d a); [left; reflexivity | exact H0].
    + exact H.
Qed.

Lemma explicit_unmarked (info : PropertyInfo.t Value) (p : PropertySchema.t Value) c :
  normalizePropertySchemaObject info p = Ok c -> Unmarked c.
Proof.
  intros H o E.
  destruct (normalizePropertySchemaObject_Ok info p c H)
    as (optional & indexed & _ & _ & H2 & _ & _ & _ & _ & _ & EO & _).
  rewrite EO in E. rewrite E in H2.
  exact (proj2 (assertNotUsingShorthand_Ok info _ _ H2)).
Qed.

(** The explicit definition spelled out from a shorthand record is
    normalized as the record read back whole. *)
Lemma explicitOf_toRawProperty (info : PropertyInfo.t Value)
    (type : string) (objectType : option string) (optional : bool) :
  normalizePropertySchemaObject info (explicitOf (shorthandRecord info type objectType optional))
  = normalizePropertySchemaObject info
      (toRawProperty (shorthandRecord info type objectType optional)).
Proof.
  unfold normalizePropertySchemaObject.
  cbn [explicitOf toRawProperty shorthandRecord
       PropertySchema.type PropertySchema.objectType PropertySchema.property
       PropertySchema.optional PropertySchema.indexed PropertySchema.mapTo
       PropertySchema.default CanonicalPropertySchema.type CanonicalPropertySchema.objectType
       CanonicalPropertySchema.property CanonicalPropertySchema.optional
       CanonicalPropertySchema.indexed CanonicalPropertySchema.mapTo
       CanonicalPropertySchema.default CanonicalPropertySchema.name].
  repeat match goal with
         | |- bind ?r _ = bind ?r _ => destruct r; cbn [bind]; [|reflexivity]
         end.
  unfold objectIndexed.
  destruct (JS.truthyBool (PropertyInfo.isPrimaryKey info)); cbn [assert bind JS.truthyBool].
  - cbn [JS.truthyOpt]. destruct (JS.truthy (PropertyInfo.propertyName info)); reflexivity.
  - cbn [JS.truthyOpt]. destruct (JS.truthy (PropertyInfo.propertyName info)); reflexivity.
Qed.

End Twice.

(** X18. A definition in mapping form that names no property
    "__proto__" and all of whose properties are in explicit form, once
    normalized, is normalized to itself when its canonical schema is read
    back as a raw definition. *)
Theorem explicit_schema_idempotent
    (Value : Type) (flags : Flags) (name : string) (primaryKey : option string)
    (asymmetric embedded : option bool)
    (properties : list (string * PropertyDefinition Value))
    (C : CanonicalObjectSchema.t Value) :
  ~ In "__proto__" (map fst properties) ->
  (forall k d, In (k, d) properties -> exists p, d = Explicit p) ->
  normalizeObjectSchema flags
    (Plain (ObjectSchema.mk name primaryKey asymmetric embedded
              (PropertiesObject properties))) = Ok C ->
  normalizeObjectSchema flags (Plain (toRaw C)) = Ok C.
Proof.
  intros NP AllExplicit H. apply (idempotent_when_unmarked flags _ C H); [exact NP|].
  cbn [normalizeObjectSchema] in H. unfold normalizeObjectSchemaPlain in H.
  cbn [ObjectSchema.properties ObjectSchema.name ObjectSchema.primaryKey
       ObjectSchema.asymmetric ObjectSchema.embedded] in H.
  apply normalizeObjectSchemaMapping_Ok in H as (L & _ & _).
  apply (normalizePropertySchemasFrom_Forall_In Unmarked name primaryKey properties [] _);
    [|constructor|exact L].
  intros k d c HIn N. destruct (AllExplicit k d HIn) as (p & ->).
  exact (explicit_unmarked _ p c N).
Qed.

Lemma explicit_schema_idempotent_witness :
  let flags := {| ALLOW_VALUES_ARRAYS := false |} in
  let properties : list (string * PropertyDefinition nat) :=
    [("pets", Explicit (PropertySchema.mk "list" (Some "Dog") None None None (Some "animals") None))] in
  exists C,
    normalizeObjectSchema flags
      (Plain (ObjectSchema.mk "Person" None None None (PropertiesObject properties))) = Ok C
    /\ normalizeObjectSchema flags (Plain (toRaw C)) = Ok C.
Proof.
  intros flags properties. eexists. split; [vm_compute; reflexivity|].
  apply (explicit_schema_idempotent nat flags "Person" None None None properties).
  - intros [E|[]]. discriminate E.
  - intros k d [[= <- <-]|[]]. eexists. reflexivity.
  - vm_compute. reflexivity.
Defined.

(** X19. A plain definition, in mapping or array form and with
    properties in either notation, that names no property "__proto__",
    once normalized to a canonical schema in which no objectType ends
    with the optional marker, is normalized to itself when that schema is
    read back as a raw definition. *)
Theorem idempotent_unless_marked
    (Value : Type) (flags : Flags) (raw : ObjectSchema.t Value)
    (C : CanonicalObjectSchema.t Value) :
  ~ In "__proto__" (propertyNames (ObjectSchema.properties raw)) ->
  normalizeObjectSchema flags (Plain raw) = Ok C ->
  (forall k c o, In (k, c) (CanonicalObjectSchema.properties C) ->
                 CanonicalPropertySchema.objectType c = Some o ->
                 JS.endsWith o "?" = false) ->
  normalizeObjectSchema flags (Plain (toRaw C)) = Ok C.
Proof.
  intros NP H UM. apply (idempotent_when_unmarked flags raw C H NP).
  apply Forall_forall. intros [k c] HIn o E. exact (UM k c o HIn E).
Qed.

Lemma idempotent_unless_marked_witness :
  let flags := {| ALLOW_VALUES_ARRAYS := false |} in
  let raw : ObjectSchema.t nat :=
    ObjectSchema.mk "Person" (Some "id") None None
      (PropertiesObject [("id", Shorthand "int"); ("pets", Shorthand "Dog?{}")]) in
  exists C, normalizeObjectSchema flags (Plain raw) = Ok C
            /\ normalizeObjectSchema flags (Plain (toRaw C)) = Ok C.
Proof.
  intros flags raw. eexists. split; [vm_compute; reflexivity|].
  apply (idempotent_unless_marked nat flags raw).
  - simpl. intuition discriminate.
  - vm_compute. reflexivity.
  - intros k c o [[= <- <-]|[[= <- <-]|[]]] [= <-]. reflexivity.
Defined.

(** X20. A shorthand that is accepted, with an objectType that does not
    end with the optional marker, has an explicit form that is normalized
    to the same record: the definition that gives the record's type, its
    objectType and its optional flag, and nothing else. *)
Theorem shorthand_has_explicit_form
    (Value : Type) (info : PropertyInfo.t Value) (s : string)
    (c : CanonicalPropertySchema.t Value) :
  normalizePropertySchemaShorthand info s = Ok c ->
  (forall o, CanonicalPropertySchema.objectType c = Some o -> JS.endsWith o "?" = false) ->
  normalizePropertySchemaObject info (explicitOf c) = Ok c.
Proof.
  intros H UM. pose proof (shorthand_again info s c H UM) as Again.
  destruct (normalizePropertySchemaShorthand_Ok info s c H)
    as (? & ? & ? & ? & type & objectType & optional & _ & _ & _ & _ & _ & ->).
  change (normalizePropertySchemaObject info
            (explicitOf (shorthandRecord info type objectType (JS.truthyBool optional)))
          = Ok (shorthandRecord info type objectType (JS.truthyBool optional))).
  rewrite explicitOf_toRawProperty. exact Again.
Qed.

Lemma shorthand_has_explicit_form_witness :
  let info : PropertyInfo.t nat :=
    PropertyInfo.mk "Person" "scores" (Shorthand "int?[]") (Some false) in
  normalizePropertySchemaShorthand info "int?[]"
  = Ok (shorthandRecord info "list" (Some "int") true)
  /\ normalizePropertySchemaObject info
       (PropertySchema.mk "list" (Some "int") None (Some true) None None None)
     = Ok (shorthandRecord info "list" (Some "int") true).
Proof.
  intros info. split; [reflexivity|].
  change (normalizePropertySchemaObject info
            (explicitOf (shorthandRecord info "list" (Some "int") true))
          = Ok (shorthandRecord info "list" (Some "int") true)).
  apply (shorthand_has_explicit_form nat info "int?[]").
  - reflexivity.
  - intros o [= <-]. reflexivity.
Defined.

(** ** Reserved words, and the canonical object *)

(** X21. A collection keyword, object or linkingObjects cannot be the
    element of a shorthand: with or without the optional marker and a
    collection suffix, the shorthand is rejected with a property error. *)
Theorem shorthand_rejects_keywords
    (Value : Type) (info : PropertyInfo.t Value) (e : string) (b : bool) (suffix : string) :
  In e ["list"; "dictionary"; "set"; "object"; "linkingObjects"] ->
  suffix = "" \/ In suffix collectionSuffixes ->
  exists message,
    normalizePropertySchemaShorthand info (e ++ marker b ++ suffix)
    = Throw (PropertySchemaParseError message
               (PropertyInfo.objectName info) (PropertyInfo.propertyName info)).
Proof.
  intros He Hs.
  assert (Cases : suffix = "" \/ suffix = "[]" \/ suffix = "{}" \/ suffix = "<>").
  { destruct Hs as [-> | [<-|[<-|[<-|[]]]]]; auto. }
  destruct He as [<-|[<-|[<-|[<-|[<-|[]]]]]]; destruct b;
    destruct Cases as [-> | [-> | [-> | ->]]]; eexists; reflexivity.
Qed.

Lemma shorthand_rejects_keywords_witness :
  exists message,
    normalizePropertySchemaShorthand
      (PropertyInfo.mk "Person" "pets" (Shorthand "list?[]") None : PropertyInfo.t nat)
      "list?[]"
    = Throw (PropertySchemaParseError message "Person" "pets").
Proof.
  apply (shorthand_rejects_keywords nat
           (PropertyInfo.mk "Person" "pets" (Shorthand "list?[]") None) "list" true "[]").
  - left. reflexivity.
  - right. left. reflexivity.
Defined.

Section CanonicalObject.

Context {Value : Type}.

(** What holds of the result of the mapping branch, and is kept when a
    constructor is recorded, holds of every canonical object schema. *)
Lemma normalizeObjectSchema_inv (P : CanonicalObjectSchema.t Value -> Prop)
    (flags : Flags) (arg : ObjectSchemaInput Value) (C : CanonicalObjectSchema.t Value) :
  (forall name primaryKey asymmetric embedded properties C',
      normalizeObjectSchemaMapping name primaryKey asymmetric embedded properties = Ok C' ->
      P C') ->
  (forall C' c, P C' -> P (setCtor C' c)) ->
  normalizeObjectSchema flags arg = Ok C -> P C.
Proof.
  intros HM HC.
  assert (Plain_Ok : forall (o : ObjectSchema.t Value) C',
             normalizeObjectSchemaPlain flags o = Ok C' -> P C').
  { intros o C'. unfold normalizeObjectSchemaPlain.
    destruct (ObjectSchema.properties o) as [entries|items].
    - apply HM.
    - destruct (ALLOW_VALUES_ARRAYS flags); [apply HM | discriminate]. }
  destruct arg as [c|o]; simpl.
  - destruct (RealmObjectConstructor.schema c) as [schema|]; [|discriminate].
    intros H. bind_inv H. injection H as <-. apply HC. exact (Plain_Ok _ _ H0).
  - apply Plain_Ok.
Qed.

End CanonicalObject.

(** X22. Every canonical object schema has a name that is not empty and
    is not both asymmetric and embedded; its constructor is recorded
    exactly when the input is a class constructor, and is that
    constructor. *)
Theorem canonical_object_invariant
    (Value : Type) (flags : Flags) (arg : ObjectSchemaInput Value)
    (C : CanonicalObjectSchema.t Value) :
  normalizeObjectSchema flags arg = Ok C ->
  CanonicalObjectSchema.name C <> ""
  /\ (CanonicalObjectSchema.asymmetric C && CanonicalObjectSchema.embedded C = false)
  /\ CanonicalObjectSchema.ctor C
     = match arg with Class c => Some c | Plain _ => None end.
Proof.
  intros H. split; [|split].
  - apply (normalizeObjectSchema_inv
             (fun C => CanonicalObjectSchema.name C <> "") flags arg C); [| |exact H].
    + intros name primaryKey asymmetric embedded properties C'.
      unfold normalizeObjectSchemaMapping. intros H'. do 4 bind_inv H'.
      injection H' as <-. apply assert_Ok, JS_length_positive in H0. exact H0.
    + intros C' c HC. exact HC.
  - apply (normalizeObjectSchema_inv
             (fun C => CanonicalObjectSchema.asymmetric C
                       && CanonicalObjectSchema.embedded C = false) flags arg C);
      [| |exact H].
    + intros name primaryKey asymmetric embedded properties C'.
      unfold normalizeObjectSchemaMapping. intros H'. do 4 bind_inv H'.
      injection H' as <-. apply assert_Ok in H2.
      cbn [CanonicalObjectSchema.asymmetric CanonicalObjectSchema.embedded].
      destruct (JS.truthyBool asymmetric), (JS.truthyBool embedded);
        try reflexivity; discriminate H2.
    + intros C' c HC. exact HC.
  - destruct arg as [c|o]; simpl in H.
    + destruct (RealmObjectConstructor.schema c) as [schema|]; [|discriminate].
      bind_inv H. injection H as <-. reflexivity.
    + unfold normalizeObjectSchemaPlain in H.
      assert (M : forall name primaryKey asymmetric embedded properties,
                 normalizeObjectSchemaMapping name primaryKey asymmetric embedded properties
                 = Ok C -> CanonicalObjectSchema.ctor C = None).
      { intros name primaryKey asymmetric embedded properties.
        unfold normalizeObjectSchemaMapping. intros H'. do 4 bind_inv H'.
        injection H' as <-. reflexivity. }
      destruct (ObjectSchema.properties o) as [entries|items].
      * exact (M _ _ _ _ _ H).
      * destruct (ALLOW_VALUES_ARRAYS flags); [exact (M _ _ _ _ _ H) | discriminate].
Qed.

Lemma canonical_object_invariant_witness :
  let flags := {| ALLOW_VALUES_ARRAYS := false |} in
  let person : ObjectSchema.t nat :=
    ObjectSchema.mk "Person" None (Some true) None (PropertiesObject [("age", Shorthand "int")]) in
  let ctor : RealmObjectConstructor.t nat := RealmObjectConstructor.mk 7 (Some person) in
  exists C, normalizeObjectSchema flags (Class ctor) = Ok C
            /\ CanonicalObjectSchema.ctor C = Some ctor
            /\ CanonicalObjectSchema.embedded C = false.
Proof.
  intros flags person ctor. eexists. split; [vm_compute; reflexivity|].
  destruct (canonical_object_invariant nat flags (Class ctor) _ eq_refl) as (_ & F & E).
  split; [exact E | reflexivity].
Defined.
